(** * The Jailhouse loader driver (main.c): a shallow embedding

    The driver keeps its state in a handful of static variables and talks to
    the rest of the kernel through calls whose outcome it cannot predict
    (user copies, firmware loading, ioremap, CPU hotplug, the hypervisor).
    The embedding passes the state explicitly and takes the outcome of every
    such call from a record supplied by the caller of the operation.

    Mapped memory and kmalloc buffers are tracked by address and size;
    their contents are not part of the state.  A copy from user space shows
    through its result, which is one of the supplied outcomes.  What the
    driver itself reads and writes through a pointer (memcpy and memset into
    the mapped region, the members of the configuration buffer) has to lie
    inside the mapping or buffer it points into, a member of a structure
    counting as inside when the whole structure is.  Where the source leaves
    the mapping or buffer, C gives the call no behaviour and the embedding
    gives it no result: [None], as for a busy wait that never ends.
    preempt_disable and preempt_enable leave no mark. *)

From Stdlib Require Import ZArith List Bool Lia Permutation Sorted.
Import ListNotations.
Local Open Scope Z_scope.

(** ** Error numbers (linux/errno.h) *)

Definition EINTR : Z := 4.
Definition ENOMEM : Z := 12.
Definition EFAULT : Z := 14.
Definition EBUSY : Z := 16.
Definition EINVAL : Z := 22.
Definition ENOSYS : Z := 38.

(** ** Machine integers

    The driver is built for a 64-bit kernel: [unsigned long] and [__u64] are
    64 bits wide, [unsigned int] and [__u32] 32 bits.  Unsigned arithmetic
    wraps around. *)

Definition BITS_PER_LONG : Z := 64.
Definition ulong (x : Z) : Z := x mod 2 ^ BITS_PER_LONG.
Definition u64 (x : Z) : Z := x mod 2 ^ 64.
Definition u32 (x : Z) : Z := x mod 2 ^ 32.

Definition PAGE_SIZE : Z := 4096.
(** [PAGE_MASK] is [~(PAGE_SIZE-1)] as an [unsigned long]. *)
Definition PAGE_MASK : Z := ulong (Z.lnot (PAGE_SIZE - 1)).
(** [PAGE_ALIGN(addr)] is [((addr) + PAGE_SIZE-1) & PAGE_MASK]. *)
Definition PAGE_ALIGN (addr : Z) : Z :=
  Z.land (ulong (addr + (PAGE_SIZE - 1))) PAGE_MASK.

(** ** CPU masks

    A [cpumask_t] is a bitmap with one bit per CPU number. *)

Definition cpu_isset (cpu mask : Z) : bool := Z.testbit mask cpu.
Definition cpu_set (cpu mask : Z) : Z := Z.setbit mask cpu.
Definition cpu_clear (cpu mask : Z) : Z := Z.clearbit mask cpu.

(** ** Structures shared with user space and the hypervisor *)

(** [struct jailhouse_memory]; the field names are those config/minimal.c
    initialises, every field is a [__u64]. *)
Record jailhouse_memory : Type := mkMemory {
  phys_start : Z;
  virt_start : Z;
  size : Z;
  access_flags : Z
}.

(** [struct jailhouse_header], the head of the hypervisor image.  Only the
    fields the loader reads are kept; [bss_end] and [percpu_size] are
    [unsigned long]. *)
Record jailhouse_header : Type := mkHeader {
  signature : list Z;
  bss_end : Z;
  percpu_size : Z;
  entry : Z
}.

(** [struct firmware]: [fw_size] is the length of the image in bytes and
    [fw_data] the header its data starts with, the image being taken to hold
    a whole header. *)
Record firmware : Type := mkFirmware {
  fw_size : Z;
  fw_data : jailhouse_header
}.

(** [struct jailhouse_system]: the reserved memory region followed by the
    caller's configuration, whose length the header declares. *)
Record jailhouse_system : Type := mkSystem {
  hypervisor_memory : jailhouse_memory;
  declared_size : Z
}.

(** [struct jailhouse_preload_image] and [struct jailhouse_new_cell]. *)
Record jailhouse_preload_image : Type := mkImage {
  source_address : Z;
  image_size : Z;
  target_address : Z
}.

Record jailhouse_new_cell : Type := mkNewCell {
  config_address : Z;
  config_size : Z;
  num_preload_images : Z
}.

(** [struct jailhouse_cell_desc], with the fields config/minimal.c sets. *)
Record jailhouse_cell_desc : Type := mkDesc {
  name : list Z;
  cpu_set_size : Z;
  num_memory_regions : Z;
  num_irq_lines : Z;
  pio_bitmap_size : Z;
  num_pci_devices : Z
}.

(** The memory at [config] as CreateCell reads it: the descriptor, the
    bytes that follow it, which are the CPU set (a position the list does
    not reach holds 0), and the [struct jailhouse_memory] found right after
    the [cpu_set_size] bytes of the CPU set.  How much of this lies inside
    the buffer is for [config_size] to say. *)
Record cell_config : Type := mkConfig {
  desc : jailhouse_cell_desc;
  cpu_mask : list Z;
  ram : jailhouse_memory
}.

(** ** What the driver does to the outside *)

Inductive event : Type :=
| CpuDown (cpu err : Z)                (* cpu_down(cpu) returned err *)
| CpuUp (cpu err : Z)                  (* cpu_up(cpu) returned err *)
| HcCellCreate (config : cell_config)  (* JAILHOUSE_HC_CELL_CREATE on config *)
| PrintkOpening                        (* The Jailhouse is opening. *)
| PrintkClosed                         (* The Jailhouse was closed. *)
| PrintkCpuUpFailed (cpu : Z)          (* failed to bring CPU %d back online *)
| PrintkCreated (cell_name : list Z).  (* Created Jailhouse cell %s *)

(** A region mapped by [jailhouse_ioremap] and not yet unmapped. *)
Record mapping : Type := mkMapping {
  map_addr : Z;
  map_phys : Z;
  map_size : Z
}.

(** ** The state

    The first six fields are the driver's static variables; the others are
    the kernel resources it takes and gives back, the CPUs that are online,
    and the record of its calls. *)
Record state : Type := mkState {
  lock : bool;
  enabled : bool;
  hypervisor_mem : Z;
  offlined_cpus : Z;
  call_done : Z;
  error_code : Z;
  module_refcount : Z;
  firmware_refs : Z;
  iomappings : list mapping;
  kmalloc_live : Z;
  cpu_online_mask : Z;
  trace : list event
}.

Definition set_lock (v : bool) (s : state) : state :=
  mkState v (enabled s) (hypervisor_mem s) (offlined_cpus s) (call_done s)
    (error_code s) (module_refcount s) (firmware_refs s) (iomappings s)
    (kmalloc_live s) (cpu_online_mask s) (trace s).

Definition set_enabled (v : bool) (s : state) : state :=
  mkState (lock s) v (hypervisor_mem s) (offlined_cpus s) (call_done s)
    (error_code s) (module_refcount s) (firmware_refs s) (iomappings s)
    (kmalloc_live s) (cpu_online_mask s) (trace s).

Definition set_hypervisor_mem (v : Z) (s : state) : state :=
  mkState (lock s) (enabled s) v (offlined_cpus s) (call_done s)
    (error_code s) (module_refcount s) (firmware_refs s) (iomappings s)
    (kmalloc_live s) (cpu_online_mask s) (trace s).

Definition set_offlined_cpus (v : Z) (s : state) : state :=
  mkState (lock s) (enabled s) (hypervisor_mem s) v (call_done s)
    (error_code s) (module_refcount s) (firmware_refs s) (iomappings s)
    (kmalloc_live s) (cpu_online_mask s) (trace s).

Definition set_call_done (v : Z) (s : state) : state :=
  mkState (lock s) (enabled s) (hypervisor_mem s) (offlined_cpus s) v
    (error_code s) (module_refcount s) (firmware_refs s) (iomappings s)
    (kmalloc_live s) (cpu_online_mask s) (trace s).

Definition set_error_code (v : Z) (s : state) : state :=
  mkState (lock s) (enabled s) (hypervisor_mem s) (offlined_cpus s)
    (call_done s) v (module_refcount s) (firmware_refs s) (iomappings s)
    (kmalloc_live s) (cpu_online_mask s) (trace s).

Definition set_module_refcount (v : Z) (s : state) : state :=
  mkState (lock s) (enabled s) (hypervisor_mem s) (offlined_cpus s)
    (call_done s) (error_code s) v (firmware_refs s) (iomappings s)
    (kmalloc_live s) (cpu_online_mask s) (trace s).

Definition set_firmware_refs (v : Z) (s : state) : state :=
  mkState (lock s) (enabled s) (hypervisor_mem s) (offlined_cpus s)
    (call_done s) (error_code s) (module_refcount s) v (iomappings s)
    (kmalloc_live s) (cpu_online_mask s) (trace s).

Definition set_iomappings (v : list mapping) (s : state) : state :=
  mkState (lock s) (enabled s) (hypervisor_mem s) (offlined_cpus s)
    (call_done s) (error_code s) (module_refcount s) (firmware_refs s) v
    (kmalloc_live s) (cpu_online_mask s) (trace s).

Definition set_kmalloc_live (v : Z) (s : state) : state :=
  mkState (lock s) (enabled s) (hypervisor_mem s) (offlined_cpus s)
    (call_done s) (error_code s) (module_refcount s) (firmware_refs s)
    (iomappings s) v (cpu_online_mask s) (trace s).

Definition set_cpu_online_mask (v : Z) (s : state) : state :=
  mkState (lock s) (enabled s) (hypervisor_mem s) (offlined_cpus s)
    (call_done s) (error_code s) (module_refcount s) (firmware_refs s)
    (iomappings s) (kmalloc_live s) v (trace s).

Definition emit (e : event) (s : state) : state :=
  mkState (lock s) (enabled s) (hypervisor_mem s) (offlined_cpus s)
    (call_done s) (error_code s) (module_refcount s) (firmware_refs s)
    (iomappings s) (kmalloc_live s) (cpu_online_mask s) (trace s ++ [e]).

(** ** Kernel services *)

Definition mutex_lock (s : state) : state := set_lock true s.
Definition mutex_unlock (s : state) : state := set_lock false s.

Definition module_get (s : state) : state :=
  set_module_refcount (module_refcount s + 1) s.
Definition module_put (s : state) : state :=
  set_module_refcount (module_refcount s - 1) s.

Definition firmware_loaded (s : state) : state :=
  set_firmware_refs (firmware_refs s + 1) s.
Definition release_firmware (s : state) : state :=
  set_firmware_refs (firmware_refs s - 1) s.

Definition kmalloc (s : state) : state :=
  set_kmalloc_live (kmalloc_live s + 1) s.
Definition kfree (s : state) : state :=
  set_kmalloc_live (kmalloc_live s - 1) s.

Arguments set_lock v s /.
Arguments set_enabled v s /.
Arguments set_hypervisor_mem v s /.
Arguments set_offlined_cpus v s /.
Arguments set_call_done v s /.
Arguments set_error_code v s /.
Arguments set_module_refcount v s /.
Arguments set_firmware_refs v s /.
Arguments set_iomappings v s /.
Arguments set_kmalloc_live v s /.
Arguments set_cpu_online_mask v s /.
Arguments emit e s /.
Arguments mutex_lock s /.
Arguments mutex_unlock s /.
Arguments module_get s /.
Arguments module_put s /.
Arguments firmware_loaded s /.
Arguments release_firmware s /.
Arguments kmalloc s /.
Arguments kfree s /.

(** [jailhouse_ioremap(start, size)]: [addr] is what ioremap_cache returns,
    0 for NULL, in which case nothing is mapped. *)
Definition jailhouse_ioremap (addr start sz : Z) (s : state) : state :=
  if addr =? 0 then s
  else set_iomappings (mkMapping addr start sz :: iomappings s) s.

Fixpoint unmap (addr : Z) (l : list mapping) : list mapping :=
  match l with
  | [] => []
  | m :: rest => if map_addr m =? addr then rest else m :: unmap addr rest
  end.

Definition iounmap (addr : Z) (s : state) : state :=
  set_iomappings (unmap addr (iomappings s)) s.

Arguments iounmap addr s /.

Definition is_mapped (addr : Z) (s : state) : bool :=
  existsb (fun m => map_addr m =? addr) (iomappings s).

(** ** Outcomes of the calls the driver cannot predict *)

(** One Enable request.  [ew_copy_header] is the header copied from the
    caller ([None]: the copy faults); [ew_lock] is what
    mutex_lock_interruptible returns; [ew_request_firmware] is the result of
    request_firmware and [ew_firmware] the image it delivers;
    [ew_ioremap] the address ioremap_cache returns; [ew_copy_config] what
    the copy of the whole configuration returns; [ew_entry cpu] what the
    hypervisor's entry returns on [cpu]; [ew_schedule] the order in which
    the CPUs run [enter_hypervisor]. *)
Record enable_world : Type := mkEnableWorld {
  ew_copy_header : option jailhouse_system;
  ew_lock : Z;
  ew_module_get : bool;
  ew_request_firmware : Z;
  ew_firmware : firmware;
  ew_ioremap : Z;
  ew_copy_config : Z;
  ew_entry : Z -> Z;
  ew_schedule : list Z
}.

(** One Disable request: the lock, the result of the disable hypercall on
    each CPU, the order in which the CPUs run [leave_hypervisor], and the
    result of cpu_up for each CPU. *)
Record disable_world : Type := mkDisableWorld {
  dw_lock : Z;
  dw_hc_disable : Z -> Z;
  dw_schedule : list Z;
  dw_cpu_up : Z -> Z
}.

(** One CreateCell request: the three copies from the caller ([None]: the
    copy faults), whether kmalloc delivers, the result of cpu_down for each
    CPU, the address ioremap_cache returns, what the copy of the preload
    image returns, the lock, and the result of the create hypercall. *)
Record create_world : Type := mkCreateWorld {
  cw_copy_cell : option jailhouse_new_cell;
  cw_copy_image : option jailhouse_preload_image;
  cw_kmalloc : bool;
  cw_copy_config : option cell_config;
  cw_cpu_down : Z -> Z;
  cw_ioremap : Z;
  cw_copy_preload : Z;
  cw_lock : Z;
  cw_hc_cell_create : Z
}.

Fixpoint bytes_eqb (a b : list Z) : bool :=
  match a, b with
  | [], [] => true
  | x :: a', y :: b' => (x =? y) && bytes_eqb a' b'
  | _, _ => false
  end.

(** [memcmp(a, b, sizeof(a)) == 0] *)
Definition memcmp_eq (a b : list Z) : bool :=
  bytes_eqb a (firstn (length a) b).

(** The characters of a C string: the bytes before the first NUL. *)
Fixpoint c_string (bytes : list Z) : list Z :=
  match bytes with
  | [] => []
  | b :: rest => if b =? 0 then [] else b :: c_string rest
  end.

(** [a[i] = v] on an array of fixed length. *)
Fixpoint array_set (a : list Z) (i : nat) (v : Z) : list Z :=
  match a, i with
  | [], _ => []
  | _ :: rest, O => v :: rest
  | x :: rest, S j => x :: array_set rest j v
  end.

Definition range (n : Z) : list Z := map Z.of_nat (seq 0 (Z.to_nat n)).

(** ** Reading a list of per-CPU results

    [first_failure] is the first result that is not 0 and [last_failure] the
    last one; both are 0 when every result is. *)
Fixpoint first_failure (results : list Z) : Z :=
  match results with
  | [] => 0
  | r :: rest => if r =? 0 then first_failure rest else r
  end.

Definition last_failure (results : list Z) : Z :=
  first_failure (rev results).

(** ** Sample data *)

(** A machine with CPUs 0 to 3 online and the driver freshly loaded. *)
Definition boot_state : state :=
  mkState false false 0 0 0 0 0 0 [] 0 15 [].

(** The bytes of the signature. *)
Definition sample_signature : list Z := [74; 65; 73; 76; 72; 79; 85; 83].

Definition sample_header : jailhouse_header :=
  mkHeader sample_signature 1048576 4096 0.

Definition sample_system : jailhouse_system :=
  mkSystem (mkMemory 1073741824 0 4194304 0) 4096.

(** An Enable request on which every call succeeds. *)
Definition sample_enable : enable_world :=
  mkEnableWorld (Some sample_system) 0 true 0
    (mkFirmware 65536 sample_header) 3221225472 0 (fun _ => 0) [0; 1; 2; 3].

Definition sample_disable : disable_world :=
  mkDisableWorld 0 (fun _ => 0) [0; 1; 2; 3] (fun _ => 0).

(** The cell of config/minimal.c: the name Minimal, CPU 3 in a CPU set of
    one [__u64], and 1 MiB of RAM at 0x3bf00000. *)
Definition minimal_config : cell_config :=
  mkConfig
    (mkDesc ([77; 105; 110; 105; 109; 97; 108] ++ repeat 0 25) 8 1 0 8192 0)
    [8; 0; 0; 0; 0; 0; 0; 0]
    (mkMemory 1005584384 0 1048576 7).

Definition sample_image : jailhouse_preload_image := mkImage 6291456 8192 0.

(** A CreateCell request for that cell on which every call succeeds. *)
Definition sample_create : create_world :=
  mkCreateWorld (Some (mkNewCell 4194304 8288 1)) (Some sample_image) true
    (Some minimal_config) (fun _ => 0) 3225419776 0 0 0.

(** The machine after that Enable and that CreateCell: the hypervisor is
    mapped and enabled, CPU 3 is offline and in [offlined_cpus]. *)
Definition enabled_state : state :=
  mkState false true 3221225472 8 4 0 1 0
    [mkMapping 3221225472 1073741824 4194304] 0 7 [].

(** Per-CPU results: CPU 1 fails with -EBUSY and CPU 2 with -EINVAL. *)
Definition two_errors (cpu : Z) : Z :=
  if cpu =? 1 then - EBUSY else if cpu =? 2 then - EINVAL else 0.

(** Per-CPU results: CPUs 1 and 2 fail with -EBUSY. *)
Definition one_error (cpu : Z) : Z :=
  if (cpu =? 1) || (cpu =? 2) then - EBUSY else 0.

(** Enable requests: the module reference is refused; the copy of the
    configuration faults; the image declares a per-CPU size of 2^62. *)
Definition busy_enable : enable_world :=
  mkEnableWorld (Some sample_system) 0 false 0
    (mkFirmware 65536 sample_header) 3221225472 0 (fun _ => 0) [0; 1; 2; 3].

Definition faulting_enable : enable_world :=
  mkEnableWorld (Some sample_system) 0 true 0
    (mkFirmware 65536 sample_header) 3221225472 1 (fun _ => 0) [0; 1; 2; 3].

Definition wrapping_header : jailhouse_header :=
  mkHeader sample_signature 1048576 (2 ^ 62) 0.

Definition wrapping_enable : enable_world :=
  mkEnableWorld (Some sample_system) 0 true 0
    (mkFirmware 65536 wrapping_header) 3221225472 0 (fun _ => 0) [0; 1; 2; 3].

(** Disable requests on [enabled_state], whose online CPUs are 0, 1 and 2:
    all goes well; CPUs 1 and 2 refuse to leave. *)
Definition clean_disable : disable_world :=
  mkDisableWorld 0 (fun _ => 0) [1; 0; 2] (fun _ => 0).

Definition failing_disable : disable_world :=
  mkDisableWorld 0 one_error [1; 0; 2] (fun _ => 0).

(** A cell that asks for CPUs 1, 2 and 3, and a CreateCell request for it in
    which cpu_down fails on CPU 3. *)
Definition three_cpu_config : cell_config :=
  mkConfig (desc minimal_config) [14; 0; 0; 0; 0; 0; 0; 0] (ram minimal_config).

Definition failing_create : create_world :=
  mkCreateWorld (Some (mkNewCell 4194304 8288 1)) (Some sample_image) true
    (Some three_cpu_config) (fun cpu => if cpu =? 3 then - EBUSY else 0)
    3225419776 0 0 0.

(** A CreateCell request whose wait for the lock is interrupted. *)
Definition interrupted_create : create_world :=
  mkCreateWorld (Some (mkNewCell 4194304 8288 1)) (Some sample_image) true
    (Some minimal_config) (fun _ => 0) 3225419776 0 (- EINTR) 0.

(** A descriptor whose name field holds 32 letters and no NUL. *)
Definition unterminated_config : cell_config :=
  mkConfig (mkDesc (repeat 65 32) 8 1 0 8192 0) (cpu_mask minimal_config)
    (ram minimal_config).

Definition unterminated_create : create_world :=
  mkCreateWorld (Some (mkNewCell 4194304 8288 1)) (Some sample_image) true
    (Some unterminated_config) (fun _ => 0) 3225419776 0 0 0.

(** A preload image of 8 KiB to be placed 4 KiB below 2^64. *)
Definition wrapping_image : jailhouse_preload_image :=
  mkImage 6291456 8192 (2 ^ 64 - 4096).

Definition wrapping_create : create_world :=
  mkCreateWorld (Some (mkNewCell 4194304 8288 1)) (Some wrapping_image) true
    (Some minimal_config) (fun _ => 0) 3225419776 0 0 0.

(** Enable requests: the image carries eight NUL bytes for a signature; the
    region is exactly as large as the three sizes together. *)
Definition unsigned_enable : enable_world :=
  mkEnableWorld (Some sample_system) 0 true 0
    (mkFirmware 65536 (mkHeader (repeat 0 8) 1048576 4096 0))
    3221225472 0 (fun _ => 0) [0; 1; 2; 3].

Definition cramped_system : jailhouse_system :=
  mkSystem (mkMemory 1073741824 0 (1048576 + 16384 + 4096) 0) 4096.

Definition cramped_enable : enable_world :=
  mkEnableWorld (Some cramped_system) 0 true 0
    (mkFirmware 65536 sample_header) 3221225472 0 (fun _ => 0) [0; 1; 2; 3].

(** The cell of config/minimal.c with one byte of RAM less, and a CreateCell
    request for it. *)
Definition small_config : cell_config :=
  mkConfig (desc minimal_config) (cpu_mask minimal_config)
    (mkMemory 1005584384 0 1048575 7).

Definition small_create : create_world :=
  mkCreateWorld (Some (mkNewCell 4194304 8288 1)) (Some sample_image) true
    (Some small_config) (fun _ => 0) 3225419776 0 0 0.





(** An Enable request whose image of 8 MiB is longer than the region of
    4 MiB. *)
Definition oversized_enable : enable_world :=
  mkEnableWorld (Some sample_system) 0 true 0
    (mkFirmware 8388608 sample_header) 3221225472 0 (fun _ => 0) [0; 1; 2; 3].

Section Driver.

(** Constants of the build that main.c takes from elsewhere: the kernel's
    NR_CPUS and num_possible_cpus(), and from the Jailhouse headers the
    signature, the length of a cell name, the size of a system
    configuration, and [sizeof(struct jailhouse_cell_desc)] and
    [sizeof(struct jailhouse_memory)]. *)
Variable NR_CPUS : nat.
Variable num_possible_cpus : Z.
Variable JAILHOUSE_SIGNATURE : list Z.
Variable JAILHOUSE_CELL_NAME_MAXLEN : nat.
Variable jailhouse_system_config_size : jailhouse_system -> Z.
Variable sizeof_jailhouse_cell_desc : Z.
Variable sizeof_jailhouse_memory : Z.

(** The CPUs of a mask, in the order for_each_cpu_mask visits them. *)
Definition for_each_cpu_mask (mask : Z) : list Z :=
  filter (fun cpu => cpu_isset cpu mask) (map Z.of_nat (seq 0 NR_CPUS)).

Definition num_online_cpus (s : state) : Z :=
  Z.of_nat (length (for_each_cpu_mask (cpu_online_mask s))).

Definition cpu_online (cpu : Z) (s : state) : bool :=
  cpu_isset cpu (cpu_online_mask s).

(** ** The rendezvous *)

Definition atomic_inc_call_done (s : state) : state :=
  set_call_done (call_done s + 1) s.

Definition enter_hypervisor (entry_fn : Z -> Z) (cpu : Z) (s : state) : state :=
  let err := entry_fn cpu in
  let s := if negb (err =? 0) then set_error_code err s else s in
  atomic_inc_call_done s.

Definition leave_hypervisor (hc_disable : Z -> Z) (cpu : Z) (s : state) : state :=
  let err := hc_disable cpu in
  let s := if negb (err =? 0) then set_error_code err s else s in
  atomic_inc_call_done s.

(** [on_each_cpu(f, ...)]: every CPU of [sched] runs [f], in that order. *)
Definition on_each_cpu (f : Z -> state -> state) (sched : list Z) (s : state)
  : state :=
  fold_left (fun s cpu => f cpu s) sched s.

(** atomic_set, on_each_cpu and the busy wait on [call_done].  When the
    counter does not reach num_online_cpus() the wait never ends: [None]. *)
Definition rendezvous (f : Z -> state -> state) (sched : list Z) (s : state)
  : option state :=
  let s := set_call_done 0 s in
  let s := on_each_cpu f sched s in
  if call_done s =? num_online_cpus s then Some s else None.

(** ** jailhouse_enable *)

Definition error_unlock (err : Z) (s : state) : state * Z :=
  (mutex_unlock s, err).
Definition error_put_module (err : Z) (s : state) : state * Z :=
  error_unlock err (module_put s).
Definition error_release_fw (err : Z) (s : state) : state * Z :=
  error_put_module err (release_firmware s).
Definition error_unmap (err : Z) (s : state) : state * Z :=
  error_release_fw err (iounmap (hypervisor_mem s) s).

(** The three sizes of the layout, as the locals of jailhouse_enable. *)
Definition hv_core_size (header : jailhouse_header) : Z :=
  PAGE_ALIGN (bss_end header).
Definition percpu_area_size (header : jailhouse_header) : Z :=
  ulong (num_possible_cpus * percpu_size header).
Definition system_config_size (config_header : jailhouse_system) : Z :=
  ulong (jailhouse_system_config_size config_header).

(** [hv_mem->size <= hv_core_size + percpu_size + config_size] *)
Definition layout_overflow (config_header : jailhouse_system)
    (header : jailhouse_header) : bool :=
  size (hypervisor_memory config_header) <=?
  ulong (hv_core_size header + percpu_area_size header
         + system_config_size config_header).

(** The result is [None] when the call does not come back: the image is
    longer than the region, so that memcpy writes [hypervisor->size] bytes
    past the end of the mapping and the length of the memset,
    [hv_mem->size - hypervisor->size], wraps around; or the busy wait never
    ends. *)
Definition jailhouse_enable (w : enable_world) (s : state)
  : option (state * Z) :=
  match ew_copy_header w with
  | None => Some (s, - EFAULT)
  | Some config_header =>
    let hv_mem := hypervisor_memory config_header in
    if negb (ew_lock w =? 0) then Some (s, - EINTR) else
    let s := mutex_lock s in
    if enabled s then Some (error_unlock (- EBUSY) s) else
    if negb (ew_module_get w) then Some (error_unlock (- EBUSY) s) else
    let s := module_get s in
    let err := ew_request_firmware w in
    if negb (err =? 0) then Some (error_put_module err s) else
    let s := firmware_loaded s in
    let header := fw_data (ew_firmware w) in
    if negb (memcmp_eq (signature header) JAILHOUSE_SIGNATURE)
    then Some (error_release_fw (- EINVAL) s) else
    if layout_overflow config_header header
    then Some (error_release_fw (- EINVAL) s) else
    let s := jailhouse_ioremap (ew_ioremap w) (phys_start hv_mem)
               (size hv_mem) s in
    let s := set_hypervisor_mem (ew_ioremap w) s in
    if hypervisor_mem s =? 0 then Some (error_release_fw (- EINVAL) s) else
    if size hv_mem <? fw_size (ew_firmware w) then None else
    if negb (ew_copy_config w =? 0) then Some (error_unmap (- EFAULT) s) else
    let s := set_error_code 0 s in
    match rendezvous (enter_hypervisor (ew_entry w)) (ew_schedule w) s with
    | None => None
    | Some s =>
      if negb (error_code s =? 0) then Some (error_unmap (error_code s) s)
      else
        let s := release_firmware s in
        let s := set_enabled true s in
        let s := mutex_unlock s in
        let s := emit PrintkOpening s in
        Some (s, 0)
    end
  end.

(** ** jailhouse_disable *)

(** The body of the for_each_cpu_mask loop. *)
Definition bring_back_online (cpu_up : Z -> Z) (s : state) (cpu : Z) : state :=
  let err := cpu_up cpu in
  let s := emit (CpuUp cpu err) s in
  if negb (err =? 0) then emit (PrintkCpuUpFailed cpu) s
  else set_cpu_online_mask (cpu_set cpu (cpu_online_mask s)) s.

Definition jailhouse_disable (w : disable_world) (s : state)
  : option (state * Z) :=
  if negb (dw_lock w =? 0) then Some (s, - EINTR) else
  let s := mutex_lock s in
  if negb (enabled s) then Some (mutex_unlock s, - EINVAL) else
  let s := set_error_code 0 s in
  match rendezvous (leave_hypervisor (dw_hc_disable w)) (dw_schedule w) s with
  | None => None
  | Some s =>
    let err := error_code s in
    if negb (err =? 0) then Some (mutex_unlock s, err) else
    let s := iounmap (hypervisor_mem s) s in
    let s := fold_left (bring_back_online (dw_cpu_up w))
               (for_each_cpu_mask (offlined_cpus s)) s in
    let s := set_enabled false s in
    let s := module_put s in
    let s := emit PrintkClosed s in
    Some (mutex_unlock s, 0)
  end.

(** ** jailhouse_cell_create *)

(** [config->name[JAILHOUSE_CELL_NAME_MAXLEN] = 0] *)
Definition terminate_name (config : cell_config) : cell_config :=
  let d := desc config in
  mkConfig
    (mkDesc (array_set (name d) JAILHOUSE_CELL_NAME_MAXLEN 0)
       (cpu_set_size d) (num_memory_regions d) (num_irq_lines d)
       (pio_bitmap_size d) (num_pci_devices d))
    (cpu_mask config) (ram config).

(** A for loop whose body may leave through [goto] with an error: the body
    returns 0 to go on and the error code to leave.  A body without a result
    leaves the loop without one. *)
Fixpoint for_loop (idx : list Z) (body : Z -> state -> option (state * Z))
    (s : state) : option (state * Z) :=
  match idx with
  | [] => Some (s, 0)
  | i :: rest =>
      match body i s with
      | None => None
      | Some (s', err) =>
          if negb (err =? 0) then Some (s', err) else for_loop rest body s'
      end
  end.

(** [cpu_mask[mask_pos]], where [cpu_mask] points
    [sizeof(struct jailhouse_cell_desc)] bytes into a buffer of
    [cell->config_size] bytes: [None] when the byte lies past its end. *)
Definition read_cpu_mask (cell : jailhouse_new_cell) (config : cell_config)
    (mask_pos : Z) : option Z :=
  if sizeof_jailhouse_cell_desc + mask_pos <? config_size cell
  then Some (nth (Z.to_nat mask_pos) (cpu_mask config) 0)
  else None.

(** The body of the inner loop. *)
Definition offline_cpu (cpu_down : Z -> Z) (cell : jailhouse_new_cell)
    (config : cell_config) (mask_pos bit_pos : Z) (s : state)
  : option (state * Z) :=
  match read_cpu_mask cell config mask_pos with
  | None => None
  | Some byte =>
    if Z.land byte (Z.shiftl 1 bit_pos) =? 0 then Some (s, 0)
    else
      let cpu := u32 (mask_pos * 8 + bit_pos) in
      if cpu_online cpu s then
        let err := cpu_down cpu in
        let s := emit (CpuDown cpu err) s in
        if negb (err =? 0) then Some (s, err)
        else
          let s := set_cpu_online_mask (cpu_clear cpu (cpu_online_mask s)) s in
          Some (set_offlined_cpus (cpu_set cpu (offlined_cpus s)) s, 0)
      else Some (s, 0)
  end.

Definition offline_cpus (cpu_down : Z -> Z) (cell : jailhouse_new_cell)
    (config : cell_config) (s : state) : option (state * Z) :=
  for_loop (range (cpu_set_size (desc config)))
    (fun mask_pos =>
       for_loop (range 8) (offline_cpu cpu_down cell config mask_pos))
    s.

(** [ram], which points [sizeof(struct jailhouse_cell_desc) +
    config->cpu_set_size] bytes into the buffer, has its
    [struct jailhouse_memory] inside the buffer. *)
Definition ram_in_buffer (cell : jailhouse_new_cell) (config : cell_config)
  : bool :=
  sizeof_jailhouse_cell_desc + cpu_set_size (desc config)
  + sizeof_jailhouse_memory <=? config_size cell.

(** [config->num_memory_regions < 1 || ram->size < 1024 * 1024 ||
     image->target_address + image->size > ram->size] *)
Definition cell_memory_invalid (config : cell_config)
    (image : jailhouse_preload_image) : bool :=
  (num_memory_regions (desc config) <? 1)
  || (size (ram config) <? 1024 * 1024)
  || (u64 (target_address image + image_size image) >? size (ram config)).

Definition kfree_config_out (err : Z) (s : state) : state * Z :=
  (kfree s, err).
Definition iounmap_out (cell_mem err : Z) (s : state) : state * Z :=
  kfree_config_out err (iounmap cell_mem s).
Definition unlock_out (cell_mem err : Z) (s : state) : state * Z :=
  iounmap_out cell_mem err (mutex_unlock s).

(** The result is [None] when the call leaves its buffer of
    [cell->config_size] bytes, which it never compares with what it reads
    and writes there: the descriptor, whose name it terminates and whose
    [cpu_set_size] and [num_memory_regions] it reads, the bytes of the CPU
    set as the loop comes to them, and the memory region once the descriptor
    says there is one. *)
Definition jailhouse_cell_create (w : create_world) (s : state)
  : option (state * Z) :=
  match cw_copy_cell w with
  | None => Some (s, - EFAULT)
  | Some cell =>
    if negb (num_preload_images cell =? 1) then Some (s, - EINVAL) else
    match cw_copy_image w with
    | None => Some (s, - EFAULT)
    | Some image =>
      if negb (cw_kmalloc w) then Some (s, - ENOMEM) else
      let s := kmalloc s in
      match cw_copy_config w with
      | None => Some (kfree_config_out (- EFAULT) s)
      | Some config =>
        if config_size cell <? sizeof_jailhouse_cell_desc then None else
        let config := terminate_name config in
        match offline_cpus (cw_cpu_down w) cell config s with
        | None => None
        | Some (s, err) =>
          if negb (err =? 0) then Some (kfree_config_out err s) else
          if num_memory_regions (desc config) <? 1
          then Some (kfree_config_out (- EINVAL) s) else
          if negb (ram_in_buffer cell config) then None else
          if cell_memory_invalid config image
          then Some (kfree_config_out (- EINVAL) s) else
          let cell_mem := cw_ioremap w in
          let s := jailhouse_ioremap cell_mem (phys_start (ram config))
                     (size (ram config)) s in
          if cell_mem =? 0 then Some (kfree_config_out (- EBUSY) s) else
          if negb (cw_copy_preload w =? 0)
          then Some (iounmap_out cell_mem (- EFAULT) s) else
          if negb (cw_lock w =? 0) then Some (kfree_config_out (- EINTR) s)
          else
          let s := mutex_lock s in
          if negb (enabled s) then Some (unlock_out cell_mem (- EINVAL) s)
          else
          let err := cw_hc_cell_create w in
          let s := emit (HcCellCreate config) s in
          if negb (err =? 0) then Some (unlock_out cell_mem err s) else
          let s := emit (PrintkCreated (c_string (name (desc config)))) s in
          Some (unlock_out cell_mem err s)
        end
      end
    end
  end.

(** ** jailhouse_ioctl *)

(** A request on the control device: one of the four ioctl codes with the
    outcomes of the calls it will make, or any other code. *)
Inductive ioctl_request : Type :=
| JAILHOUSE_ENABLE (w : enable_world)
| JAILHOUSE_DISABLE (w : disable_world)
| JAILHOUSE_CELL_CREATE (w : create_world)
| JAILHOUSE_CELL_DESTROY
| ioctl_unknown (code : Z).

Definition jailhouse_ioctl (request : ioctl_request) (s : state)
  : option (state * Z) :=
  match request with
  | JAILHOUSE_ENABLE w => jailhouse_enable w s
  | JAILHOUSE_DISABLE w => jailhouse_disable w s
  | JAILHOUSE_CELL_CREATE w => jailhouse_cell_create w s
  | JAILHOUSE_CELL_DESTROY => Some (s, - ENOSYS)
  | ioctl_unknown _ => Some (s, - EINVAL)
  end.

(** ** What the loops of Disable and CreateCell amount to *)

(** The calls and messages of one turn of Disable's loop. *)
Definition cpu_up_events (cpu_up : Z -> Z) (cpu : Z) : list event :=
  CpuUp cpu (cpu_up cpu)
  :: (if negb (cpu_up cpu =? 0) then [PrintkCpuUpFailed cpu] else []).

(** The online mask once cpu_up has been tried on every CPU of [l]. *)
Definition cpus_brought_up (cpu_up : Z -> Z) (l : list Z) (mask : Z) : Z :=
  fold_left (fun m cpu => if cpu_up cpu =? 0 then cpu_set cpu m else m) l mask.

(** [s] with another online mask and further events. *)
Definition hotplug_update (online : Z) (evs : list event) (s : state) : state :=
  mkState (lock s) (enabled s) (hypervisor_mem s) (offlined_cpus s)
    (call_done s) (error_code s) (module_refcount s) (firmware_refs s)
    (iomappings s) (kmalloc_live s) online (trace s ++ evs).

(** The CPU numbers one byte of the CPU set selects, lowest bit first. *)
Definition byte_cpus (byte mask_pos : Z) : list Z :=
  flat_map
    (fun bit_pos =>
       if Z.land byte (Z.shiftl 1 bit_pos) =? 0 then []
       else [u32 (mask_pos * 8 + bit_pos)])
    (range 8).

(** The CPU numbers the CPU set of [config] selects, first byte first. *)
Definition mask_cpus (config : cell_config) : list Z :=
  flat_map
    (fun mask_pos =>
       byte_cpus (nth (Z.to_nat mask_pos) (cpu_mask config) 0) mask_pos)
    (range (cpu_set_size (desc config))).

(** CreateCell's two loops, run over the selected CPU numbers. *)
Fixpoint offline_list (cpu_down : Z -> Z) (cpus : list Z) (s : state)
  : state * Z :=
  match cpus with
  | [] => (s, 0)
  | cpu :: rest =>
      if cpu_online cpu s then
        let err := cpu_down cpu in
        let s := emit (CpuDown cpu err) s in
        if negb (err =? 0) then (s, err)
        else
          let s := set_cpu_online_mask (cpu_clear cpu (cpu_online_mask s)) s in
          offline_list cpu_down rest
            (set_offlined_cpus (cpu_set cpu (offlined_cpus s)) s)
      else offline_list cpu_down rest s
  end.

(** The CPUs of [cpus] on which cpu_down is called when [online] is the mask
    of online CPUs at the start: those online, up to the first that fails. *)
Fixpoint attempted (cpu_down : Z -> Z) (online : Z) (cpus : list Z) : list Z :=
  match cpus with
  | [] => []
  | cpu :: rest =>
      if cpu_isset cpu online then
        cpu :: (if cpu_down cpu =? 0 then attempted cpu_down online rest
                else [])
      else attempted cpu_down online rest
  end.

(** [s] after cpu_down has been called on the CPUs of [att]. *)
Definition offline_update (cpu_down : Z -> Z) (att : list Z) (s : state)
  : state :=
  mkState (lock s) (enabled s) (hypervisor_mem s)
    (fold_left (fun m cpu => if cpu_down cpu =? 0 then cpu_set cpu m else m)
       att (offlined_cpus s))
    (call_done s) (error_code s) (module_refcount s) (firmware_refs s)
    (iomappings s) (kmalloc_live s)
    (fold_left (fun m cpu => if cpu_down cpu =? 0 then cpu_clear cpu m else m)
       att (cpu_online_mask s))
    (trace s ++ map (fun cpu => CpuDown cpu (cpu_down cpu)) att).

(** The cpu_down calls of a trace, in order. *)
Definition cpu_down_calls (tr : list event) : list (Z * Z) :=
  flat_map (fun e => match e with CpuDown cpu err => [(cpu, err)] | _ => [] end)
    tr.

(** [x] rounded up to a multiple of [a]. *)
Definition align_up (x a : Z) : Z := (x + a - 1) / a * a.

(** What every run of CreateCell from [s] to [s'] with result [err] has in
    common: [enabled], [hypervisor_mem], the module and firmware references
    and the number of live kmalloc buffers are untouched, the lock is free
    at the end when it was at the start, 0 is returned only when the
    hypervisor is enabled, and the trace grows by cpu_down calls followed,
    when the hypervisor is reached, by the create hypercall on the
    descriptor with its name terminated and, on success, by the message
    with that name. *)
Definition create_post (w : create_world) (s s' : state) (err : Z) : Prop :=
  enabled s' = enabled s /\
  hypervisor_mem s' = hypervisor_mem s /\
  module_refcount s' = module_refcount s /\
  firmware_refs s' = firmware_refs s /\
  kmalloc_live s' = kmalloc_live s /\
  (lock s = false -> lock s' = false) /\
  (err = 0 -> enabled s = true) /\
  exists att evs,
    trace s' =
      trace s ++ map (fun cpu => CpuDown cpu (cw_cpu_down w cpu)) att ++ evs /\
    (evs = [] /\ err <> 0 \/
     exists config,
       cw_copy_config w = Some config /\
       (evs = [HcCellCreate (terminate_name config)] /\ err <> 0 \/
        evs = [HcCellCreate (terminate_name config);
               PrintkCreated (c_string (name (desc (terminate_name config))))]
        /\ err = 0)).

(** ** Runs of requests *)

(** The requests of a list, one after the other; [None] when one of them
    has no result. *)
Fixpoint run (requests : list ioctl_request) (s : state) : option state :=
  match requests with
  | [] => Some s
  | request :: rest =>
      match jailhouse_ioctl request s with
      | None => None
      | Some (s', _) => run rest s'
      end
  end.

(** [s'] holds what [s] held: mappings, firmware handles, module references,
    kmalloc buffers, the enabled flag, both CPU masks and the trace are the
    same, and the lock is free if it was. *)
Definition resources_kept (s s' : state) : Prop :=
  iomappings s' = iomappings s /\
  firmware_refs s' = firmware_refs s /\
  module_refcount s' = module_refcount s /\
  kmalloc_live s' = kmalloc_live s /\
  enabled s' = enabled s /\
  offlined_cpus s' = offlined_cpus s /\
  cpu_online_mask s' = cpu_online_mask s /\
  trace s' = trace s /\
  (lock s = false -> lock s' = false).

(** The module references not accounted for by the enabled hypervisor. *)
Definition foreign_module_refs (s : state) : Z :=
  module_refcount s - (if enabled s then 1 else 0).

(** While the hypervisor is enabled, [hypervisor_mem] is a live mapping. *)
Definition hypervisor_resident (s : state) : Prop :=
  enabled s = true -> is_mapped (hypervisor_mem s) s = true.

(** ** jailhouse_init and jailhouse_exit *)

(** linux/err.h: a pointer, read as a [long], is an error when it lies in the
    last MAX_ERRNO values below 0. *)
Definition MAX_ERRNO : Z := 4095.
Definition IS_ERR (ptr : Z) : bool := (- MAX_ERRNO <=? ptr) && (ptr <? 0).

(** The static [jailhouse_dev] and what is registered with the kernel. *)
Record registry : Type := mkRegistry {
  jailhouse_dev : Z;
  root_device_registered : bool;
  misc_registered : bool
}.

(** [root_dev] is what root_device_register returns, an error pointer when
    it fails, and [misc_err] what misc_register returns. *)
Definition jailhouse_init (root_dev misc_err : Z) (g : registry)
  : registry * Z :=
  let g := mkRegistry root_dev (negb (IS_ERR root_dev)) (misc_registered g) in
  if IS_ERR (jailhouse_dev g) then (g, jailhouse_dev g)
  else
    (mkRegistry (jailhouse_dev g) (root_device_registered g) (misc_err =? 0),
     misc_err).

Definition jailhouse_exit (g : registry) : registry :=
  let g := mkRegistry (jailhouse_dev g) (root_device_registered g) false in
  mkRegistry (jailhouse_dev g) false (misc_registered g).

(** ** What Enable, Disable and CreateCell need to succeed *)

(** Everything Enable asks for before and during the rendezvous: the header
    [config_header] is copied, the lock and the module reference are taken
    with the hypervisor disabled, the image is delivered with the right
    signature and passes the layout check, the region is mapped and is at
    least as long as the image, the configuration is copied, and every CPU
    of the schedule enters the hypervisor. *)
Definition enable_accepts (w : enable_world) (s : state)
    (config_header : jailhouse_system) : Prop :=
  ew_copy_header w = Some config_header /\
  ew_lock w = 0 /\
  enabled s = false /\
  ew_module_get w = true /\
  ew_request_firmware w = 0 /\
  memcmp_eq (signature (fw_data (ew_firmware w))) JAILHOUSE_SIGNATURE = true /\
  layout_overflow config_header (fw_data (ew_firmware w)) = false /\
  ew_ioremap w <> 0 /\
  fw_size (ew_firmware w) <= size (hypervisor_memory config_header) /\
  ew_copy_config w = 0 /\
  (forall cpu, In cpu (ew_schedule w) -> ew_entry w cpu = 0).

(** The state a successful Enable leaves. *)
Definition enabled_from (w : enable_world) (config_header : jailhouse_system)
    (s s' : state) : Prop :=
  enabled s' = true /\
  hypervisor_mem s' = ew_ioremap w /\
  iomappings s' =
    mkMapping (ew_ioremap w) (phys_start (hypervisor_memory config_header))
      (size (hypervisor_memory config_header)) :: iomappings s /\
  module_refcount s' = module_refcount s + 1 /\
  firmware_refs s' = firmware_refs s /\
  kmalloc_live s' = kmalloc_live s /\
  lock s' = false /\
  error_code s' = 0 /\
  call_done s' = num_online_cpus s /\
  offlined_cpus s' = offlined_cpus s /\
  cpu_online_mask s' = cpu_online_mask s /\
  trace s' = trace s ++ [PrintkOpening].

(** The state a successful Disable leaves. *)
Definition disabled_from (w : disable_world) (s s' : state) : Prop :=
  enabled s' = false /\
  hypervisor_mem s' = hypervisor_mem s /\
  iomappings s' = unmap (hypervisor_mem s) (iomappings s) /\
  module_refcount s' = module_refcount s - 1 /\
  firmware_refs s' = firmware_refs s /\
  kmalloc_live s' = kmalloc_live s /\
  lock s' = false /\
  offlined_cpus s' = offlined_cpus s /\
  cpu_online_mask s' =
    cpus_brought_up (dw_cpu_up w) (for_each_cpu_mask (offlined_cpus s))
      (cpu_online_mask s) /\
  trace s' =
    trace s
    ++ flat_map (cpu_up_events (dw_cpu_up w))
         (for_each_cpu_mask (offlined_cpus s))
    ++ [PrintkClosed].

(** Everything CreateCell asks for: the three copies from the caller with
    exactly one preload image, a configuration buffer that holds the
    descriptor, a CPU set that the loops read inside the buffer and whose
    online CPUs all go offline, a region inside the buffer that passes the
    memory check and is mapped, the preload image copied, the lock taken
    with the hypervisor enabled, and a create hypercall that returns 0. *)
Definition create_accepts (w : create_world) (s : state)
    (cell : jailhouse_new_cell) (image : jailhouse_preload_image)
    (config : cell_config) : Prop :=
  cw_copy_cell w = Some cell /\
  num_preload_images cell = 1 /\
  cw_copy_image w = Some image /\
  cw_kmalloc w = true /\
  cw_copy_config w = Some config /\
  sizeof_jailhouse_cell_desc <= config_size cell /\
  (exists s1,
     offline_cpus (cw_cpu_down w) cell (terminate_name config) (kmalloc s)
     = Some (s1, 0)) /\
  ram_in_buffer cell (terminate_name config) = true /\
  cell_memory_invalid (terminate_name config) image = false /\
  cw_ioremap w <> 0 /\
  cw_copy_preload w = 0 /\
  cw_lock w = 0 /\
  enabled s = true /\
  cw_hc_cell_create w = 0.

(** The cpu_up calls of a trace, in order. *)
Definition cpu_up_calls (tr : list event) : list (Z * Z) :=
  flat_map (fun e => match e with CpuUp cpu err => [(cpu, err)] | _ => [] end)
    tr.

(** ** Proof steps that recur *)

(** Read the fields of a state built by the setters. *)
Ltac state_simpl :=
  cbn [lock enabled hypervisor_mem offlined_cpus call_done error_code
       module_refcount firmware_refs iomappings kmalloc_live cpu_online_mask
       trace set_lock set_enabled set_hypervisor_mem set_offlined_cpus
       set_call_done set_error_code set_module_refcount set_firmware_refs
       set_iomappings set_kmalloc_live set_cpu_online_mask emit
       mutex_lock mutex_unlock module_get module_put firmware_loaded
       release_firmware kmalloc kfree iounmap hotplug_update
       error_unlock error_put_module error_release_fw error_unmap
       kfree_config_out iounmap_out unlock_out fst snd] in *.

(** The same after the exit labels have been opened. *)
Ltac state_unfold :=
  unfold error_unmap, error_release_fw, error_put_module, error_unlock,
    unlock_out, iounmap_out, kfree_config_out, offline_update,
    hotplug_update;
  state_simpl.

(** Split a conjunction of eight. *)
Ltac split7 :=
  split; [|split; [|split; [|split; [|split; [|split; [|split]]]]]].

(** * Properties *)

(** ** Results of a rendezvous *)

Lemma first_failure_zero (l : list Z) :
  first_failure l = 0 <-> (forall r, In r l -> r = 0).
Proof.
  induction l as [|x l IH]; simpl.
  - split; [intros _ r []|reflexivity].
  - destruct (Z.eqb_spec x 0) as [->|Hx].
    + rewrite IH. split.
      * intros H r [<-|Hr]; [reflexivity|exact (H r Hr)].
      * intros H r Hr. apply H. now right.
    + split; [intros H; contradiction|].
      intros H. apply H. now left.
Qed.

Lemma first_failure_in (l : list Z) :
  first_failure l <> 0 -> In (first_failure l) l.
Proof.
  induction l as [|x l IH]; simpl; [congruence|].
  destruct (Z.eqb_spec x 0); intros H; [right; exact (IH H)|now left].
Qed.

Lemma last_failure_zero (l : list Z) :
  last_failure l = 0 <-> (forall r, In r l -> r = 0).
Proof.
  unfold last_failure. rewrite first_failure_zero.
  split; intros H r Hr; apply H; [rewrite <- in_rev|rewrite in_rev]; exact Hr.
Qed.

Lemma last_failure_in (l : list Z) :
  last_failure l <> 0 -> In (last_failure l) l.
Proof.
  unfold last_failure. intros H. rewrite in_rev.
  now apply first_failure_in.
Qed.

Lemma last_failure_snoc (l : list Z) (r : Z) :
  last_failure (l ++ [r]) = if negb (r =? 0) then r else last_failure l.
Proof.
  unfold last_failure. rewrite rev_app_distr. simpl.
  now destruct (r =? 0).
Qed.

(** What one CPU after the other leaves in [error_code] and [call_done]. *)
Lemma on_each_cpu_enter (r : Z -> Z) (sched done_ : list Z) (s : state) :
  error_code s = last_failure (map r done_) ->
  on_each_cpu (enter_hypervisor r) sched s =
  set_call_done (call_done s + Z.of_nat (length sched))
    (set_error_code (last_failure (map r (done_ ++ sched))) s).
Proof.
  revert done_ s. induction sched as [|cpu sched IH]; intros done_ s Hs.
  - rewrite app_nil_r, <- Hs. destruct s; simpl.
    unfold set_call_done, set_error_code; simpl. f_equal. lia.
  - change (on_each_cpu (enter_hypervisor r) (cpu :: sched) s)
      with (on_each_cpu (enter_hypervisor r) sched (enter_hypervisor r cpu s)).
    rewrite (IH (done_ ++ [cpu])).
    + rewrite <- app_assoc. simpl app.
      unfold enter_hypervisor, atomic_inc_call_done.
      destruct (negb (r cpu =? 0)); destruct s;
        unfold set_call_done, set_error_code; simpl; f_equal; lia.
    + rewrite map_app. simpl map. rewrite last_failure_snoc.
      unfold enter_hypervisor, atomic_inc_call_done.
      destruct (negb (r cpu =? 0)); simpl; [reflexivity|exact Hs].
Qed.

Lemma leave_is_enter (r : Z -> Z) :
  leave_hypervisor r = enter_hypervisor r.
Proof. reflexivity. Qed.

(** A rendezvous in which exactly the online CPUs take part comes to an end. *)
Lemma rendezvous_completes (r : Z -> Z) (sched : list Z) (s : state) :
  Permutation sched (for_each_cpu_mask (cpu_online_mask s)) ->
  rendezvous (enter_hypervisor r) sched (set_error_code 0 s) =
  Some (set_call_done (num_online_cpus s)
          (set_error_code (last_failure (map r sched)) s)).
Proof.
  intros Hp. unfold rendezvous.
  rewrite (on_each_cpu_enter r sched []) by reflexivity.
  simpl app. cbn [set_call_done set_error_code call_done error_code].
  assert (Hlen : Z.of_nat (length sched) = num_online_cpus s).
  { unfold num_online_cpus. now rewrite (Permutation_length Hp). }
  unfold num_online_cpus in *. cbn [cpu_online_mask].
  rewrite Z.add_0_l, Hlen, Z.eqb_refl.
  reflexivity.
Qed.

Lemma in_for_each_cpu_mask (cpu mask : Z) :
  In cpu (for_each_cpu_mask mask) <->
  0 <= cpu < Z.of_nat NR_CPUS /\ cpu_isset cpu mask = true.
Proof.
  unfold for_each_cpu_mask. rewrite filter_In, in_map_iff.
  split.
  - intros [(n & <- & Hn) Hb]. apply in_seq in Hn. split; [lia|exact Hb].
  - intros [Hr Hb]. split; [|exact Hb].
    exists (Z.to_nat cpu). split; [lia|]. apply in_seq. lia.
Qed.

Lemma last_failure_online (r : Z -> Z) (sched online : list Z) :
  Permutation sched online ->
  (last_failure (map r sched) = 0 <->
   forall cpu, In cpu online -> r cpu = 0).
Proof.
  intros Hp. rewrite last_failure_zero. split.
  - intros H cpu Hc. apply H, in_map.
    apply (Permutation_in _ (Permutation_sym Hp)), Hc.
  - intros H x Hx. apply in_map_iff in Hx as (cpu & <- & Hc).
    apply H, (Permutation_in _ Hp), Hc.
Qed.

(** C1, as the driver has it: a rendezvous of the online CPUs, entered with
    [error_code] cleared, ends, and it ends the same way for Enable's
    [enter_hypervisor] and Disable's [leave_hypervisor].  The aggregated
    result left in [error_code] is 0 exactly when every CPU reported 0.
    Otherwise it is the result of the CPU that was last to report a failure,
    so one of the reported failures; the driver does not look for the first
    one.  When all failing CPUs report the same code, which is what the
    comment in both functions expects, the aggregate is that code and so
    also the first failure in CPU order. *)
Theorem rendezvous_aggregate (r : Z -> Z) (sched : list Z) (s : state) :
  Permutation sched (for_each_cpu_mask (cpu_online_mask s)) ->
  exists s',
    rendezvous (enter_hypervisor r) sched (set_error_code 0 s) = Some s' /\
    rendezvous (leave_hypervisor r) sched (set_error_code 0 s) = Some s' /\
    error_code s' = last_failure (map r sched) /\
    (error_code s' = 0 <->
     forall cpu, In cpu (for_each_cpu_mask (cpu_online_mask s)) -> r cpu = 0) /\
    (error_code s' <> 0 ->
     exists cpu, In cpu (for_each_cpu_mask (cpu_online_mask s)) /\
                 r cpu = error_code s') /\
    (forall e,
       (forall cpu, In cpu (for_each_cpu_mask (cpu_online_mask s)) ->
                    r cpu = 0 \/ r cpu = e) ->
       error_code s' =
       first_failure (map r (for_each_cpu_mask (cpu_online_mask s)))).
Proof.
  intros Hp.
  set (online := for_each_cpu_mask (cpu_online_mask s)) in *.
  eexists. split; [apply rendezvous_completes; exact Hp|].
  split; [rewrite leave_is_enter; apply rendezvous_completes; exact Hp|].
  cbn [error_code set_call_done set_error_code].
  assert (Hzero : last_failure (map r sched) = 0 <->
                  forall cpu, In cpu online -> r cpu = 0)
    by exact (last_failure_online r sched online Hp).
  assert (Hin : last_failure (map r sched) <> 0 ->
                exists cpu, In cpu online /\
                            r cpu = last_failure (map r sched)).
  { intros H. apply last_failure_in, in_map_iff in H as (cpu & Hr & Hc).
    exists cpu. split; [apply (Permutation_in _ Hp), Hc|exact Hr]. }
  split; [reflexivity|]. split; [exact Hzero|]. split; [exact Hin|].
  intros e He.
  destruct (Z.eq_dec (last_failure (map r sched)) 0) as [Hl|Hl].
  - rewrite Hl. symmetry. apply first_failure_zero.
    intros x Hx. apply in_map_iff in Hx as (cpu & <- & Hc).
    now apply Hzero.
  - destruct (Hin Hl) as (cpu & Hc & Hr).
    assert (Hf : first_failure (map r online) <> 0).
    { intros H. rewrite first_failure_zero in H.
      apply Hl. rewrite <- Hr. apply H, in_map, Hc. }
    pose proof (first_failure_in _ Hf) as H'.
    apply in_map_iff in H' as (cpu' & Hr' & Hc').
    destruct (He cpu Hc) as [H0|H1]; [congruence|].
    destruct (He cpu' Hc') as [H0'|H1']; congruence.
Qed.

(** ** Disable *)

Lemma bring_back_online_fold (cpu_up : Z -> Z) (l : list Z) (s : state) :
  fold_left (bring_back_online cpu_up) l s =
  hotplug_update (cpus_brought_up cpu_up l (cpu_online_mask s))
    (flat_map (cpu_up_events cpu_up) l) s.
Proof.
  revert s. induction l as [|cpu l IH]; intros s.
  - destruct s. unfold hotplug_update. simpl. now rewrite app_nil_r.
  - simpl fold_left. rewrite IH.
    unfold bring_back_online, cpu_up_events, cpus_brought_up, hotplug_update.
    simpl flat_map. simpl fold_left.
    destruct (cpu_up cpu =? 0); simpl; f_equal;
      rewrite <- ?app_assoc; reflexivity.
Qed.

Lemma cpus_brought_up_keeps (cpu_up : Z -> Z) (l : list Z) (mask c : Z) :
  (forall x, In x l -> 0 <= x) ->
  cpu_isset c mask = true ->
  cpu_isset c (cpus_brought_up cpu_up l mask) = true.
Proof.
  revert mask. induction l as [|x l IH]; intros mask Hl Hc; [exact Hc|].
  simpl. apply IH; [intros y Hy; apply Hl; now right|].
  destruct (cpu_up x =? 0); [|exact Hc].
  unfold cpu_isset, cpu_set in *.
  rewrite Z.setbit_eqb by (apply Hl; now left).
  rewrite Hc. apply orb_true_r.
Qed.

Lemma cpus_brought_up_sets (cpu_up : Z -> Z) (l : list Z) (mask c : Z) :
  (forall x, In x l -> 0 <= x) ->
  In c l -> cpu_up c = 0 ->
  cpu_isset c (cpus_brought_up cpu_up l mask) = true.
Proof.
  revert mask. induction l as [|x l IH]; intros mask Hl Hc Hup; [destruct Hc|].
  simpl. destruct Hc as [->|Hc].
  - apply cpus_brought_up_keeps; [intros y Hy; apply Hl; now right|].
    rewrite Hup. simpl. unfold cpu_isset, cpu_set.
    rewrite Z.setbit_eqb by (apply Hl; now left).
    now rewrite Z.eqb_refl.
  - apply IH; [intros y Hy; apply Hl; now right|exact Hc|exact Hup].
Qed.

Lemma for_each_cpu_mask_nonneg (mask x : Z) :
  In x (for_each_cpu_mask mask) -> 0 <= x.
Proof. intros H. apply in_for_each_cpu_mask in H. lia. Qed.

(** A Disable whose rendezvous succeeds: when the lock is taken, the
    hypervisor is enabled and every online CPU reports 0 from the disable
    hypercall, Disable returns 0; it has unmapped [hypervisor_mem], called
    cpu_up once for every CPU of [offlined_cpus], in CPU order, printing a
    message and going on when a CPU does not come back, cleared [enabled],
    dropped the module reference and released the lock.  It does not clear
    [offlined_cpus]: the mask is what it was before the call. *)
Theorem disable_success (w : disable_world) (s : state) :
  dw_lock w = 0 ->
  enabled s = true ->
  Permutation (dw_schedule w) (for_each_cpu_mask (cpu_online_mask s)) ->
  (forall cpu, In cpu (for_each_cpu_mask (cpu_online_mask s)) ->
               dw_hc_disable w cpu = 0) ->
  exists s',
    jailhouse_disable w s = Some (s', 0) /\
    iomappings s' = unmap (hypervisor_mem s) (iomappings s) /\
    trace s' =
      trace s
      ++ flat_map (cpu_up_events (dw_cpu_up w))
           (for_each_cpu_mask (offlined_cpus s))
      ++ [PrintkClosed] /\
    (forall cpu,
       0 <= cpu < Z.of_nat NR_CPUS ->
       cpu_isset cpu (offlined_cpus s) = true ->
       In (CpuUp cpu (dw_cpu_up w cpu)) (trace s') /\
       (dw_cpu_up w cpu = 0 -> cpu_online cpu s' = true) /\
       (dw_cpu_up w cpu <> 0 -> In (PrintkCpuUpFailed cpu) (trace s'))) /\
    offlined_cpus s' = offlined_cpus s /\
    enabled s' = false /\
    module_refcount s' = module_refcount s - 1 /\
    lock s' = false.
Proof.
  intros Hlock Hen Hp Hok.
  pose proof (rendezvous_completes (dw_hc_disable w) (dw_schedule w)
                (mutex_lock s) Hp) as Hr.
  rewrite <- leave_is_enter in Hr.
  set (s1 := set_call_done (num_online_cpus (mutex_lock s))
               (set_error_code
                  (last_failure (map (dw_hc_disable w) (dw_schedule w)))
                  (mutex_lock s))) in *.
  assert (Hs1 : s1 = set_call_done (num_online_cpus (mutex_lock s))
                       (set_error_code
                          (last_failure
                             (map (dw_hc_disable w) (dw_schedule w)))
                          (mutex_lock s))) by reflexivity.
  assert (He0 : error_code s1 = 0).
  { apply (last_failure_online _ _ _ Hp). exact Hok. }
  unfold jailhouse_disable. cbv zeta. rewrite Hlock.
  change (enabled (mutex_lock s)) with (enabled s). rewrite Hen.
  cbn [Z.eqb negb]. rewrite Hr, He0. cbn [Z.eqb negb].
  rewrite bring_back_online_fold.
  eexists. split; [reflexivity|].
  subst s1.
  cbn [iomappings trace offlined_cpus enabled module_refcount lock
       hypervisor_mem cpu_online_mask
       mutex_unlock mutex_lock module_put emit iounmap hotplug_update
       set_lock set_enabled set_module_refcount set_iomappings
       set_call_done set_error_code].
  split; [reflexivity|]. split; [now rewrite <- app_assoc|].
  split; [|repeat split; reflexivity].
  intros cpu Hcpu Hset.
  assert (Hin : In cpu (for_each_cpu_mask (offlined_cpus s))).
  { apply in_for_each_cpu_mask. split; assumption. }
  assert (Hev : forall e, In e (cpu_up_events (dw_cpu_up w) cpu) ->
                In e ((trace s
                       ++ flat_map (cpu_up_events (dw_cpu_up w))
                            (for_each_cpu_mask (offlined_cpus s)))
                      ++ [PrintkClosed])).
  { intros e Hin_e. apply in_or_app. left. apply in_or_app. right.
    apply in_flat_map. exists cpu. split; assumption. }
  split; [apply Hev; now left|]. split.
  - intros Hup. unfold cpu_online.
    cbn [cpu_online_mask].
    apply cpus_brought_up_sets;
      [exact (for_each_cpu_mask_nonneg _)|exact Hin|exact Hup].
  - intros Hup. apply Hev. unfold cpu_up_events.
    apply Z.eqb_neq in Hup. rewrite Hup. right. now left.
Qed.

(** C4: when the lock is taken, the hypervisor is enabled and some online
    CPU reports a failure from the disable hypercall, Disable returns the
    aggregated error, which is not 0.  It unmaps nothing, [hypervisor_mem]
    and [enabled] are what they were, no cpu_up is attempted and the lock is
    released: Disable can be tried again from the same Enabled state. *)
Theorem disable_barrier_failure (w : disable_world) (s : state) :
  dw_lock w = 0 ->
  enabled s = true ->
  Permutation (dw_schedule w) (for_each_cpu_mask (cpu_online_mask s)) ->
  (exists cpu, In cpu (for_each_cpu_mask (cpu_online_mask s)) /\
               dw_hc_disable w cpu <> 0) ->
  exists s' err,
    jailhouse_disable w s = Some (s', err) /\
    err <> 0 /\
    err = last_failure (map (dw_hc_disable w) (dw_schedule w)) /\
    iomappings s' = iomappings s /\
    hypervisor_mem s' = hypervisor_mem s /\
    enabled s' = true /\
    lock s' = false /\
    module_refcount s' = module_refcount s /\
    offlined_cpus s' = offlined_cpus s /\
    cpu_online_mask s' = cpu_online_mask s /\
    trace s' = trace s.
Proof.
  intros Hlock Hen Hp (cpu & Hcpu & Hfail).
  pose proof (rendezvous_completes (dw_hc_disable w) (dw_schedule w)
                (mutex_lock s) Hp) as Hr.
  rewrite <- leave_is_enter in Hr.
  set (s1 := set_call_done (num_online_cpus (mutex_lock s))
               (set_error_code
                  (last_failure (map (dw_hc_disable w) (dw_schedule w)))
                  (mutex_lock s))) in *.
  assert (Hs1 : s1 = set_call_done (num_online_cpus (mutex_lock s))
                       (set_error_code
                          (last_failure
                             (map (dw_hc_disable w) (dw_schedule w)))
                          (mutex_lock s))) by reflexivity.
  assert (He : error_code s1 =
               last_failure (map (dw_hc_disable w) (dw_schedule w)))
    by reflexivity.
  assert (He0 : error_code s1 <> 0).
  { intros H. apply Hfail.
    exact (proj1 (last_failure_online _ _ _ Hp) H cpu Hcpu). }
  unfold jailhouse_disable. cbv zeta. rewrite Hlock.
  change (enabled (mutex_lock s)) with (enabled s). rewrite Hen.
  cbn [Z.eqb negb]. rewrite Hr.
  apply Z.eqb_neq in He0 as Hb. rewrite Hb. cbn [negb].
  exists (mutex_unlock s1), (error_code s1).
  split; [reflexivity|]. split; [exact He0|]. split; [exact He|].
  subst s1. repeat split; try reflexivity.
  cbn. exact Hen.
Qed.

(** ** Enable *)

Lemma rendezvous_enter_inv (r : Z -> Z) (sched : list Z) (s s1 : state) :
  rendezvous (enter_hypervisor r) sched (set_error_code 0 s) = Some s1 ->
  s1 = set_call_done (Z.of_nat (length sched))
         (set_error_code (last_failure (map r sched)) s).
Proof.
  unfold rendezvous.
  rewrite (on_each_cpu_enter r sched []) by reflexivity.
  destruct (_ =? _); [|discriminate].
  intros [= <-]. reflexivity.
Qed.

Lemma unmap_head (a p sz : Z) (l : list mapping) :
  unmap a (mkMapping a p sz :: l) = l.
Proof. simpl. now rewrite Z.eqb_refl. Qed.

Lemma jailhouse_ioremap_null (p sz : Z) (s : state) :
  jailhouse_ioremap 0 p sz s = s.
Proof. reflexivity. Qed.

Lemma jailhouse_ioremap_mapped (a p sz : Z) (s : state) :
  a <> 0 ->
  jailhouse_ioremap a p sz s =
  set_iomappings (mkMapping a p sz :: iomappings s) s.
Proof.
  intros Ha. unfold jailhouse_ioremap.
  apply Z.eqb_neq in Ha. now rewrite Ha.
Qed.

(** C5: started with the lock free and the hypervisor disabled, whenever
    Enable returns an error, whatever the step that failed, the mappings,
    the firmware handles and the module reference count are what they were
    before the call, the lock is free and [enabled] is still false.  And
    Enable does return, with an error or with 0, whenever the image is no
    longer than the region it is copied into and the CPUs that run
    [enter_hypervisor] are the online ones. *)
Theorem enable_failure_unwinds (w : enable_world) (s : state) :
  lock s = false ->
  enabled s = false ->
  ((forall config_header,
      ew_copy_header w = Some config_header ->
      fw_size (ew_firmware w) <= size (hypervisor_memory config_header)) ->
   Permutation (ew_schedule w) (for_each_cpu_mask (cpu_online_mask s)) ->
   exists r, jailhouse_enable w s = Some r) /\
  (forall s' err,
     jailhouse_enable w s = Some (s', err) ->
     err <> 0 ->
     iomappings s' = iomappings s /\
     firmware_refs s' = firmware_refs s /\
     module_refcount s' = module_refcount s /\
     lock s' = false /\
     enabled s' = false /\
     offlined_cpus s' = offlined_cpus s /\
     cpu_online_mask s' = cpu_online_mask s /\
     trace s' = trace s).
Proof.
  intros Hl Hen.
  assert (Hdone : forall (s' : state) (err : Z) (t : state) (e : Z),
             Some (t, e) = Some (s', err) ->
             iomappings t = iomappings s -> firmware_refs t = firmware_refs s ->
             module_refcount t = module_refcount s -> lock t = false ->
             enabled t = false -> offlined_cpus t = offlined_cpus s ->
             cpu_online_mask t = cpu_online_mask s -> trace t = trace s ->
             iomappings s' = iomappings s /\
             firmware_refs s' = firmware_refs s /\
             module_refcount s' = module_refcount s /\
             lock s' = false /\ enabled s' = false /\
             offlined_cpus s' = offlined_cpus s /\
             cpu_online_mask s' = cpu_online_mask s /\
             trace s' = trace s).
  { intros s' err t e [= <- <-]. tauto. }
  unfold jailhouse_enable. cbv zeta.
  destruct (ew_copy_header w) as [config_header|];
    [|split; [eauto|intros s' err H _; eapply Hdone; eauto]].
  destruct (ew_lock w =? 0); cbn [negb];
    [|split; [eauto|intros s' err H _; eapply Hdone; eauto]].
  change (enabled (mutex_lock s)) with (enabled s). rewrite Hen.
  destruct (ew_module_get w); cbn [negb];
    [|split; [eauto|intros s' err H _; eapply Hdone; eauto]].
  destruct (ew_request_firmware w =? 0); cbn [negb];
    [|split; [eauto|intros s' err H _; eapply Hdone; eauto;
              state_simpl; lia]].
  destruct (memcmp_eq _ _); cbn [negb];
    [|split; [eauto|intros s' err H _; eapply Hdone; eauto;
              state_simpl; lia]].
  destruct (layout_overflow _ _);
    [split; [eauto|intros s' err H _; eapply Hdone; eauto;
             state_simpl; lia]|].
  cbn [hypervisor_mem set_hypervisor_mem].
  destruct (Z.eqb_spec (ew_ioremap w) 0) as [Ha|Ha].
  { rewrite Ha, jailhouse_ioremap_null.
    split; [eauto|intros s' err H _; eapply Hdone; eauto; state_simpl; lia]. }
  rewrite (jailhouse_ioremap_mapped _ _ _ _ Ha).
  destruct (Z.ltb_spec (size (hypervisor_memory config_header))
              (fw_size (ew_firmware w))) as [Hlong|Hfits].
  { split; [|discriminate].
    intros Hb. specialize (Hb config_header eq_refl). lia. }
  destruct (ew_copy_config w =? 0); cbn [negb];
    [|split; [eauto|intros s' err H _; eapply Hdone; eauto; state_simpl;
              rewrite ?unmap_head; try reflexivity; lia]].
  match goal with
  | |- context [rendezvous ?f ?l (set_error_code 0 ?t)] =>
      set (pre := t);
      pose proof (rendezvous_enter_inv (ew_entry w) l pre) as Hinv;
      pose proof (rendezvous_completes (ew_entry w) l pre) as Hcompl
  end.
  split.
  - intros _ Hp. rewrite (Hcompl Hp).
    destruct (negb (error_code _ =? 0)); eauto.
  - intros s' err.
    destruct (rendezvous _ _ _) as [s1|]; [|discriminate].
    rewrite (Hinv s1 eq_refl).
    destruct (error_code _ =? 0) eqn:He; cbn [negb].
    + intros [= <- <-] Herr. now contradiction Herr.
    + intros H _. eapply Hdone; eauto; subst pre; state_simpl;
        rewrite ?unmap_head; try reflexivity; lia.
Qed.

(** ** The CPU-mask loops of CreateCell *)

Lemma offline_list_app (cpu_down : Z -> Z) (l1 l2 : list Z) (s : state) :
  offline_list cpu_down (l1 ++ l2) s =
  let (s', err) := offline_list cpu_down l1 s in
  if negb (err =? 0) then (s', err) else offline_list cpu_down l2 s'.
Proof.
  revert s. induction l1 as [|cpu l1 IH]; intros s; [reflexivity|].
  simpl. destruct (cpu_online cpu s); [|apply IH].
  destruct (negb (cpu_down cpu =? 0)) eqn:He; [now rewrite He|apply IH].
Qed.

Lemma read_cpu_mask_some (cell : jailhouse_new_cell) (config : cell_config)
    (mask_pos byte : Z) :
  read_cpu_mask cell config mask_pos = Some byte <->
  sizeof_jailhouse_cell_desc + mask_pos < config_size cell /\
  byte = nth (Z.to_nat mask_pos) (cpu_mask config) 0.
Proof.
  unfold read_cpu_mask.
  destruct (Z.ltb_spec (sizeof_jailhouse_cell_desc + mask_pos)
              (config_size cell)) as [Hin|Hout].
  - split; [intros [= <-]; auto|intros [_ ->]; reflexivity].
  - split; [discriminate|intros [H _]; lia].
Qed.

(** The inner loop over a byte that lies inside the buffer. *)
Lemma inner_loop_bits (cpu_down : Z -> Z) (cell : jailhouse_new_cell)
    (config : cell_config) (mask_pos byte : Z) (bits : list Z) (s : state) :
  read_cpu_mask cell config mask_pos = Some byte ->
  for_loop bits (offline_cpu cpu_down cell config mask_pos) s =
  Some (offline_list cpu_down
          (flat_map
             (fun bit_pos =>
                if Z.land byte (Z.shiftl 1 bit_pos) =? 0 then []
                else [u32 (mask_pos * 8 + bit_pos)])
             bits) s).
Proof.
  intros Hread.
  revert s. induction bits as [|bit_pos bits IH]; intros s; [reflexivity|].
  cbn [for_loop flat_map]. unfold offline_cpu at 1. rewrite Hread.
  destruct (Z.land byte (Z.shiftl 1 bit_pos) =? 0).
  - cbn [Z.eqb negb app]. apply IH.
  - cbn [app offline_list].
    destruct (cpu_online _ s); [|cbn [Z.eqb negb]; apply IH].
    cbv zeta.
    destruct (negb (cpu_down _ =? 0)) eqn:He; [now rewrite He|].
    cbn [Z.eqb negb]. apply IH.
Qed.

(** The inner loop reads its byte before anything else: it has a result
    exactly when that byte lies inside the buffer. *)
Lemma inner_loop_flat (cpu_down : Z -> Z) (cell : jailhouse_new_cell)
    (config : cell_config) (mask_pos : Z) (s : state) :
  for_loop (range 8) (offline_cpu cpu_down cell config mask_pos) s =
  match read_cpu_mask cell config mask_pos with
  | None => None
  | Some byte => Some (offline_list cpu_down (byte_cpus byte mask_pos) s)
  end.
Proof.
  destruct (read_cpu_mask cell config mask_pos) as [byte|] eqn:Hread.
  - apply inner_loop_bits, Hread.
  - change (range 8) with (0 :: map Z.of_nat (seq 1 7)).
    cbn [for_loop]. unfold offline_cpu. now rewrite Hread.
Qed.

(** A run of the two loops that has a result is a run of [offline_list]
    over the CPU numbers the CPU set selects. *)
Lemma offline_cpus_flat (cpu_down : Z -> Z) (cell : jailhouse_new_cell)
    (config : cell_config) (s : state) (r : state * Z) :
  offline_cpus cpu_down cell config s = Some r ->
  r = offline_list cpu_down (mask_cpus config) s.
Proof.
  unfold offline_cpus, mask_cpus.
  generalize (range (cpu_set_size (desc config))) as idx.
  intros idx. revert s.
  induction idx as [|mask_pos idx IH]; intros s;
    [intros [= <-]; reflexivity|].
  cbn [for_loop flat_map]. rewrite inner_loop_flat, offline_list_app.
  destruct (read_cpu_mask cell config mask_pos) as [byte|] eqn:Hread;
    [|discriminate].
  apply read_cpu_mask_some in Hread as [_ ->].
  destruct (offline_list cpu_down (byte_cpus _ mask_pos) s) as [s' err].
  destruct (negb (err =? 0)); [intros [= <-]; reflexivity|apply IH].
Qed.

(** The two loops have a result when the CPU set lies inside the buffer. *)
Lemma offline_cpus_in_buffer (cpu_down : Z -> Z) (cell : jailhouse_new_cell)
    (config : cell_config) (s : state) :
  sizeof_jailhouse_cell_desc + cpu_set_size (desc config) <= config_size cell ->
  offline_cpus cpu_down cell config s =
  Some (offline_list cpu_down (mask_cpus config) s).
Proof.
  intros Hbuf. unfold offline_cpus, mask_cpus.
  assert (Hidx : forall mp, In mp (range (cpu_set_size (desc config))) ->
            sizeof_jailhouse_cell_desc + mp < config_size cell).
  { intros mp Hmp. unfold range in Hmp.
    apply in_map_iff in Hmp as (k & <- & Hk). apply in_seq in Hk. lia. }
  revert Hidx. generalize (range (cpu_set_size (desc config))) as idx.
  intros idx. revert s.
  induction idx as [|mask_pos idx IH]; intros s Hidx; [reflexivity|].
  cbn [for_loop flat_map]. rewrite inner_loop_flat, offline_list_app.
  assert (Hread : read_cpu_mask cell config mask_pos =
                  Some (nth (Z.to_nat mask_pos) (cpu_mask config) 0)).
  { apply read_cpu_mask_some. split; [apply Hidx; now left|reflexivity]. }
  rewrite Hread.
  destruct (offline_list cpu_down (byte_cpus _ mask_pos) s) as [s' err].
  destruct (negb (err =? 0)); [reflexivity|].
  apply IH. intros mp Hmp. apply Hidx. now right.
Qed.

Lemma attempted_clear (cpu_down : Z -> Z) (online c : Z) (cpus : list Z) :
  ~ In c cpus ->
  attempted cpu_down (cpu_clear c online) cpus = attempted cpu_down online cpus.
Proof.
  induction cpus as [|x cpus IH]; intros Hc; [reflexivity|].
  simpl. unfold cpu_isset, cpu_clear in *.
  rewrite Z.clearbit_neq by (intros ->; apply Hc; now left).
  rewrite IH by (intros H; apply Hc; now right).
  reflexivity.
Qed.

(** The loops call cpu_down on the [attempted] CPUs and on no other, and
    leave through the error of the first call that fails. *)
Lemma offline_list_result (cpu_down : Z -> Z) (cpus : list Z) (s : state) :
  NoDup cpus ->
  offline_list cpu_down cpus s =
  (offline_update cpu_down (attempted cpu_down (cpu_online_mask s) cpus) s,
   first_failure (map cpu_down (attempted cpu_down (cpu_online_mask s) cpus))).
Proof.
  revert s. induction cpus as [|cpu cpus IH]; intros s Hnd.
  - destruct s. unfold offline_update. simpl. now rewrite app_nil_r.
  - inversion Hnd as [|? ? Hnotin Hnd']; subst.
    cbn [offline_list attempted]. unfold cpu_online.
    destruct (cpu_isset cpu (cpu_online_mask s)); [|apply IH, Hnd'].
    cbv zeta. destruct (Z.eqb_spec (cpu_down cpu) 0) as [He|He]; cbn [negb].
    + rewrite IH by exact Hnd'. state_simpl.
      rewrite attempted_clear by exact Hnotin.
      cbn [map first_failure]. rewrite He. cbn [Z.eqb].
      f_equal. unfold offline_update. state_simpl. cbn [fold_left map].
      rewrite He. cbn [Z.eqb]. rewrite <- app_assoc. reflexivity.
    + cbn [map first_failure]. apply Z.eqb_neq in He as Hb. rewrite Hb.
      f_equal. unfold offline_update. cbn [fold_left map]. rewrite Hb.
      reflexivity.
Qed.

Lemma offline_list_shape (cpu_down : Z -> Z) (cpus : list Z) (s : state) :
  exists att,
    offline_list cpu_down cpus s =
    (offline_update cpu_down att s, first_failure (map cpu_down att)).
Proof.
  revert s. induction cpus as [|cpu cpus IH]; intros s.
  - exists []. destruct s. unfold offline_update. simpl.
    now rewrite app_nil_r.
  - cbn [offline_list]. destruct (cpu_online cpu s); [|apply IH].
    cbv zeta. destruct (Z.eqb_spec (cpu_down cpu) 0) as [He|He]; cbn [negb].
    + match goal with
      | |- context [offline_list cpu_down cpus ?t] =>
          destruct (IH t) as (att & Hatt); rewrite Hatt
      end.
      exists (cpu :: att). cbn [map first_failure]. rewrite He. cbn [Z.eqb].
      f_equal. unfold offline_update. state_simpl. cbn [fold_left map].
      rewrite He. cbn [Z.eqb]. rewrite <- app_assoc. reflexivity.
    + exists [cpu]. cbn [map first_failure].
      apply Z.eqb_neq in He as Hb. rewrite Hb.
      f_equal. unfold offline_update. cbn [fold_left map]. rewrite Hb.
      reflexivity.
Qed.

(** ** CreateCell *)

(** A configuration that passes the memory check has a memory region. *)
Lemma memory_valid_regions (config : cell_config)
    (image : jailhouse_preload_image) :
  cell_memory_invalid config image = false ->
  (num_memory_regions (desc config) <? 1) = false.
Proof.
  unfold cell_memory_invalid. intros H.
  apply orb_false_iff in H as [H _]. apply orb_false_iff in H as [H _].
  exact H.
Qed.

Lemma create_post_quiet (w : create_world) (s t : state) (e : Z)
    (att : list Z) :
  e <> 0 ->
  enabled t = enabled s -> hypervisor_mem t = hypervisor_mem s ->
  module_refcount t = module_refcount s ->
  firmware_refs t = firmware_refs s ->
  kmalloc_live t = kmalloc_live s ->
  (lock s = false -> lock t = false) ->
  trace t = trace s ++ map (fun cpu => CpuDown cpu (cw_cpu_down w cpu)) att ->
  create_post w s t e.
Proof.
  intros He H1 H2 H3 H4 H5 H6 H7. unfold create_post. split7; try assumption.
  - intros H; contradiction.
  - exists att, []. rewrite app_nil_r. split; [exact H7|].
    left. split; [reflexivity|exact He].
Qed.

Lemma create_cell_facts (w : create_world) (s s' : state) (err : Z) :
  jailhouse_cell_create w s = Some (s', err) -> create_post w s s' err.
Proof.
  assert (Hearly : forall e, e <> 0 -> Some (s, e) = Some (s', err) ->
                             create_post w s s' err).
  { intros e He [= <- <-]. apply (create_post_quiet w s s e []); auto.
    simpl. now rewrite app_nil_r. }
  unfold jailhouse_cell_create, unlock_out, iounmap_out, kfree_config_out.
  cbv zeta.
  destruct (cw_copy_cell w) as [cell|]; [|apply Hearly; discriminate].
  destruct (num_preload_images cell =? 1); cbn [negb];
    [|apply Hearly; discriminate].
  destruct (cw_copy_image w) as [image|]; [|apply Hearly; discriminate].
  destruct (cw_kmalloc w); cbn [negb]; [|apply Hearly; discriminate].
  destruct (cw_copy_config w) as [config|] eqn:Hcfg.
  2:{ intros [= <- <-].
      apply (create_post_quiet w s _ _ []); state_simpl;
        try reflexivity; try tauto; try lia; try discriminate.
      simpl. now rewrite app_nil_r. }
  destruct (config_size cell <? sizeof_jailhouse_cell_desc); [discriminate|].
  destruct (offline_cpus _ _ _ _) as [[s1 e1]|] eqn:Hloop; [|discriminate].
  apply offline_cpus_flat in Hloop.
  destruct (offline_list_shape (cw_cpu_down w)
              (mask_cpus (terminate_name config)) (kmalloc s))
    as (att & Hatt).
  rewrite Hatt in Hloop. injection Hloop as -> ->.
  set (e1 := first_failure (map (cw_cpu_down w) att)).
  destruct (Z.eqb_spec e1 0) as [He1|He1]; cbn [negb].
  2:{ intros [= <- <-].
      apply (create_post_quiet w s _ _ att); try exact He1;
        unfold offline_update; state_simpl;
        try reflexivity; try tauto; lia. }
  destruct (num_memory_regions _ <? 1).
  { intros [= <- <-].
    apply (create_post_quiet w s _ _ att); try discriminate;
      unfold offline_update; state_simpl; try reflexivity; try tauto; lia. }
  destruct (ram_in_buffer _ _); cbn [negb]; [|discriminate].
  destruct (cell_memory_invalid _ _).
  { intros [= <- <-].
    apply (create_post_quiet w s _ _ att); try discriminate;
      unfold offline_update; state_simpl; try reflexivity; try tauto; lia. }
  destruct (Z.eqb_spec (cw_ioremap w) 0) as [Ha|Ha].
  { rewrite Ha, jailhouse_ioremap_null. intros [= <- <-].
    apply (create_post_quiet w s _ _ att); try discriminate;
      unfold offline_update; state_simpl; try reflexivity; try tauto; lia. }
  rewrite (jailhouse_ioremap_mapped _ _ _ _ Ha).
  destruct (cw_copy_preload w =? 0); cbn [negb].
  2:{ intros [= <- <-].
      apply (create_post_quiet w s _ _ att); try discriminate;
        unfold offline_update; state_simpl; try reflexivity; try tauto; lia. }
  destruct (cw_lock w =? 0); cbn [negb].
  2:{ intros [= <- <-].
      apply (create_post_quiet w s _ _ att); try discriminate;
        unfold offline_update; state_simpl; try reflexivity; try tauto; lia. }
  unfold offline_update. state_simpl.
  destruct (enabled s) eqn:Hen; cbn [negb].
  2:{ intros [= <- <-].
      apply (create_post_quiet w s _ _ att); try discriminate; state_simpl;
        try reflexivity; try tauto; try lia. symmetry; exact Hen. }
  destruct (Z.eqb_spec (cw_hc_cell_create w) 0) as [Hh|Hh]; cbn [negb];
    intros [= <- <-];
    unfold create_post; state_simpl;
    (split7; try reflexivity; try tauto; try lia; try congruence);
    exists att; eexists; (split; [rewrite <- !app_assoc; reflexivity|]);
    right; exists config; (split; [exact Hcfg|]); [right|left];
    split; (reflexivity || assumption).
Qed.

Lemma array_set_length (a : list Z) (i : nat) (v : Z) :
  length (array_set a i v) = length a.
Proof.
  revert i. induction a as [|x a IH]; intros [|i]; simpl; auto.
Qed.

Lemma array_set_nth_same (a : list Z) (i : nat) (v d : Z) :
  (i < length a)%nat -> nth i (array_set a i v) d = v.
Proof.
  revert i. induction a as [|x a IH]; intros [|i] H; simpl in *;
    try lia. apply IH; lia.
Qed.

Lemma array_set_nth_other (a : list Z) (i j : nat) (v d : Z) :
  i <> j -> nth j (array_set a i v) d = nth j a d.
Proof.
  revert i j. induction a as [|x a IH]; intros [|i] [|j] H; simpl;
    try reflexivity; try congruence.
  apply IH. congruence.
Qed.

Lemma c_string_bound (l : list Z) (n : nat) :
  (n < length l)%nat -> nth n l 1 = 0 -> (length (c_string l) <= n)%nat.
Proof.
  revert n. induction l as [|x l IH]; intros [|n] Hlen Hn; simpl in *;
    try lia.
  - subst x. simpl. lia.
  - destruct (x =? 0); simpl; [lia|].
    apply le_n_S, IH; [lia|exact Hn].
Qed.

Lemma c_string_no_nul (l : list Z) : ~ In 0 (c_string l).
Proof.
  induction l as [|x l IH]; simpl; [tauto|].
  destruct (Z.eqb_spec x 0); simpl; [tauto|].
  intros [H|H]; [congruence|exact (IH H)].
Qed.

(** C6, as the driver has it.  Enable, once it has copied the header and
    taken the lock, returns -EBUSY and leaves the state as it was when the
    hypervisor is enabled or the module reference cannot be taken.  Disable,
    once it has taken the lock, returns -EINVAL and leaves the state as it
    was when the hypervisor is not enabled.  CreateCell never returns 0 when
    the hypervisor is not enabled and never touches [enabled],
    [hypervisor_mem] or the module and firmware references; but it looks at
    [enabled] only after it has processed the CPU set and loaded the cell
    memory, so when all those steps succeed, on a configuration that lies
    inside its buffer, it returns -EINVAL from a state in which the CPUs it
    took offline stay offline and in [offlined_cpus]: the state differs from
    the one before the call by these cpu_down calls and by nothing else. *)
Theorem state_gates (we : enable_world) (wd : disable_world)
    (wc : create_world) (s : state) :
  lock s = false ->
  (ew_copy_header we <> None -> ew_lock we = 0 ->
   enabled s = true \/ ew_module_get we = false ->
   jailhouse_enable we s = Some (s, - EBUSY)) /\
  (dw_lock wd = 0 -> enabled s = false ->
   jailhouse_disable wd s = Some (s, - EINVAL)) /\
  (enabled s = false ->
   forall s' err,
     jailhouse_cell_create wc s = Some (s', err) ->
     err <> 0 /\
     enabled s' = false /\
     hypervisor_mem s' = hypervisor_mem s /\
     module_refcount s' = module_refcount s /\
     firmware_refs s' = firmware_refs s) /\
  (enabled s = false ->
   forall cell image config s1,
     cw_copy_cell wc = Some cell -> num_preload_images cell = 1 ->
     cw_copy_image wc = Some image -> cw_kmalloc wc = true ->
     cw_copy_config wc = Some config ->
     sizeof_jailhouse_cell_desc <= config_size cell ->
     offline_cpus (cw_cpu_down wc) cell (terminate_name config) (kmalloc s)
     = Some (s1, 0) ->
     ram_in_buffer cell (terminate_name config) = true ->
     cell_memory_invalid (terminate_name config) image = false ->
     cw_ioremap wc <> 0 -> cw_copy_preload wc = 0 -> cw_lock wc = 0 ->
     exists att,
       jailhouse_cell_create wc s =
       Some (offline_update (cw_cpu_down wc) att s, - EINVAL)).
Proof.
  intros Hl.
  assert (Hunlock : mutex_unlock (mutex_lock s) = s).
  { destruct s; simpl in Hl; subst; reflexivity. }
  split; [|split; [|split]].
  - intros Hc Hlock Hbusy. unfold jailhouse_enable. cbv zeta.
    destruct (ew_copy_header we); [|congruence].
    rewrite Hlock. cbn [Z.eqb negb].
    change (enabled (mutex_lock s)) with (enabled s).
    unfold error_unlock. rewrite Hunlock.
    destruct (enabled s); [reflexivity|].
    destruct Hbusy as [H|H]; [discriminate|now rewrite H].
  - intros Hlock Hen. unfold jailhouse_disable. cbv zeta.
    rewrite Hlock. cbn [Z.eqb negb].
    change (enabled (mutex_lock s)) with (enabled s).
    now rewrite Hen, Hunlock.
  - intros Hen s' err Hret.
    destruct (create_cell_facts wc s s' err Hret)
      as (H1 & H2 & H3 & H4 & _ & _ & H7 & _).
    split; [intros H; apply H7 in H; congruence|].
    split; [congruence|]. split; [exact H2|]. split; [exact H3|exact H4].
  - intros Hen cell image config s1 Hcell Hnum Himg Hk Hcfg Hdesc Hoff Hram
      Hmem Ha Hpre Hlock.
    pose proof (offline_cpus_flat _ _ _ _ _ Hoff) as Hflat.
    destruct (offline_list_shape (cw_cpu_down wc)
                (mask_cpus (terminate_name config)) (kmalloc s))
      as (att & Hatt).
    rewrite Hatt in Hflat. injection Hflat as Hs1 He1.
    unfold jailhouse_cell_create. cbv zeta.
    rewrite Hcell, Hnum, Himg, Hk, Hcfg. cbn [Z.eqb negb Pos.eqb].
    rewrite (proj2 (Z.ltb_ge _ _) Hdesc), Hoff, (memory_valid_regions _ _ Hmem).
    rewrite Hram, Hmem. cbn [Z.eqb negb]. subst s1.
    rewrite (jailhouse_ioremap_mapped _ _ _ _ Ha).
    apply Z.eqb_neq in Ha. rewrite Ha, Hpre, Hlock. cbn [Z.eqb negb].
    unfold offline_update. state_simpl. rewrite Hen. cbn [negb].
    exists att. unfold unlock_out, iounmap_out, kfree_config_out.
    state_unfold. rewrite unmap_head, Hl.
    destruct s; simpl in *. subst. repeat f_equal. lia.
Qed.

(** C9: when every step of CreateCell up to and including the copy of the
    preload image succeeds, the descriptor, the CPU set and the region it
    read lying inside the buffer, and the wait for the lock is then
    interrupted, CreateCell returns -EINTR through the label that only frees
    the configuration buffer: the cell memory it mapped is still mapped. *)
Theorem create_interrupted_keeps_mapping (w : create_world) (s s1 : state)
    (cell : jailhouse_new_cell) (image : jailhouse_preload_image)
    (config : cell_config) :
  cw_copy_cell w = Some cell -> num_preload_images cell = 1 ->
  cw_copy_image w = Some image -> cw_kmalloc w = true ->
  cw_copy_config w = Some config ->
  sizeof_jailhouse_cell_desc <= config_size cell ->
  offline_cpus (cw_cpu_down w) cell (terminate_name config) (kmalloc s)
  = Some (s1, 0) ->
  ram_in_buffer cell (terminate_name config) = true ->
  cell_memory_invalid (terminate_name config) image = false ->
  cw_ioremap w <> 0 -> cw_copy_preload w = 0 -> cw_lock w <> 0 ->
  exists s',
    jailhouse_cell_create w s = Some (s', - EINTR) /\
    iomappings s' =
      mkMapping (cw_ioremap w) (phys_start (ram config)) (size (ram config))
      :: iomappings s /\
    is_mapped (cw_ioremap w) s' = true /\
    kmalloc_live s' = kmalloc_live s /\
    lock s' = lock s /\
    enabled s' = enabled s.
Proof.
  intros Hcell Hnum Himg Hk Hcfg Hdesc Hoff Hram Hmem Ha Hpre Hlock.
  pose proof (offline_cpus_flat _ _ _ _ _ Hoff) as Hflat.
  destruct (offline_list_shape (cw_cpu_down w)
              (mask_cpus (terminate_name config)) (kmalloc s))
    as (att & Hatt).
  rewrite Hatt in Hflat. injection Hflat as Hs1 He1.
  unfold jailhouse_cell_create. cbv zeta.
  rewrite Hcell, Hnum, Himg, Hk, Hcfg. cbn [Z.eqb negb Pos.eqb].
  rewrite (proj2 (Z.ltb_ge _ _) Hdesc), Hoff, (memory_valid_regions _ _ Hmem).
  rewrite Hram, Hmem. cbn [Z.eqb negb]. subst s1.
  rewrite (jailhouse_ioremap_mapped _ _ _ _ Ha).
  apply Z.eqb_neq in Ha. apply Z.eqb_neq in Hlock.
  rewrite Ha, Hpre, Hlock. cbn [Z.eqb negb].
  unfold kfree_config_out.
  eexists. split; [reflexivity|].
  unfold offline_update, is_mapped. state_simpl.
  cbn [existsb map_addr terminate_name ram]. rewrite Z.eqb_refl.
  repeat split; try reflexivity. lia.
Qed.

(** ** The order in which CreateCell visits the CPUs *)



Lemma sorted_seq (a k : nat) :
  StronglySorted Z.lt (map Z.of_nat (seq a k)).
Proof.
  revert a. induction k as [|k IH]; intros a; simpl; constructor.
  - apply IH.
  - apply Forall_forall. intros x Hx.
    apply in_map_iff in Hx as (n & <- & Hn). apply in_seq in Hn. lia.
Qed.















Lemma cpu_down_calls_app (l1 l2 : list event) :
  cpu_down_calls (l1 ++ l2) = cpu_down_calls l1 ++ cpu_down_calls l2.
Proof. apply flat_map_app. Qed.

Lemma cpu_down_calls_map (cpu_down : Z -> Z) (att : list Z) :
  cpu_down_calls (map (fun cpu => CpuDown cpu (cpu_down cpu)) att) =
  map (fun cpu => (cpu, cpu_down cpu)) att.
Proof.
  induction att as [|a att IH]; [reflexivity|].
  simpl. now rewrite <- IH.
Qed.


(** Once the configuration is copied into a buffer that holds the
    descriptor and the loops over the CPU set have a result: an error of the
    loops is the result of CreateCell, and what a CreateCell that returns
    leaves in [offlined_cpus], in the online mask and among the cpu_down
    calls of the trace is what the loops left there. *)
Lemma create_after_loop (w : create_world) (s : state)
    (cell : jailhouse_new_cell) (image : jailhouse_preload_image)
    (config : cell_config) :
  cw_copy_cell w = Some cell -> num_preload_images cell = 1 ->
  cw_copy_image w = Some image -> cw_kmalloc w = true ->
  cw_copy_config w = Some config ->
  sizeof_jailhouse_cell_desc <= config_size cell ->
  forall s1 e1,
    offline_cpus (cw_cpu_down w) cell (terminate_name config) (kmalloc s)
    = Some (s1, e1) ->
    (e1 <> 0 -> jailhouse_cell_create w s = Some (kfree s1, e1)) /\
    (forall s' err,
       jailhouse_cell_create w s = Some (s', err) ->
       offlined_cpus s' = offlined_cpus s1 /\
       cpu_online_mask s' = cpu_online_mask s1 /\
       cpu_down_calls (trace s') = cpu_down_calls (trace s1) /\
       (e1 <> 0 -> err = e1)).
Proof.
  intros Hcell Hnum Himg Hk Hcfg Hdesc s1 e1 Hloop.
  unfold jailhouse_cell_create, unlock_out, iounmap_out, kfree_config_out.
  cbv zeta.
  rewrite Hcell, Hnum, Himg, Hk, Hcfg. cbn [Z.eqb negb Pos.eqb].
  rewrite (proj2 (Z.ltb_ge _ _) Hdesc), Hloop.
  destruct (Z.eqb_spec e1 0) as [He1|He1]; cbn [negb].
  2:{ split; [reflexivity|]. intros s' err [= <- <-]. state_simpl. auto. }
  split; [intros H; contradiction|]. intros s' err.
  destruct (num_memory_regions _ <? 1);
    [intros [= <- <-]; state_simpl; intuition congruence|].
  destruct (ram_in_buffer _ _); cbn [negb]; [|discriminate].
  destruct (cell_memory_invalid _ _);
    [intros [= <- <-]; state_simpl; intuition congruence|].
  destruct (Z.eqb_spec (cw_ioremap w) 0) as [Ha|Ha].
  { rewrite Ha, jailhouse_ioremap_null.
    intros [= <- <-]; state_simpl; intuition congruence. }
  rewrite (jailhouse_ioremap_mapped _ _ _ _ Ha).
  destruct (cw_copy_preload w =? 0); cbn [negb];
    [|intros [= <- <-]; state_simpl; intuition congruence].
  destruct (cw_lock w =? 0); cbn [negb];
    [|intros [= <- <-]; state_simpl; intuition congruence].
  state_simpl.
  destruct (enabled s1); cbn [negb];
    [|intros [= <- <-]; state_simpl; intuition congruence].
  destruct (cw_hc_cell_create w =? 0); cbn [negb];
    intros [= <- <-]; state_simpl;
    rewrite ?cpu_down_calls_app; cbn [cpu_down_calls flat_map app];
    rewrite ?app_nil_r; intuition congruence.
Qed.

(** CreateCell returns when the descriptor, the CPU set and the memory
    region it reads in the configuration buffer all lie inside it. *)
Lemma create_in_buffer_returns (w : create_world) (s : state) :
  (forall cell config,
     cw_copy_cell w = Some cell -> cw_copy_config w = Some config ->
     sizeof_jailhouse_cell_desc <= config_size cell /\
     sizeof_jailhouse_cell_desc + cpu_set_size (desc config)
     <= config_size cell /\
     ram_in_buffer cell (terminate_name config) = true) ->
  exists r, jailhouse_cell_create w s = Some r.
Proof.
  intros Hbuf. unfold jailhouse_cell_create. cbv zeta.
  destruct (cw_copy_cell w) as [cell|]; [|eauto].
  destruct (negb (num_preload_images cell =? 1)); [eauto|].
  destruct (cw_copy_image w) as [image|]; [|eauto].
  destruct (negb (cw_kmalloc w)); [eauto|].
  destruct (cw_copy_config w) as [config|]; [|eauto].
  destruct (Hbuf cell config eq_refl eq_refl) as (Hdesc & Hset & Hram).
  rewrite (proj2 (Z.ltb_ge _ _) Hdesc).
  rewrite (offline_cpus_in_buffer (cw_cpu_down w) cell (terminate_name config)
             _ Hset).
  destruct (offline_list _ _ _) as [s1 e1].
  destruct (negb (e1 =? 0)); [eauto|].
  destruct (num_memory_regions _ <? 1); [eauto|].
  rewrite Hram. cbn [negb].
  destruct (cell_memory_invalid _ _); [eauto|].
  destruct (cw_ioremap w =? 0); [eauto|].
  destruct (negb (cw_copy_preload w =? 0)); [eauto|].
  destruct (negb (cw_lock w =? 0)); [eauto|].
  destruct (negb (enabled _)); [eauto|].
  destruct (negb (cw_hc_cell_create w =? 0)); eauto.
Qed.


(** ** The two size checks when nothing wraps *)

Lemma PAGE_ALIGN_align_up (x : Z) :
  0 <= x -> x + PAGE_SIZE - 1 < 2 ^ BITS_PER_LONG ->
  PAGE_ALIGN x = align_up x PAGE_SIZE.
Proof.
  intros H0 H1. unfold PAGE_ALIGN, align_up.
  assert (Hmask : PAGE_MASK = Z.land (Z.lnot (Z.ones 12)) (Z.ones 64)).
  { unfold PAGE_MASK, ulong. rewrite Z.land_ones by lia. reflexivity. }
  rewrite Hmask. unfold ulong. rewrite Z.mod_small by (unfold PAGE_SIZE in *; lia).
  rewrite (Z.land_comm (Z.lnot _)), Z.land_assoc.
  rewrite (Z.land_ones _ 64) by lia.
  rewrite Z.mod_small by (unfold PAGE_SIZE, BITS_PER_LONG in *; lia).
  rewrite <- Z.ldiff_land, Z.ldiff_ones_r by lia.
  rewrite Z.shiftl_mul_pow2, Z.shiftr_div_pow2 by lia.
  unfold PAGE_SIZE. f_equal. f_equal. lia.
Qed.

(** Without wrap-around the layout check of Enable is the comparison of the
    region size with the sum of the three sizes. *)
Lemma layout_overflow_exact (config_header : jailhouse_system)
    (header : jailhouse_header) :
  0 <= bss_end header -> 0 <= num_possible_cpus -> 0 <= percpu_size header ->
  0 <= jailhouse_system_config_size config_header ->
  align_up (bss_end header) PAGE_SIZE
  + num_possible_cpus * percpu_size header
  + jailhouse_system_config_size config_header < 2 ^ BITS_PER_LONG ->
  (layout_overflow config_header header = true <->
   align_up (bss_end header) PAGE_SIZE
   + num_possible_cpus * percpu_size header
   + jailhouse_system_config_size config_header
   >= size (hypervisor_memory config_header)).
Proof.
  intros Hb Hn Hp Hc Hsum.
  assert (Hmul : 0 <= num_possible_cpus * percpu_size header)
    by (apply Z.mul_nonneg_nonneg; assumption).
  assert (Hal : bss_end header + PAGE_SIZE - 1 < 2 ^ BITS_PER_LONG /\
                0 <= align_up (bss_end header) PAGE_SIZE).
  { unfold align_up, PAGE_SIZE, BITS_PER_LONG in *.
    pose proof (Z.div_mod (bss_end header + 4096 - 1) 4096 ltac:(lia)).
    pose proof (Z.mod_pos_bound (bss_end header + 4096 - 1) 4096 ltac:(lia)).
    assert (0 <= (bss_end header + 4096 - 1) / 4096)
      by (apply Z.div_pos; lia).
    change (2 ^ 64) with (4503599627370496 * 4096) in *. lia. }
  destruct Hal as [Hal1 Hal2].
  unfold layout_overflow, hv_core_size, percpu_area_size, system_config_size.
  rewrite (PAGE_ALIGN_align_up _ Hb Hal1).
  unfold ulong.
  rewrite (Z.mod_small (num_possible_cpus * _)) by lia.
  rewrite (Z.mod_small (jailhouse_system_config_size _)) by lia.
  rewrite Z.mod_small by lia.
  rewrite Z.leb_le. lia.
Qed.

(** Without wrap-around the memory check of CreateCell is the comparison of
    the region size with the end of the image, after the two tests on the
    region itself. *)
Lemma cell_memory_invalid_exact (config : cell_config)
    (image : jailhouse_preload_image) :
  0 <= target_address image -> 0 <= image_size image ->
  target_address image + image_size image < 2 ^ 64 ->
  (cell_memory_invalid config image = true <->
   num_memory_regions (desc config) < 1 \/
   size (ram config) < 1024 * 1024 \/
   target_address image + image_size image > size (ram config)).
Proof.
  intros Ht Hs Hsum. unfold cell_memory_invalid, u64.
  rewrite Z.mod_small by lia.
  rewrite !orb_true_iff, !Z.ltb_lt, Z.gtb_ltb, Z.ltb_lt. lia.
Qed.

(** * Further properties of the driver *)

(** ** The rendezvous and the busy wait *)

(** The busy wait of Enable and Disable ends exactly when as many CPUs have
    run the function as are online; it then leaves [call_done] at that
    number and every field but [call_done] and [error_code] untouched. *)
Theorem rendezvous_ends_iff (r : Z -> Z) (sched : list Z) (s : state) :
  (rendezvous (enter_hypervisor r) sched (set_error_code 0 s) = None <->
   Z.of_nat (length sched) <> num_online_cpus s) /\
  (forall s',
     rendezvous (enter_hypervisor r) sched (set_error_code 0 s) = Some s' ->
     Z.of_nat (length sched) = num_online_cpus s /\
     call_done s' = num_online_cpus s /\
     error_code s' = last_failure (map r sched) /\
     resources_kept s s' /\
     enabled s' = enabled s /\ hypervisor_mem s' = hypervisor_mem s /\
     lock s' = lock s).
Proof.
  unfold rendezvous.
  rewrite (on_each_cpu_enter r sched []) by reflexivity.
  match goal with
  | |- context [num_online_cpus ?t] =>
      change (num_online_cpus t) with (num_online_cpus s)
  end.
  state_simpl. cbn [app]. rewrite Z.add_0_l.
  destruct (Z.eqb_spec (Z.of_nat (length sched)) (num_online_cpus s))
    as [He|He].
  - split; [split; [intros H; discriminate|intros H; contradiction]|].
    intros s' [= <-]. cbn.
    split; [exact He|]. split; [exact He|]. split; [reflexivity|].
    split; [unfold resources_kept; cbn; repeat split; auto|].
    repeat split; reflexivity.
  - split; [split; [intros _; exact He|intros _; reflexivity]|].
    intros s' H. discriminate.
Qed.

(** ** Enable, case by case *)

Lemma rendezvous_counted (r : Z -> Z) (sched : list Z) (s : state) :
  Z.of_nat (length sched) = num_online_cpus s ->
  rendezvous (enter_hypervisor r) sched (set_error_code 0 s) =
  Some (set_call_done (num_online_cpus s)
          (set_error_code (last_failure (map r sched)) s)).
Proof.
  intros Hlen. unfold rendezvous.
  rewrite (on_each_cpu_enter r sched []) by reflexivity.
  match goal with
  | |- context [num_online_cpus ?t] =>
      change (num_online_cpus t) with (num_online_cpus s)
  end.
  state_simpl. cbn [app]. rewrite Z.add_0_l, Hlen, Z.eqb_refl. reflexivity.
Qed.

Lemma rendezvous_counted_inv (r : Z -> Z) (sched : list Z) (s s1 : state) :
  rendezvous (enter_hypervisor r) sched (set_error_code 0 s) = Some s1 ->
  Z.of_nat (length sched) = num_online_cpus s.
Proof.
  unfold rendezvous.
  rewrite (on_each_cpu_enter r sched []) by reflexivity.
  match goal with
  | |- context [num_online_cpus ?t] =>
      change (num_online_cpus t) with (num_online_cpus s)
  end.
  state_simpl. rewrite Z.add_0_l.
  destruct (Z.eqb_spec (Z.of_nat (length sched)) (num_online_cpus s));
    [auto|discriminate].
Qed.

Ltac kept :=
  unfold resources_kept; state_unfold; rewrite ?unmap_head, ?Z.eqb_refl;
  repeat split; try reflexivity; try lia; auto.

(** Every return of Enable is either an error that leaves the resources as
    they were, or the 0 of a run in which every step succeeded. *)
Lemma enable_outcome (w : enable_world) (s s' : state) (err : Z) :
  jailhouse_enable w s = Some (s', err) ->
  (err <> 0 /\ resources_kept s s' /\
   (enabled s = true -> hypervisor_mem s' = hypervisor_mem s) /\
   (err = - EFAULT \/ err = - EINTR \/ err = - EBUSY \/ err = - EINVAL \/
    err = ew_request_firmware w \/
    exists cpu, In cpu (ew_schedule w) /\ err = ew_entry w cpu)) \/
  (err = 0 /\
   exists config_header,
     enable_accepts w s config_header /\
     Z.of_nat (length (ew_schedule w)) = num_online_cpus s /\
     enabled_from w config_header s s').
Proof.
  unfold jailhouse_enable. cbv zeta.
  destruct (ew_copy_header w) as [config_header|] eqn:Hcopy.
  2:{ intros [= <- <-]. left. split; [discriminate|]. split; [kept|].
    split; [first [intros _; reflexivity | discriminate]|auto 10]. }
  destruct (Z.eqb_spec (ew_lock w) 0) as [Hlock|Hlock]; cbn [negb].
  2:{ intros [= <- <-]. left. split; [discriminate|]. split; [kept|].
    split; [first [intros _; reflexivity | discriminate]|auto 10]. }
  change (enabled (mutex_lock s)) with (enabled s).
  destruct (enabled s) eqn:Hen.
  { intros [= <- <-]. left. split; [discriminate|].
    split; [kept|].
    split; [first [intros _; reflexivity | discriminate]|auto 10]. }
  destruct (ew_module_get w) eqn:Hget; cbn [negb].
  2:{ intros [= <- <-]. left. split; [discriminate|].
      split; [kept|].
    split; [first [intros _; reflexivity | discriminate]|auto 10]. }
  destruct (Z.eqb_spec (ew_request_firmware w) 0) as [Hfw|Hfw]; cbn [negb].
  2:{ intros [= <- <-]. left. split; [exact Hfw|].
      split; [kept|].
    split; [first [intros _; reflexivity | discriminate]|auto 10]. }
  destruct (memcmp_eq _ _) eqn:Hsig; cbn [negb].
  2:{ intros [= <- <-]. left. split; [discriminate|].
      split; [kept|].
    split; [first [intros _; reflexivity | discriminate]|auto 10]. }
  destruct (layout_overflow _ _) eqn:Hlay.
  { intros [= <- <-]. left. split; [discriminate|].
    split; [kept|].
    split; [first [intros _; reflexivity | discriminate]|auto 10]. }
  cbn [hypervisor_mem set_hypervisor_mem].
  destruct (Z.eqb_spec (ew_ioremap w) 0) as [Ha|Ha].
  { rewrite Ha, jailhouse_ioremap_null.
    intros [= <- <-]. left. split; [discriminate|].
    split; [kept|].
    split; [first [intros _; reflexivity | discriminate]|auto 10]. }
  rewrite (jailhouse_ioremap_mapped _ _ _ _ Ha).
  destruct (Z.ltb_spec (size (hypervisor_memory config_header))
              (fw_size (ew_firmware w))) as [Hlong|Hfits]; [discriminate|].
  destruct (Z.eqb_spec (ew_copy_config w) 0) as [Hcfg|Hcfg]; cbn [negb].
  2:{ intros [= <- <-]. left. split; [discriminate|].
      split; [kept|].
    split; [first [intros _; reflexivity | discriminate]|auto 10]. }
  match goal with
  | |- context [rendezvous ?f ?l (set_error_code 0 ?t)] =>
      set (pre := t);
      pose proof (rendezvous_enter_inv (ew_entry w) l pre) as Hinv;
      pose proof (rendezvous_counted_inv (ew_entry w) l pre) as Hcnt
  end.
  destruct (rendezvous _ _ _) as [s1|]; [|discriminate].
  specialize (Hinv s1 eq_refl). specialize (Hcnt s1 eq_refl).
  rewrite Hinv.
  set (e := last_failure (map (ew_entry w) (ew_schedule w))) in *.
  change (error_code (set_call_done _ (set_error_code e pre))) with e.
  destruct (Z.eqb_spec e 0) as [He|He]; cbn [negb].
  - intros [= <- <-]. right. split; [reflexivity|].
    exists config_header. split.
    { unfold enable_accepts. repeat split; try assumption.
      intros cpu Hcpu. apply (proj1 (last_failure_zero _) He).
      apply in_map, Hcpu. }
    split; [exact Hcnt|].
    unfold enabled_from. subst pre. state_simpl.
    repeat split; try reflexivity; try lia;
      first [exact He | exact Hcnt].
  - intros [= <- <-]. left. split; [exact He|]. split; [|split].
    + subst pre. kept.
    + discriminate.
    + do 5 right. apply last_failure_in, in_map_iff in He as (cpu & Hr & Hc).
      exists cpu. split; [exact Hc|]. symmetry. exact Hr.
Qed.

Lemma enable_accepted (w : enable_world) (s : state)
    (config_header : jailhouse_system) :
  enable_accepts w s config_header ->
  Z.of_nat (length (ew_schedule w)) = num_online_cpus s ->
  exists s', jailhouse_enable w s = Some (s', 0).
Proof.
  intros (Hcopy & Hlock & Hen & Hget & Hfw & Hsig & Hlay & Ha & Hfits & Hcfg
          & Hall) Hlen.
  unfold jailhouse_enable. cbv zeta.
  rewrite Hcopy, Hlock. cbn [Z.eqb negb].
  change (enabled (mutex_lock s)) with (enabled s).
  rewrite Hen, Hget, Hfw, Hsig, Hlay. cbn [Z.eqb negb].
  cbn [hypervisor_mem set_hypervisor_mem].
  rewrite (jailhouse_ioremap_mapped _ _ _ _ Ha).
  apply Z.eqb_neq in Ha as Hb.
  rewrite Hb, (proj2 (Z.ltb_ge _ _) Hfits), Hcfg. cbn [Z.eqb negb].
  rewrite rendezvous_counted by exact Hlen.
  assert (He : last_failure (map (ew_entry w) (ew_schedule w)) = 0).
  { apply last_failure_zero. intros x Hx.
    apply in_map_iff in Hx as (cpu & <- & Hc). exact (Hall cpu Hc). }
  change (error_code (set_call_done _ (set_error_code ?e _))) with e.
  rewrite He. cbn [Z.eqb negb]. eauto.
Qed.

Lemma enable_refused (w : enable_world) (s : state) :
  lock s = false -> enabled s = true ->
  ew_copy_header w <> None -> ew_lock w = 0 ->
  jailhouse_enable w s = Some (s, - EBUSY).
Proof.
  intros Hl Hen Hc Hlock. unfold jailhouse_enable. cbv zeta.
  destruct (ew_copy_header w); [|congruence].
  rewrite Hlock. cbn [Z.eqb negb].
  change (enabled (mutex_lock s)) with (enabled s). rewrite Hen.
  unfold error_unlock. destruct s; simpl in Hl; subst; reflexivity.
Qed.

(** Enable returns 0 exactly when the header is copied, the lock and the
    module reference are taken with the hypervisor disabled, the image
    arrives with the right signature and passes the layout check, the region
    is mapped and is not shorter than the image copied into it, the
    configuration is copied, every CPU that runs
    [enter_hypervisor] returns 0 and as many run it as are online.  It then
    leaves the hypervisor enabled, [hypervisor_mem] pointing to the one new
    mapping, one more module reference, no firmware handle, the lock free
    and the opening message as its only output. *)
Theorem enable_succeeds_iff (w : enable_world) (s : state) :
  ((exists s', jailhouse_enable w s = Some (s', 0)) <->
   (exists config_header, enable_accepts w s config_header) /\
   Z.of_nat (length (ew_schedule w)) = num_online_cpus s) /\
  (forall s',
     jailhouse_enable w s = Some (s', 0) ->
     exists config_header,
       ew_copy_header w = Some config_header /\
       enabled_from w config_header s s').
Proof.
  split; [split|].
  - intros (s' & H). apply enable_outcome in H as [(H & _)|(_ & c & Ha & Hl & _)];
      [congruence|]. split; [exists c; exact Ha|exact Hl].
  - intros [(c & Ha) Hl]. exact (enable_accepted w s c Ha Hl).
  - intros s' H.
    apply enable_outcome in H as [(H & _)|(_ & c & Ha & _ & Hs)];
      [congruence|]. exists c. split; [exact (proj1 Ha)|exact Hs].
Qed.

(** Whatever goes wrong, Enable returns one of -EFAULT, -EINTR, -EBUSY and
    -EINVAL, the error of request_firmware, or the error some CPU brought
    back from the hypervisor's entry; in each case the mappings, firmware
    handles, module references, CPU masks, the enabled flag and the trace
    are what they were, whatever the state Enable started from. *)
Theorem enable_errors (w : enable_world) (s s' : state) (err : Z) :
  jailhouse_enable w s = Some (s', err) ->
  err <> 0 ->
  resources_kept s s' /\
  (err = - EFAULT \/ err = - EINTR \/ err = - EBUSY \/ err = - EINVAL \/
   err = ew_request_firmware w \/
   exists cpu, In cpu (ew_schedule w) /\ err = ew_entry w cpu).
Proof.
  intros H Herr.
  apply enable_outcome in H as [(_ & Hk & _ & Hc)|(H0 & _)]; [|contradiction].
  split; assumption.
Qed.

(** A second Enable after a successful one, once it has its header and the
    lock, is refused with -EBUSY and changes nothing. *)
Theorem enable_twice (w1 w2 : enable_world) (s s1 : state) :
  jailhouse_enable w1 s = Some (s1, 0) ->
  ew_copy_header w2 <> None -> ew_lock w2 = 0 ->
  jailhouse_enable w2 s1 = Some (s1, - EBUSY).
Proof.
  intros H1 Hc Hl.
  apply enable_outcome in H1 as [(H & _)|(_ & c & _ & _ & Hs)];
    [congruence|].
  destruct Hs as (Hen & _ & _ & _ & _ & _ & Hlock & _).
  exact (enable_refused w2 s1 Hlock Hen Hc Hl).
Qed.

Lemma bytes_eqb_eq (a b : list Z) : bytes_eqb a b = true <-> a = b.
Proof.
  revert b. induction a as [|x a IH]; intros [|y b]; simpl;
    try (split; [discriminate|discriminate]); [split; reflexivity|].
  rewrite andb_true_iff, Z.eqb_eq, IH. split.
  - intros [-> ->]. reflexivity.
  - intros [= -> ->]. split; reflexivity.
Qed.

(** An image whose signature bytes are not the leading bytes of
    JAILHOUSE_SIGNATURE is turned down with -EINVAL before anything is
    mapped: once the firmware is delivered, Enable gives it and the module
    reference back and leaves the state as it was. *)
Theorem enable_signature_mismatch (w : enable_world) (s : state) :
  lock s = false -> enabled s = false ->
  ew_copy_header w <> None -> ew_lock w = 0 -> ew_module_get w = true ->
  ew_request_firmware w = 0 ->
  firstn (length (signature (fw_data (ew_firmware w)))) JAILHOUSE_SIGNATURE
  <> signature (fw_data (ew_firmware w)) ->
  jailhouse_enable w s = Some (s, - EINVAL).
Proof.
  intros Hl Hen Hc Hlock Hget Hfw Hsig.
  unfold jailhouse_enable. cbv zeta.
  destruct (ew_copy_header w); [|congruence].
  rewrite Hlock. cbn [Z.eqb negb].
  change (enabled (mutex_lock s)) with (enabled s).
  rewrite Hen, Hget, Hfw. cbn [Z.eqb negb].
  destruct (memcmp_eq _ _) eqn:Hm.
  { apply bytes_eqb_eq in Hm. congruence. }
  cbn [negb]. state_unfold.
  destruct s; simpl in *; subst. repeat f_equal; lia.
Qed.

(** When the three sizes add up without wrapping to at least the size of the
    region, an Enable that got as far as a delivered and signed image is
    turned down with -EINVAL before anything is mapped, and leaves the state
    as it was. *)
Theorem enable_layout_rejection (w : enable_world) (s : state)
    (config_header : jailhouse_system) :
  lock s = false -> enabled s = false ->
  ew_copy_header w = Some config_header -> ew_lock w = 0 ->
  ew_module_get w = true -> ew_request_firmware w = 0 ->
  memcmp_eq (signature (fw_data (ew_firmware w))) JAILHOUSE_SIGNATURE = true ->
  0 <= bss_end (fw_data (ew_firmware w)) -> 0 <= num_possible_cpus ->
  0 <= percpu_size (fw_data (ew_firmware w)) ->
  0 <= jailhouse_system_config_size config_header ->
  align_up (bss_end (fw_data (ew_firmware w))) PAGE_SIZE
  + num_possible_cpus * percpu_size (fw_data (ew_firmware w))
  + jailhouse_system_config_size config_header < 2 ^ BITS_PER_LONG ->
  align_up (bss_end (fw_data (ew_firmware w))) PAGE_SIZE
  + num_possible_cpus * percpu_size (fw_data (ew_firmware w))
  + jailhouse_system_config_size config_header
  >= size (hypervisor_memory config_header) ->
  jailhouse_enable w s = Some (s, - EINVAL).
Proof.
  intros Hl Hen Hc Hlock Hget Hfw Hsig Hb Hn Hp Hcs Hwrap Hsum.
  unfold jailhouse_enable. cbv zeta.
  rewrite Hc, Hlock. cbn [Z.eqb negb].
  change (enabled (mutex_lock s)) with (enabled s).
  rewrite Hen, Hget, Hfw, Hsig. cbn [Z.eqb negb].
  rewrite (proj2 (layout_overflow_exact config_header _ Hb Hn Hp Hcs Hwrap)
             Hsum).
  state_unfold. destruct s; simpl in *; subst. repeat f_equal; lia.
Qed.

(** ** Disable, case by case *)

(** Every return of Disable is either an error that leaves the resources as
    they were, or the 0 of a run in which every CPU left the hypervisor. *)
Lemma disable_outcome (w : disable_world) (s s' : state) (err : Z) :
  jailhouse_disable w s = Some (s', err) ->
  (err <> 0 /\ resources_kept s s' /\ hypervisor_mem s' = hypervisor_mem s /\
   (err = - EINTR \/ err = - EINVAL /\ enabled s = false \/
    enabled s = true /\
    exists cpu, In cpu (dw_schedule w) /\ err = dw_hc_disable w cpu)) \/
  (err = 0 /\ dw_lock w = 0 /\ enabled s = true /\
   (forall cpu, In cpu (dw_schedule w) -> dw_hc_disable w cpu = 0) /\
   Z.of_nat (length (dw_schedule w)) = num_online_cpus s /\
   disabled_from w s s').
Proof.
  unfold jailhouse_disable. cbv zeta.
  destruct (Z.eqb_spec (dw_lock w) 0) as [Hlock|Hlock]; cbn [negb].
  2:{ intros [= <- <-]. left. split; [discriminate|].
      split; [kept|]. split; [reflexivity|auto]. }
  change (enabled (mutex_lock s)) with (enabled s).
  destruct (enabled s) eqn:Hen; cbn [negb].
  2:{ intros [= <- <-]. left. split; [discriminate|].
      split; [kept|]. split; [reflexivity|auto]. }
  rewrite leave_is_enter.
  pose proof (rendezvous_enter_inv (dw_hc_disable w) (dw_schedule w)
                (mutex_lock s)) as Hinv.
  pose proof (rendezvous_counted_inv (dw_hc_disable w) (dw_schedule w)
                (mutex_lock s)) as Hcnt.
  destruct (rendezvous _ _ _) as [s1|]; [|discriminate].
  specialize (Hinv s1 eq_refl). specialize (Hcnt s1 eq_refl).
  rewrite Hinv.
  set (e := last_failure (map (dw_hc_disable w) (dw_schedule w))) in *.
  change (error_code (set_call_done _ (set_error_code e (mutex_lock s))))
    with e.
  destruct (Z.eqb_spec e 0) as [He|He]; cbn [negb].
  - rewrite bring_back_online_fold.
    intros [= <- <-]. right. split; [reflexivity|].
    split; [exact Hlock|]. split; [reflexivity|]. split.
    { intros cpu Hcpu. apply (proj1 (last_failure_zero _) He).
      apply in_map, Hcpu. }
    split; [exact Hcnt|].
    unfold disabled_from. state_unfold.
    repeat split; try reflexivity. now rewrite <- app_assoc.
  - intros [= <- <-]. left. split; [exact He|].
    split; [kept|]. split; [reflexivity|].
    right. right. split; [reflexivity|].
    apply last_failure_in, in_map_iff in He as (cpu & Hr & Hc).
    exists cpu. split; [exact Hc|]. symmetry. exact Hr.
Qed.

Lemma disable_accepted (w : disable_world) (s : state) :
  dw_lock w = 0 -> enabled s = true ->
  (forall cpu, In cpu (dw_schedule w) -> dw_hc_disable w cpu = 0) ->
  Z.of_nat (length (dw_schedule w)) = num_online_cpus s ->
  exists s', jailhouse_disable w s = Some (s', 0).
Proof.
  intros Hlock Hen Hall Hlen.
  unfold jailhouse_disable. cbv zeta. rewrite Hlock.
  change (enabled (mutex_lock s)) with (enabled s). rewrite Hen.
  cbn [Z.eqb negb]. rewrite leave_is_enter.
  rewrite rendezvous_counted by exact Hlen.
  assert (He : last_failure (map (dw_hc_disable w) (dw_schedule w)) = 0).
  { apply last_failure_zero. intros x Hx.
    apply in_map_iff in Hx as (cpu & <- & Hc). exact (Hall cpu Hc). }
  change (error_code (set_call_done _ (set_error_code ?e _))) with e.
  rewrite He. cbn [Z.eqb negb]. eauto.
Qed.

(** Disable returns 0 exactly when it gets the lock with the hypervisor
    enabled, every CPU that runs [leave_hypervisor] returns 0 and as many
    run it as are online.  It then leaves the hypervisor disabled, the
    mapping of [hypervisor_mem] gone, one module reference less, the lock
    free, and on the trace one cpu_up per CPU of [offlined_cpus] followed by
    the closing message. *)
Theorem disable_succeeds_iff (w : disable_world) (s : state) :
  ((exists s', jailhouse_disable w s = Some (s', 0)) <->
   dw_lock w = 0 /\ enabled s = true /\
   (forall cpu, In cpu (dw_schedule w) -> dw_hc_disable w cpu = 0) /\
   Z.of_nat (length (dw_schedule w)) = num_online_cpus s) /\
  (forall s', jailhouse_disable w s = Some (s', 0) -> disabled_from w s s').
Proof.
  split; [split|].
  - intros (s' & H).
    apply disable_outcome in H as [(H & _)|(_ & H1 & H2 & H3 & H4 & _)];
      [congruence|auto].
  - intros (H1 & H2 & H3 & H4). exact (disable_accepted w s H1 H2 H3 H4).
  - intros s' H.
    apply disable_outcome in H as [(H & _)|(_ & _ & _ & _ & _ & Hs)];
      [congruence|exact Hs].
Qed.

(** Whatever goes wrong, Disable returns -EINTR, or -EINVAL because the
    hypervisor is not enabled, or the error some CPU brought back from the
    disable hypercall; in each case nothing is unmapped, no CPU is brought
    back, and the enabled flag, the module references and the trace are what
    they were. *)
Theorem disable_errors (w : disable_world) (s s' : state) (err : Z) :
  jailhouse_disable w s = Some (s', err) ->
  err <> 0 ->
  resources_kept s s' /\
  hypervisor_mem s' = hypervisor_mem s /\
  (err = - EINTR \/ err = - EINVAL /\ enabled s = false \/
   enabled s = true /\
   exists cpu, In cpu (dw_schedule w) /\ err = dw_hc_disable w cpu).
Proof.
  intros H Herr.
  apply disable_outcome in H as [(_ & Hk & Hm & Hc)|(H0 & _)];
    [|contradiction].
  split; [exact Hk|]. split; assumption.
Qed.

(** A Disable after a successful one, once it has the lock, is refused with
    -EINVAL and changes nothing. *)
Theorem disable_twice (w1 w2 : disable_world) (s s1 : state) :
  jailhouse_disable w1 s = Some (s1, 0) ->
  dw_lock w2 = 0 ->
  jailhouse_disable w2 s1 = Some (s1, - EINVAL).
Proof.
  intros H1 Hlock.
  apply disable_outcome in H1 as [(H & _)|(_ & _ & _ & _ & _ & Hs)];
    [congruence|].
  destruct Hs as (Hen & _ & _ & _ & _ & _ & Hl & _).
  unfold jailhouse_disable. cbv zeta. rewrite Hlock.
  change (enabled (mutex_lock s1)) with (enabled s1). rewrite Hen.
  cbn [Z.eqb negb]. destruct s1; simpl in Hl; subst; reflexivity.
Qed.

(** Enable followed by Disable, both successful, gives back what Enable
    took: the mappings, the module references and the firmware handles are
    those from before Enable, the hypervisor is disabled and the lock free;
    [offlined_cpus] is untouched and the trace holds the opening message,
    the cpu_up calls for the CPUs of [offlined_cpus] and the closing
    message. *)
Theorem enable_disable_round_trip (we : enable_world) (wd : disable_world)
    (s s1 s2 : state) :
  jailhouse_enable we s = Some (s1, 0) ->
  jailhouse_disable wd s1 = Some (s2, 0) ->
  iomappings s2 = iomappings s /\
  module_refcount s2 = module_refcount s /\
  firmware_refs s2 = firmware_refs s /\
  kmalloc_live s2 = kmalloc_live s /\
  enabled s2 = false /\
  lock s2 = false /\
  offlined_cpus s2 = offlined_cpus s /\
  trace s2 =
    trace s ++ [PrintkOpening]
    ++ flat_map (cpu_up_events (dw_cpu_up wd))
         (for_each_cpu_mask (offlined_cpus s))
    ++ [PrintkClosed].
Proof.
  intros H1 H2.
  apply enable_outcome in H1 as [(H & _)|(_ & c & _ & _ & He)];
    [congruence|].
  apply disable_outcome in H2 as [(H & _)|(_ & _ & _ & _ & _ & Hd)];
    [congruence|].
  destruct He as (_ & Hm1 & Hi1 & Hr1 & Hf1 & Hk1 & _ & _ & _ & Ho1 & _ & Ht1).
  destruct Hd as (Hen & _ & Hi2 & Hr2 & Hf2 & Hk2 & Hl2 & Ho2 & _ & Ht2).
  rewrite Hi2, Hm1, Hi1, unmap_head.
  rewrite Hr2, Hr1, Hf2, Hf1, Hk2, Hk1, Ho2, Ho1, Ht2, Ht1, Ho1.
  repeat split; try assumption; try lia.
  now rewrite <- app_assoc.
Qed.

(** ** CreateCell, case by case *)

Lemma offline_list_shape_in (cpu_down : Z -> Z) (cpus : list Z) (s : state) :
  exists att,
    offline_list cpu_down cpus s =
    (offline_update cpu_down att s, first_failure (map cpu_down att)) /\
    incl att cpus.
Proof.
  revert s. induction cpus as [|cpu cpus IH]; intros s.
  - exists []. split; [|intros x []].
    destruct s. unfold offline_update. simpl. now rewrite app_nil_r.
  - cbn [offline_list]. destruct (cpu_online cpu s).
    2:{ destruct (IH s) as (att & Hatt & Hin). exists att.
        split; [exact Hatt|]. intros x Hx. right. exact (Hin x Hx). }
    cbv zeta. destruct (Z.eqb_spec (cpu_down cpu) 0) as [He|He]; cbn [negb].
    + match goal with
      | |- context [offline_list cpu_down cpus ?t] =>
          destruct (IH t) as (att & Hatt & Hin); rewrite Hatt
      end.
      exists (cpu :: att). split.
      * cbn [map first_failure]. rewrite He. cbn [Z.eqb].
        f_equal. unfold offline_update. state_simpl. cbn [fold_left map].
        rewrite He. cbn [Z.eqb]. rewrite <- app_assoc. reflexivity.
      * intros x [<-|Hx]; [now left|right; exact (Hin x Hx)].
    + exists [cpu]. split.
      * cbn [map first_failure].
        apply Z.eqb_neq in He as Hb. rewrite Hb.
        f_equal. unfold offline_update. cbn [fold_left map]. rewrite Hb.
        reflexivity.
      * intros x [<-|[]]. now left.
Qed.

Lemma mask_cpus_range (config : cell_config) (cpu : Z) :
  In cpu (mask_cpus config) -> 0 <= cpu < 2 ^ 32.
Proof.
  unfold mask_cpus, byte_cpus. intros H.
  apply in_flat_map in H as (mp & _ & H).
  apply in_flat_map in H as (b & _ & H).
  destruct (Z.land _ _ =? 0); [destruct H|].
  destruct H as [<-|[]]. unfold u32. apply Z.mod_pos_bound. lia.
Qed.

(** Every return of CreateCell: the CPU masks change by cpu_down calls on
    CPUs of the CPU set only, the mappings are those from before the call
    unless the wait for the lock was interrupted, and the result is either
    one of the listed errors or the 0 of a run in which every step
    succeeded. *)
Lemma create_outcome (w : create_world) (s s' : state) (err : Z) :
  jailhouse_cell_create w s = Some (s', err) ->
  exists att,
    (att = [] \/
     exists config, cw_copy_config w = Some config /\
                    incl att (mask_cpus config)) /\
    offlined_cpus s' =
      fold_left (fun m cpu => if cw_cpu_down w cpu =? 0 then cpu_set cpu m
                              else m) att (offlined_cpus s) /\
    cpu_online_mask s' =
      fold_left (fun m cpu => if cw_cpu_down w cpu =? 0 then cpu_clear cpu m
                              else m) att (cpu_online_mask s) /\
    (iomappings s' = iomappings s \/
     err = - EINTR /\ cw_lock w <> 0 /\
     exists config,
       cw_copy_config w = Some config /\
       iomappings s' =
         mkMapping (cw_ioremap w) (phys_start (ram config))
           (size (ram config)) :: iomappings s) /\
    (err <> 0 /\
     (err = - EFAULT \/ err = - EINVAL \/ err = - ENOMEM \/ err = - EBUSY \/
      err = - EINTR \/ err = cw_hc_cell_create w \/
      exists cpu, In cpu att /\ err = cw_cpu_down w cpu) \/
     err = 0 /\
     exists cell image config, create_accepts w s cell image config).
Proof.
  assert (Hearly : forall e,
            e <> 0 ->
            e = - EFAULT \/ e = - EINVAL \/ e = - ENOMEM ->
            Some (s, e) = Some (s', err) ->
            exists att,
              (att = [] \/
               exists config, cw_copy_config w = Some config /\
                              incl att (mask_cpus config)) /\
              offlined_cpus s' =
                fold_left (fun m cpu => if cw_cpu_down w cpu =? 0
                                        then cpu_set cpu m else m)
                  att (offlined_cpus s) /\
              cpu_online_mask s' =
                fold_left (fun m cpu => if cw_cpu_down w cpu =? 0
                                        then cpu_clear cpu m else m)
                  att (cpu_online_mask s) /\
              (iomappings s' = iomappings s \/
               err = - EINTR /\ cw_lock w <> 0 /\
               exists config,
                 cw_copy_config w = Some config /\
                 iomappings s' =
                   mkMapping (cw_ioremap w) (phys_start (ram config))
                     (size (ram config)) :: iomappings s) /\
              (err <> 0 /\
               (err = - EFAULT \/ err = - EINVAL \/ err = - ENOMEM \/
                err = - EBUSY \/ err = - EINTR \/
                err = cw_hc_cell_create w \/
                exists cpu, In cpu att /\ err = cw_cpu_down w cpu) \/
               err = 0 /\
               exists cell image config, create_accepts w s cell image config)).
  { intros e He Hcode [= <- <-]. exists []. cbn [fold_left].
    split; [now left|]. split; [reflexivity|]. split; [reflexivity|].
    split; [now left|]. left. split; [exact He|].
    destruct Hcode as [-> | [-> | ->]]; auto. }
  unfold jailhouse_cell_create, unlock_out, iounmap_out, kfree_config_out.
  cbv zeta.
  destruct (cw_copy_cell w) as [cell|] eqn:Hcell;
    [|apply Hearly; [discriminate|auto]].
  destruct (Z.eqb_spec (num_preload_images cell) 1) as [Hnum|Hnum];
    cbn [negb]; [|apply Hearly; [discriminate|auto]].
  destruct (cw_copy_image w) as [image|] eqn:Himg;
    [|apply Hearly; [discriminate|auto]].
  destruct (cw_kmalloc w) eqn:Hk; cbn [negb];
    [|apply Hearly; [discriminate|auto]].
  destruct (cw_copy_config w) as [config|] eqn:Hcfg.
  2:{ intros [= <- <-]. exists []. cbn [fold_left]. state_simpl.
      split; [now left|]. split; [reflexivity|]. split; [reflexivity|].
      split; [now left|]. left. split; [discriminate|auto]. }
  destruct (Z.ltb_spec (config_size cell) sizeof_jailhouse_cell_desc)
    as [Hshort|Hdesc]; [discriminate|].
  destruct (offline_cpus (cw_cpu_down w) cell (terminate_name config)
              (kmalloc s)) as [[s1 e1]|] eqn:Hloop; [|discriminate].
  pose proof (offline_cpus_flat _ _ _ _ _ Hloop) as Hloop'.
  destruct (offline_list_shape_in (cw_cpu_down w)
              (mask_cpus (terminate_name config)) (kmalloc s))
    as (att & Hatt & Hincl).
  rewrite Hatt in Hloop'. injection Hloop' as Hs1 He1.
  exists att.
  split; [right; exists config; split; [reflexivity|exact Hincl]|].
  assert (Hoff : offlined_cpus s1 =
                 fold_left (fun m cpu => if cw_cpu_down w cpu =? 0
                                         then cpu_set cpu m else m)
                   att (offlined_cpus s)) by (subst s1; reflexivity).
  assert (Hon : cpu_online_mask s1 =
                fold_left (fun m cpu => if cw_cpu_down w cpu =? 0
                                        then cpu_clear cpu m else m)
                  att (cpu_online_mask s)) by (subst s1; reflexivity).
  assert (Hio : iomappings s1 = iomappings s) by (subst s1; reflexivity).
  assert (Hen1 : enabled s1 = enabled s) by (subst s1; reflexivity).
  clear Hs1. revert H.
  destruct (Z.eqb_spec e1 0) as [Hz|Hz]; cbn [negb].
  2:{ intros [= <- <-]. state_simpl.
      split; [exact Hoff|]. split; [exact Hon|]. split; [now left|].
      left. split; [exact Hz|]. do 6 right.
      rewrite He1 in Hz.
      apply first_failure_in, in_map_iff in Hz as (cpu & Hr & Hc).
      exists cpu. split; [exact Hc|]. rewrite He1. symmetry. exact Hr. }
  destruct (num_memory_regions _ <? 1) eqn:Hreg.
  { intros [= <- <-]. state_simpl.
    split; [exact Hoff|]. split; [exact Hon|]. split; [now left|].
    left. split; [discriminate|auto]. }
  destruct (ram_in_buffer _ _) eqn:Hram; cbn [negb]; [|discriminate].
  destruct (cell_memory_invalid _ _) eqn:Hmem.
  { intros [= <- <-]. state_simpl.
    split; [exact Hoff|]. split; [exact Hon|]. split; [now left|].
    left. split; [discriminate|auto]. }
  destruct (Z.eqb_spec (cw_ioremap w) 0) as [Ha|Ha].
  { rewrite Ha, jailhouse_ioremap_null.
    intros [= <- <-]. state_simpl.
    split; [exact Hoff|]. split; [exact Hon|]. split; [now left|].
    left. split; [discriminate|auto 10]. }
  rewrite (jailhouse_ioremap_mapped _ _ _ _ Ha).
  destruct (Z.eqb_spec (cw_copy_preload w) 0) as [Hpre|Hpre]; cbn [negb].
  2:{ intros [= <- <-]. state_simpl.
      rewrite ?unmap_head, ?Z.eqb_refl.
      split; [exact Hoff|]. split; [exact Hon|]. split; [now left|].
      left. split; [discriminate|auto 10]. }
  destruct (Z.eqb_spec (cw_lock w) 0) as [Hlock|Hlock]; cbn [negb].
  2:{ intros [= <- <-]. state_simpl.
      split; [exact Hoff|]. split; [exact Hon|]. split.
      - right. split; [reflexivity|]. split; [exact Hlock|].
        exists config. split; [reflexivity|]. now rewrite Hio.
      - left. split; [discriminate|auto 10]. }
  change (enabled (mutex_lock (set_iomappings _ s1))) with (enabled s1).
  destruct (enabled s1) eqn:Hens1; cbn [negb].
  2:{ intros [= <- <-]. state_simpl. rewrite ?unmap_head, ?Z.eqb_refl.
      split; [exact Hoff|]. split; [exact Hon|]. split; [now left|].
      left. split; [discriminate|auto 10]. }
  destruct (Z.eqb_spec (cw_hc_cell_create w) 0) as [Hh|Hh]; cbn [negb].
  - assert (Hacc : create_accepts w s cell image config).
    { unfold create_accepts.
      split; [exact Hcell|]. split; [exact Hnum|]. split; [exact Himg|].
      split; [exact Hk|]. split; [exact Hcfg|]. split; [exact Hdesc|].
      split; [exists s1; rewrite Hloop, Hz; reflexivity|].
      split; [exact Hram|]. split; [exact Hmem|]. split; [exact Ha|].
      split; [exact Hpre|]. split; [exact Hlock|].
      split; [congruence|exact Hh]. }
    intros [= <- <-]. state_simpl. rewrite ?unmap_head, ?Z.eqb_refl.
    split; [exact Hoff|]. split; [exact Hon|]. split; [now left|].
    right. split; [exact Hh|]. exists cell, image, config. exact Hacc.
  - intros [= <- <-]. state_simpl. rewrite ?unmap_head, ?Z.eqb_refl.
    split; [exact Hoff|]. split; [exact Hon|]. split; [now left|].
    left. split; [exact Hh|auto 10].
Qed.



(** A CreateCell that returns has freed its configuration buffer.  It has
    also given back the mapping of the cell memory, except when the wait for
    the lock was interrupted: unless that happened the mappings are those
    from before the call, and in no case is there more than one mapping
    more. *)
Theorem create_gives_back (w : create_world) (s s' : state) (err : Z) :
  jailhouse_cell_create w s = Some (s', err) ->
  kmalloc_live s' = kmalloc_live s /\
  (cw_lock w = 0 \/ err <> - EINTR -> iomappings s' = iomappings s) /\
  (length (iomappings s') <= S (length (iomappings s)))%nat.
Proof.
  intros Hret.
  destruct (create_outcome w s s' err Hret) as (att & _ & _ & _ & Hmap & _).
  destruct (create_cell_facts w s s' err Hret) as (_ & _ & _ & _ & Hk & _).
  split; [exact Hk|]. split.
  - intros Hno. destruct Hmap as [Hm|(He & Hl & _)]; [exact Hm|].
    destruct Hno as [H|H]; contradiction.
  - destruct Hmap as [Hm|(_ & _ & config & _ & Hm)]; rewrite Hm; simpl; lia.
Qed.

(** Whatever goes wrong, CreateCell returns one of -EFAULT, -EINVAL,
    -ENOMEM, -EBUSY and -EINTR, the error of the create hypercall, or the
    error cpu_down gave for a CPU that the CPU set of the copied
    configuration selects. *)
Theorem create_errors (w : create_world) (s s' : state) (err : Z) :
  jailhouse_cell_create w s = Some (s', err) ->
  err <> 0 ->
  err = - EFAULT \/ err = - EINVAL \/ err = - ENOMEM \/ err = - EBUSY \/
  err = - EINTR \/ err = cw_hc_cell_create w \/
  exists config cpu,
    cw_copy_config w = Some config /\
    In cpu (mask_cpus config) /\
    err = cw_cpu_down w cpu.
Proof.
  intros Hret Herr.
  destruct (create_outcome w s s' err Hret) as (att & Hatt & _ & _ & _ & Hres).
  destruct Hres as [[_ Hc]|[H0 _]]; [|contradiction].
  destruct Hc as [H|[H|[H|[H|[H|[H|(cpu & Hin & H)]]]]]]; auto 10.
  do 6 right.
  destruct Hatt as [->|(config & Hcfg & Hincl)]; [destruct Hin|].
  exists config, cpu. split; [exact Hcfg|]. split; [exact (Hincl cpu Hin)|].
  exact H.
Qed.

(** When offset and size of the preload image add up without wrapping, a
    CreateCell whose CPU set has been processed and whose region lies inside
    the buffer, if the descriptor has one, turns the cell down with -EINVAL,
    and maps nothing, as soon as the configuration has no memory region, or
    the region is smaller than 1 MiB, or the image ends beyond the region. *)
Theorem create_memory_rejection (w : create_world) (s s1 : state)
    (cell : jailhouse_new_cell) (image : jailhouse_preload_image)
    (config : cell_config) :
  cw_copy_cell w = Some cell -> num_preload_images cell = 1 ->
  cw_copy_image w = Some image -> cw_kmalloc w = true ->
  cw_copy_config w = Some config ->
  sizeof_jailhouse_cell_desc <= config_size cell ->
  offline_cpus (cw_cpu_down w) cell (terminate_name config) (kmalloc s)
  = Some (s1, 0) ->
  (1 <= num_memory_regions (desc config) ->
   ram_in_buffer cell (terminate_name config) = true) ->
  0 <= target_address image -> 0 <= image_size image ->
  target_address image + image_size image < 2 ^ 64 ->
  num_memory_regions (desc config) < 1 \/
  size (ram config) < 1024 * 1024 \/
  target_address image + image_size image > size (ram config) ->
  exists s',
    jailhouse_cell_create w s = Some (s', - EINVAL) /\
    iomappings s' = iomappings s /\
    kmalloc_live s' = kmalloc_live s.
Proof.
  intros Hcell Hnum Himg Hk Hcfg Hdesc Hoff Hram Ht Hs Hwrap Hbad.
  assert (Hinv : cell_memory_invalid (terminate_name config) image = true).
  { change (cell_memory_invalid (terminate_name config) image)
      with (cell_memory_invalid config image).
    apply (cell_memory_invalid_exact config image Ht Hs Hwrap). exact Hbad. }
  pose proof (offline_cpus_flat _ _ _ _ _ Hoff) as Hflat.
  destruct (offline_list_shape (cw_cpu_down w)
              (mask_cpus (terminate_name config)) (kmalloc s))
    as (att & Hatt).
  rewrite Hatt in Hflat. injection Hflat as Hs1 He1.
  unfold jailhouse_cell_create. cbv zeta.
  rewrite Hcell, Hnum, Himg, Hk, Hcfg. cbn [Z.eqb negb Pos.eqb].
  rewrite (proj2 (Z.ltb_ge _ _) Hdesc), Hoff. cbn [Z.eqb negb]. subst s1.
  unfold kfree_config_out, offline_update.
  change (num_memory_regions (desc (terminate_name config)))
    with (num_memory_regions (desc config)).
  destruct (Z.ltb_spec (num_memory_regions (desc config)) 1) as [Hnone|Hsome].
  - eexists. split; [reflexivity|]. state_simpl.
    split; [reflexivity|lia].
  - rewrite (Hram Hsome), Hinv. cbn [negb].
    eexists. split; [reflexivity|]. state_simpl.
    split; [reflexivity|lia].
Qed.

(** ** Any run of requests *)

Lemma cpu_set_keeps (cpu c mask : Z) :
  cpu_isset c mask = true -> cpu_isset c (cpu_set cpu mask) = true.
Proof.
  unfold cpu_isset, cpu_set, Z.setbit. intros H.
  rewrite Z.lor_spec, H. reflexivity.
Qed.

Lemma offlined_fold_keeps (cpu_down : Z -> Z) (att : list Z) (mask c : Z) :
  cpu_isset c mask = true ->
  cpu_isset c
    (fold_left (fun m cpu => if cpu_down cpu =? 0 then cpu_set cpu m else m)
       att mask) = true.
Proof.
  revert mask. induction att as [|a att IH]; intros mask H; [exact H|].
  simpl. apply IH. destruct (cpu_down a =? 0); [|exact H].
  apply cpu_set_keeps, H.
Qed.

Lemma is_mapped_cons (a : Z) (m : mapping) (s t : state) :
  iomappings t = m :: iomappings s ->
  is_mapped a s = true -> is_mapped a t = true.
Proof.
  unfold is_mapped. intros -> H. simpl. rewrite H. apply orb_true_r.
Qed.

(** What one request keeps, whatever it is and however it ends. *)
Lemma ioctl_keeps (request : ioctl_request) (s s' : state) (err : Z) :
  jailhouse_ioctl request s = Some (s', err) ->
  (lock s = false -> lock s' = false) /\
  firmware_refs s' = firmware_refs s /\
  kmalloc_live s' = kmalloc_live s /\
  foreign_module_refs s' = foreign_module_refs s /\
  (hypervisor_resident s -> hypervisor_resident s') /\
  (forall c, cpu_isset c (offlined_cpus s) = true ->
             cpu_isset c (offlined_cpus s') = true).
Proof.
  destruct request as [w|w|w| |code]; cbn [jailhouse_ioctl].
  - intros H.
    apply enable_outcome in H
      as [(_ & Hk & Hm & _)|(_ & cfg & Ha & _ & Hs)].
    + destruct Hk as (Hi & Hf & Hr & Hkm & Hen & Ho & _ & _ & Hl).
      split; [exact Hl|]. split; [exact Hf|]. split; [exact Hkm|].
      split; [unfold foreign_module_refs; now rewrite Hr, Hen|].
      split; [|intros c; now rewrite Ho].
      unfold hypervisor_resident, is_mapped. intros Hres He.
      rewrite Hen in He. rewrite Hi, (Hm He). exact (Hres He).
    + destruct Ha as (_ & _ & Hdis & _).
      destruct Hs as (Hen & Hm & Hi & Hr & Hf & Hkm & Hl & _ & _ & Ho & _).
      split; [intros _; exact Hl|]. split; [exact Hf|]. split; [exact Hkm|].
      split; [unfold foreign_module_refs; rewrite Hr, Hen, Hdis; lia|].
      split; [|intros c; now rewrite Ho].
      unfold hypervisor_resident, is_mapped. intros _ _.
      rewrite Hi, Hm. simpl. now rewrite Z.eqb_refl.
  - intros H.
    apply disable_outcome in H
      as [(_ & Hk & Hm & _)|(_ & _ & Hwas & _ & _ & Hs)].
    + destruct Hk as (Hi & Hf & Hr & Hkm & Hen & Ho & _ & _ & Hl).
      split; [exact Hl|]. split; [exact Hf|]. split; [exact Hkm|].
      split; [unfold foreign_module_refs; now rewrite Hr, Hen|].
      split; [|intros c; now rewrite Ho].
      unfold hypervisor_resident, is_mapped. intros Hres He.
      rewrite Hen in He. rewrite Hi, Hm. exact (Hres He).
    + destruct Hs as (Hen & _ & _ & Hr & Hf & Hkm & Hl & Ho & _).
      split; [intros _; exact Hl|]. split; [exact Hf|]. split; [exact Hkm|].
      split; [unfold foreign_module_refs; rewrite Hr, Hen, Hwas; lia|].
      split; [|intros c; now rewrite Ho].
      unfold hypervisor_resident. intros _ He. congruence.
  - intros H.
    pose proof (create_cell_facts w s s' err H) as F.
    pose proof (create_outcome w s s' err H) as O.
    destruct F as (Hen & Hm & Hr & Hf & Hkm & Hl & _).
    destruct O as (att & _ & Ho & _ & Hmap & _).
    split; [exact Hl|]. split; [exact Hf|]. split; [exact Hkm|].
    split; [unfold foreign_module_refs; now rewrite Hr, Hen|].
    split.
    + unfold hypervisor_resident. intros Hres He. rewrite Hen in He.
      rewrite Hm. specialize (Hres He).
      destruct Hmap as [Hi|(_ & _ & config & _ & Hi)].
      * unfold is_mapped in *. now rewrite Hi.
      * exact (is_mapped_cons _ _ _ _ Hi Hres).
    + intros c Hc. rewrite Ho. apply offlined_fold_keeps, Hc.
  - intros [= <- <-]. repeat split; auto.
  - intros [= <- <-]. repeat split; auto.
Qed.

(** Over any sequence of requests that all return, whatever their outcomes:
    the lock is free at the end if it was at the start, no firmware handle
    and no kmalloc buffer is left behind, the driver holds exactly one
    module reference while the hypervisor is enabled and none otherwise,
    and if [hypervisor_mem] was a live mapping whenever the hypervisor was
    enabled, it still is. *)
Theorem run_keeps_balance (requests : list ioctl_request) (s s' : state) :
  run requests s = Some s' ->
  lock s = false ->
  lock s' = false /\
  firmware_refs s' = firmware_refs s /\
  kmalloc_live s' = kmalloc_live s /\
  foreign_module_refs s' = foreign_module_refs s /\
  (hypervisor_resident s -> hypervisor_resident s').
Proof.
  revert s. induction requests as [|request rest IH]; intros s Hrun Hl.
  - injection Hrun as <-. repeat split; auto.
  - cbn [run] in Hrun.
    destruct (jailhouse_ioctl request s) as [[s1 err]|] eqn:Hstep;
      [|discriminate].
    apply ioctl_keeps in Hstep as (H1 & H2 & H3 & H4 & H5 & _).
    destruct (IH s1 Hrun (H1 Hl)) as (G1 & G2 & G3 & G4 & G5).
    split; [exact G1|]. split; [congruence|]. split; [congruence|].
    split; [congruence|]. intros Hres. exact (G5 (H5 Hres)).
Qed.

(** No sequence of requests ever takes a CPU out of [offlined_cpus]. *)
Theorem run_never_clears_offlined (requests : list ioctl_request)
    (s s' : state) (cpu : Z) :
  run requests s = Some s' ->
  cpu_isset cpu (offlined_cpus s) = true ->
  cpu_isset cpu (offlined_cpus s') = true.
Proof.
  revert s. induction requests as [|request rest IH]; intros s Hrun Hc.
  - injection Hrun as <-. exact Hc.
  - cbn [run] in Hrun.
    destruct (jailhouse_ioctl request s) as [[s1 err]|] eqn:Hstep;
      [|discriminate].
    apply ioctl_keeps in Hstep as (_ & _ & _ & _ & _ & H6).
    exact (IH s1 Hrun (H6 cpu Hc)).
Qed.

(** ** The name of the cell *)

Lemma c_string_array_set (l : list Z) (n : nat) :
  (n < length l)%nat ->
  c_string (array_set l n 0) = firstn n (c_string l).
Proof.
  revert n. induction l as [|x l IH]; intros [|n] Hn; simpl in *; try lia.
  - reflexivity.
  - destruct (x =? 0); [reflexivity|].
    simpl. f_equal. apply IH. lia.
Qed.

(** The name of the cell, for a descriptor whose name field has more than
    JAILHOUSE_CELL_NAME_MAXLEN bytes.  A CreateCell that returns has handed
    to the hypervisor, in every create hypercall it made, the caller's
    descriptor with byte JAILHOUSE_CELL_NAME_MAXLEN of the name set to 0 and
    the other bytes as they were; and the name in every message it printed
    is the string this leaves, which is the caller's string cut to
    JAILHOUSE_CELL_NAME_MAXLEN characters: a shorter name passes unchanged,
    a longer or unterminated one loses its tail.  A CreateCell that returns
    0 has made the hypercall and printed the message, after its cpu_down
    calls. *)
Theorem cell_name_truncated (w : create_world) (s s' : state) (err : Z)
    (config : cell_config) :
  cw_copy_config w = Some config ->
  (JAILHOUSE_CELL_NAME_MAXLEN < length (name (desc config)))%nat ->
  jailhouse_cell_create w s = Some (s', err) ->
  let passed := terminate_name config in
  let cell_name :=
    firstn JAILHOUSE_CELL_NAME_MAXLEN (c_string (name (desc config))) in
  nth JAILHOUSE_CELL_NAME_MAXLEN (name (desc passed)) 1 = 0 /\
  (forall i, i <> JAILHOUSE_CELL_NAME_MAXLEN ->
             nth i (name (desc passed)) 1 = nth i (name (desc config)) 1) /\
  c_string (name (desc passed)) = cell_name /\
  (length cell_name <= JAILHOUSE_CELL_NAME_MAXLEN)%nat /\
  (forall c, In (HcCellCreate c) (trace s') ->
             In (HcCellCreate c) (trace s) \/ c = passed) /\
  (forall n, In (PrintkCreated n) (trace s') ->
             In (PrintkCreated n) (trace s) \/ n = cell_name) /\
  (err = 0 ->
   exists att,
     trace s' =
       trace s ++ map (fun cpu => CpuDown cpu (cw_cpu_down w cpu)) att
       ++ [HcCellCreate passed; PrintkCreated cell_name]).
Proof.
  intros Hcfg Hlen Hret passed cell_name.
  assert (Hname : c_string (name (desc passed)) = cell_name).
  { subst passed cell_name. cbn [terminate_name desc name].
    apply c_string_array_set, Hlen. }
  split.
  { subst passed. cbn [terminate_name desc name].
    apply array_set_nth_same, Hlen. }
  split.
  { intros i Hi. subst passed. cbn [terminate_name desc name].
    apply array_set_nth_other. congruence. }
  split; [exact Hname|].
  split; [subst cell_name; apply firstn_le_length|].
  destruct (create_cell_facts w s s' err Hret)
    as (_ & _ & _ & _ & _ & _ & _ & att & evs & Htr & Hevs).
  assert (Hevs' : evs = [] /\ err <> 0 \/
                  evs = [HcCellCreate passed] /\ err <> 0 \/
                  evs = [HcCellCreate passed; PrintkCreated cell_name] /\
                  err = 0).
  { destruct Hevs as [H|(config' & Hc' & H)]; [now left|right].
    rewrite Hcfg in Hc'. injection Hc' as <-.
    fold passed in H. rewrite Hname in H. exact H. }
  clear Hevs.
  assert (Hdown : forall e,
            In e (map (fun cpu => CpuDown cpu (cw_cpu_down w cpu)) att) ->
            exists cpu e', e = CpuDown cpu e').
  { intros e He. apply in_map_iff in He as (cpu & <- & _). eauto. }
  split; [|split].
  - intros c Hin. rewrite Htr in Hin.
    apply in_app_or in Hin as [Hin|Hin]; [now left|].
    apply in_app_or in Hin as [Hin|Hin].
    + apply Hdown in Hin as (cpu & e' & Heq). discriminate.
    + right. destruct Hevs' as [[-> _]|[[-> _]|[-> _]]]; simpl in Hin;
        intuition congruence.
  - intros n Hin. rewrite Htr in Hin.
    apply in_app_or in Hin as [Hin|Hin]; [now left|].
    apply in_app_or in Hin as [Hin|Hin].
    + apply Hdown in Hin as (cpu & e' & Heq). discriminate.
    + right. destruct Hevs' as [[-> _]|[[-> _]|[-> _]]]; simpl in Hin;
        intuition congruence.
  - intros Hok.
    destruct Hevs' as [[_ H]|[[_ H]|[-> _]]]; try contradiction.
    exists att. exact Htr.
Qed.

(** ** Rounding to pages *)

Lemma land_PAGE_MASK (a : Z) :
  0 <= a < 2 ^ 64 -> Z.land a PAGE_MASK = a / PAGE_SIZE * PAGE_SIZE.
Proof.
  intros Ha.
  assert (Hmask : PAGE_MASK = Z.land (Z.lnot (Z.ones 12)) (Z.ones 64)).
  { unfold PAGE_MASK, ulong. rewrite Z.land_ones by lia. reflexivity. }
  rewrite Hmask, (Z.land_comm (Z.lnot _)), Z.land_assoc.
  rewrite (Z.land_ones _ 64) by lia.
  rewrite Z.mod_small by exact Ha.
  rewrite <- Z.ldiff_land, Z.ldiff_ones_r by lia.
  rewrite Z.shiftl_mul_pow2, Z.shiftr_div_pow2 by lia.
  reflexivity.
Qed.

(** PAGE_ALIGN gives the least multiple of the page size that is not below
    its argument, as long as that multiple fits an [unsigned long]. *)
Theorem PAGE_ALIGN_rounds_up (x : Z) :
  0 <= x -> x + PAGE_SIZE - 1 < 2 ^ BITS_PER_LONG ->
  PAGE_ALIGN x mod PAGE_SIZE = 0 /\
  x <= PAGE_ALIGN x < x + PAGE_SIZE /\
  (forall y, y mod PAGE_SIZE = 0 -> x <= y -> PAGE_ALIGN x <= y).
Proof.
  intros H0 H1. unfold PAGE_ALIGN, ulong.
  unfold PAGE_SIZE, BITS_PER_LONG in *.
  rewrite (Z.mod_small (x + (4096 - 1))) by lia.
  rewrite land_PAGE_MASK by lia. unfold PAGE_SIZE.
  pose proof (Z.div_mod (x + (4096 - 1)) 4096 ltac:(lia)) as Hd.
  pose proof (Z.mod_pos_bound (x + (4096 - 1)) 4096 ltac:(lia)) as Hm.
  split; [apply Z.mod_mul; lia|]. split; [lia|].
  intros y Hy Hxy.
  pose proof (Z.div_mod y 4096 ltac:(lia)) as Hdy. rewrite Hy in Hdy.
  assert ((x + (4096 - 1)) / 4096 <= y / 4096); [|lia].
  apply Z.div_le_lower_bound; lia.
Qed.

(** An argument in the last page below 2^64 but not on its boundary makes
    PAGE_ALIGN wrap around: the result is 0. *)
Theorem PAGE_ALIGN_wraps (x : Z) :
  2 ^ BITS_PER_LONG - PAGE_SIZE < x < 2 ^ BITS_PER_LONG ->
  PAGE_ALIGN x = 0.
Proof.
  intros H. unfold PAGE_ALIGN, ulong. unfold PAGE_SIZE, BITS_PER_LONG in *.
  assert (Hmod : (x + (4096 - 1)) mod 2 ^ 64 = x + 4095 - 2 ^ 64).
  { symmetry. apply (Z.mod_unique _ _ 1); lia. }
  rewrite Hmod, land_PAGE_MASK by lia. unfold PAGE_SIZE.
  rewrite Z.div_small by lia. reflexivity.
Qed.

(** ** Loading and unloading the module *)

(** jailhouse_init returns 0 exactly when the root device is registered and
    misc_register returns 0.  When misc_register fails, its error is
    returned and the root device is left registered: this path has no
    root_device_unregister. *)
Theorem init_outcomes (root_dev misc_err : Z) (g : registry) :
  (snd (jailhouse_init root_dev misc_err g) = 0 <->
   IS_ERR root_dev = false /\ misc_err = 0) /\
  (IS_ERR root_dev = true ->
   jailhouse_init root_dev misc_err g =
   (mkRegistry root_dev false (misc_registered g), root_dev)) /\
  (IS_ERR root_dev = false -> misc_err <> 0 ->
   jailhouse_init root_dev misc_err g =
   (mkRegistry root_dev true false, misc_err)).
Proof.
  unfold jailhouse_init. cbn [jailhouse_dev root_device_registered].
  destruct (IS_ERR root_dev) eqn:He; cbn [negb fst snd].
  - split; [split|split].
    + intros H0. unfold IS_ERR in He. apply andb_true_iff in He as [_ Hneg].
      apply Z.ltb_lt in Hneg. lia.
    + intros [H _]. discriminate.
    + reflexivity.
    + discriminate.
  - split; [split|split].
    + intros H0. split; [reflexivity|exact H0].
    + intros [_ H]. exact H.
    + discriminate.
    + intros _ Hm. apply Z.eqb_neq in Hm. now rewrite Hm.
Qed.

(** Unloading after a successful load leaves neither device registered. *)
Theorem init_exit_round_trip (root_dev misc_err : Z) (g : registry) :
  snd (jailhouse_init root_dev misc_err g) = 0 ->
  root_device_registered (fst (jailhouse_init root_dev misc_err g)) = true /\
  misc_registered (fst (jailhouse_init root_dev misc_err g)) = true /\
  root_device_registered
    (jailhouse_exit (fst (jailhouse_init root_dev misc_err g))) = false /\
  misc_registered
    (jailhouse_exit (fst (jailhouse_init root_dev misc_err g))) = false.
Proof.
  unfold jailhouse_init, jailhouse_exit.
  cbn [jailhouse_dev root_device_registered misc_registered].
  destruct (IS_ERR root_dev) eqn:He; cbn [negb fst snd].
  - intros H0. unfold IS_ERR in He. apply andb_true_iff in He as [_ Hneg].
    apply Z.ltb_lt in Hneg. lia.
  - intros ->. cbn. repeat split; reflexivity.
Qed.

(** ** Requests that fail *)

(** A request that returns an error has not changed the enabled flag, the
    module references or the firmware handles, and unless it is a CreateCell
    it has changed nothing else either.  The destroy request returns
    -ENOSYS and a request with an unknown code -EINVAL, always and without
    touching the state. *)
Theorem ioctl_failure (request : ioctl_request) (s : state) :
  (forall s' err,
     jailhouse_ioctl request s = Some (s', err) ->
     err <> 0 ->
     enabled s' = enabled s /\
     module_refcount s' = module_refcount s /\
     firmware_refs s' = firmware_refs s /\
     ((forall w, request <> JAILHOUSE_CELL_CREATE w) -> resources_kept s s')) /\
  jailhouse_ioctl JAILHOUSE_CELL_DESTROY s = Some (s, - ENOSYS) /\
  (forall code, jailhouse_ioctl (ioctl_unknown code) s = Some (s, - EINVAL)).
Proof.
  assert (Hrefl : resources_kept s s).
  { unfold resources_kept. repeat split; auto. }
  split; [|split; [reflexivity|intros code; reflexivity]].
  intros s' err.
  destruct request as [w|w|w| |code]; cbn [jailhouse_ioctl]; intros H Herr.
  - apply enable_outcome in H as [(_ & Hk & _)|(H0 & _)]; [|contradiction].
    pose proof Hk as (_ & Hf & Hr & _ & Hen & _).
    split; [exact Hen|]. split; [exact Hr|]. split; [exact Hf|].
    intros _; exact Hk.
  - apply disable_outcome in H as [(_ & Hk & _)|(H0 & _)]; [|contradiction].
    pose proof Hk as (_ & Hf & Hr & _ & Hen & _).
    split; [exact Hen|]. split; [exact Hr|]. split; [exact Hf|].
    intros _; exact Hk.
  - destruct (create_cell_facts w s s' err H) as (Hen & _ & Hr & Hf & _).
    split; [exact Hen|]. split; [exact Hr|]. split; [exact Hf|].
    intros Hn; exfalso; exact (Hn w eq_refl).
  - injection H as <- <-.
    split; [reflexivity|]. split; [reflexivity|]. split; [reflexivity|].
    intros _; exact Hrefl.
  - injection H as <- <-.
    split; [reflexivity|]. split; [reflexivity|]. split; [reflexivity|].
    intros _; exact Hrefl.
Qed.

(** ** The cpu_up calls of Disable *)

Lemma sorted_filter (f : Z -> bool) (l : list Z) :
  StronglySorted Z.lt l -> StronglySorted Z.lt (filter f l).
Proof.
  induction 1 as [|a l Hs IH Hf]; simpl; [constructor|].
  destruct (f a); [|exact IH].
  constructor; [exact IH|].
  rewrite Forall_forall in *. intros x Hx.
  apply filter_In in Hx as [Hx _]. exact (Hf x Hx).
Qed.

Lemma cpu_up_calls_events (cpu_up : Z -> Z) (l : list Z) :
  cpu_up_calls (flat_map (cpu_up_events cpu_up) l) =
  map (fun cpu => (cpu, cpu_up cpu)) l.
Proof.
  induction l as [|a l IH]; [reflexivity|].
  cbn [flat_map map]. unfold cpu_up_calls in *.
  rewrite flat_map_app, IH. unfold cpu_up_events.
  destruct (negb (cpu_up a =? 0)); reflexivity.
Qed.

(** A successful Disable calls cpu_up exactly once for every CPU below
    NR_CPUS that is in [offlined_cpus], in increasing CPU order and whether
    or not the CPU is already online, and for no other CPU; a Disable that
    fails calls cpu_up for none. *)
Theorem disable_cpu_up_calls (w : disable_world) (s s' : state) (err : Z) :
  jailhouse_disable w s = Some (s', err) ->
  (err = 0 ->
   cpu_up_calls (trace s') =
     cpu_up_calls (trace s)
     ++ map (fun cpu => (cpu, dw_cpu_up w cpu))
          (for_each_cpu_mask (offlined_cpus s)) /\
   StronglySorted Z.lt (for_each_cpu_mask (offlined_cpus s)) /\
   (forall cpu, In cpu (for_each_cpu_mask (offlined_cpus s)) <->
                0 <= cpu < Z.of_nat NR_CPUS /\
                cpu_isset cpu (offlined_cpus s) = true)) /\
  (err <> 0 -> cpu_up_calls (trace s') = cpu_up_calls (trace s)).
Proof.
  intros H.
  apply disable_outcome in H as [(Herr & Hk & _)|(H0 & _ & _ & _ & _ & Hs)].
  - split; [intros H0; contradiction|].
    intros _. destruct Hk as (_ & _ & _ & _ & _ & _ & _ & Ht & _).
    now rewrite Ht.
  - split; [|intros Hn; contradiction].
    intros _.
    destruct Hs as (_ & _ & _ & _ & _ & _ & _ & _ & _ & Ht).
    split; [|split].
    + rewrite Ht. unfold cpu_up_calls at 1.
      rewrite !flat_map_app. fold (cpu_up_calls (trace s)).
      fold (cpu_up_calls (flat_map (cpu_up_events (dw_cpu_up w))
                            (for_each_cpu_mask (offlined_cpus s)))).
      rewrite cpu_up_calls_events. cbn [flat_map app].
      now rewrite app_nil_r.
    + unfold for_each_cpu_mask. apply sorted_filter, sorted_seq.
    + intros cpu. apply in_for_each_cpu_mask.
Qed.

(** ** The cell of config/minimal.c *)

(** Whatever the machine, a CreateCell that has copied the configuration of
    config/minimal.c into a buffer that holds its descriptor, its CPU set
    and its memory region returns, having called cpu_down for CPU 3 if it
    was online and for no other CPU; and the memory check accepts the cell
    with every preload image that ends within its 1 MiB. *)
Theorem minimal_cell_on_driver (w : create_world) (s : state)
    (cell : jailhouse_new_cell) (image : jailhouse_preload_image) :
  cw_copy_cell w = Some cell -> num_preload_images cell = 1 ->
  cw_copy_image w = Some image -> cw_kmalloc w = true ->
  cw_copy_config w = Some minimal_config ->
  sizeof_jailhouse_cell_desc <= config_size cell ->
  sizeof_jailhouse_cell_desc + 8 <= config_size cell ->
  sizeof_jailhouse_cell_desc + 8 + sizeof_jailhouse_memory
  <= config_size cell ->
  (exists s' err,
     jailhouse_cell_create w s = Some (s', err) /\
     cpu_down_calls (trace s') =
       cpu_down_calls (trace s)
       ++ (if cpu_online 3 s then [(3, cw_cpu_down w 3)] else [])) /\
  (0 <= target_address image -> 0 <= image_size image ->
   target_address image + image_size image <= 1024 * 1024 ->
   cell_memory_invalid (terminate_name minimal_config) image = false).
Proof.
  intros Hcell Hnum Himg Hk Hcfg Hdesc Hset Hram. split.
  - assert (Hloop :
              offline_cpus (cw_cpu_down w) cell (terminate_name minimal_config)
                (kmalloc s) =
              Some (offline_update (cw_cpu_down w)
                      (attempted (cw_cpu_down w) (cpu_online_mask s) [3])
                      (kmalloc s),
                    first_failure
                      (map (cw_cpu_down w)
                         (attempted (cw_cpu_down w) (cpu_online_mask s) [3])))).
    { rewrite (offline_cpus_in_buffer (cw_cpu_down w) cell
                 (terminate_name minimal_config) _ Hset).
      change (mask_cpus (terminate_name minimal_config)) with [3].
      assert (Hnd : NoDup [3]) by (constructor; [intros []|constructor]).
      f_equal.
      exact (offline_list_result (cw_cpu_down w) [3] (kmalloc s) Hnd). }
    destruct (create_after_loop w s cell image minimal_config
                Hcell Hnum Himg Hk Hcfg Hdesc _ _ Hloop) as (_ & Hafter).
    destruct (create_in_buffer_returns w s) as ([s' err] & Hret).
    { intros cell' config' Hcell' Hcfg'.
      rewrite Hcell in Hcell'. rewrite Hcfg in Hcfg'.
      injection Hcell' as <-. injection Hcfg' as <-.
      split; [exact Hdesc|]. split; [exact Hset|].
      unfold ram_in_buffer. apply Z.leb_le. exact Hram. }
    exists s', err. split; [exact Hret|].
    destruct (Hafter s' err Hret) as (_ & _ & Htr & _).
    rewrite Htr. unfold offline_update. state_simpl.
    rewrite cpu_down_calls_app, cpu_down_calls_map.
    f_equal. cbn [attempted]. unfold cpu_online.
    destruct (cpu_isset 3 (cpu_online_mask s)); [|reflexivity].
    destruct (cw_cpu_down w 3 =? 0); reflexivity.
  - intros Ht Hs Hfit.
    destruct (cell_memory_invalid (terminate_name minimal_config) image)
      eqn:Hinv; [|reflexivity].
    change (cell_memory_invalid (terminate_name minimal_config) image)
      with (cell_memory_invalid minimal_config image) in Hinv.
    apply (cell_memory_invalid_exact minimal_config image Ht Hs) in Hinv;
      [|lia].
    cbn in Hinv. lia.
Qed.

End Driver.

(** * The properties on the sample data

    From here on the build constants are fixed: four CPUs, the sample
    signature, cell names of at most 31 characters, a system configuration
    whose size is the one its header declares, a cell descriptor of 52 bytes
    and a memory region of 32. *)

(** The two scenarios of the specification: Enable on the four-CPU machine
    with a 4 MiB region succeeds, and so does a CreateCell on the enabled
    machine, which takes the CPU of the cell offline first. *)
Lemma sample_enable_then_create :
  exists s1 s2,
    jailhouse_ioctl 4 4 sample_signature 31 declared_size 52 32
      (JAILHOUSE_ENABLE sample_enable) boot_state = Some (s1, 0) /\
    enabled s1 = true /\
    percpu_area_size 4 sample_header = 16384 /\
    jailhouse_ioctl 4 4 sample_signature 31 declared_size 52 32
      (JAILHOUSE_CELL_CREATE sample_create) s1 = Some (s2, 0) /\
    trace s2 =
      [PrintkOpening; CpuDown 3 0;
       HcCellCreate (terminate_name 31 minimal_config);
       PrintkCreated [77; 105; 110; 105; 109; 97; 108]] /\
    iomappings s2 = iomappings s1.
Proof.
  do 2 eexists. split; [vm_compute; reflexivity|].
  split; [reflexivity|]. split; [reflexivity|].
  split; [vm_compute; reflexivity|]. split; reflexivity.
Qed.

(** An image longer than the region: Enable maps the 4 MiB and has no
    result, for the memcpy of the 8 MiB image leaves the mapping. *)
Lemma oversized_image_overruns :
  size (hypervisor_memory sample_system) < fw_size (ew_firmware oversized_enable)
  /\ jailhouse_enable 4 4 sample_signature declared_size oversized_enable
       boot_state = None.
Proof. split; [reflexivity|vm_compute; reflexivity]. Qed.

(** C1 at work: CPUs 1 and 2 fail with the same code and the schedule is not
    the CPU order. *)
Lemma rendezvous_aggregate_witness :
  Permutation [1; 0; 2; 3] (for_each_cpu_mask 4 (cpu_online_mask boot_state)) /\
  exists s',
    rendezvous 4 (enter_hypervisor one_error) [1; 0; 2; 3]
      (set_error_code 0 boot_state) = Some s' /\
    error_code s' = - EBUSY /\
    error_code s' =
      first_failure
        (map one_error (for_each_cpu_mask 4 (cpu_online_mask boot_state))).
Proof.
  assert (Hp : Permutation [1; 0; 2; 3]
                 (for_each_cpu_mask 4 (cpu_online_mask boot_state)))
    by apply perm_swap.
  split; [exact Hp|].
  destruct (rendezvous_aggregate 4 one_error [1; 0; 2; 3] boot_state Hp)
    as (s' & H1 & _ & H3 & _ & _ & H6).
  exists s'. split; [exact H1|]. split; [rewrite H3; reflexivity|].
  apply (H6 (- EBUSY)). intros cpu _. unfold one_error.
  destruct ((cpu =? 1) || (cpu =? 2)); auto.
Defined.

(** C1 as the specification words it does not hold: CPU 1 fails with -EBUSY,
    CPU 2 with -EINVAL, the CPUs report in CPU order, and the aggregate is
    the -EINVAL of CPU 2, not the first failure in CPU order. *)
Lemma first_failure_not_kept :
  exists s',
    rendezvous 4 (enter_hypervisor two_errors) [0; 1; 2; 3]
      (set_error_code 0 boot_state) = Some s' /\
    error_code s' = - EINVAL /\
    first_failure
      (map two_errors (for_each_cpu_mask 4 (cpu_online_mask boot_state)))
    = - EBUSY /\
    error_code s' <>
    first_failure
      (map two_errors (for_each_cpu_mask 4 (cpu_online_mask boot_state))).
Proof.
  eexists. split; [vm_compute; reflexivity|].
  split; [reflexivity|]. split; [reflexivity|].
  vm_compute. discriminate.
Qed.

(** A successful Disable on [enabled_state]. *)
Lemma disable_success_witness :
  dw_lock clean_disable = 0 /\
  enabled enabled_state = true /\
  Permutation (dw_schedule clean_disable)
    (for_each_cpu_mask 4 (cpu_online_mask enabled_state)) /\
  exists s',
    jailhouse_disable 4 clean_disable enabled_state = Some (s', 0) /\
    iomappings s' = [] /\
    trace s' = [CpuUp 3 0; PrintkClosed] /\
    cpu_online 3 s' = true /\
    offlined_cpus s' = offlined_cpus enabled_state /\
    enabled s' = false.
Proof.
  assert (Hp : Permutation (dw_schedule clean_disable)
                 (for_each_cpu_mask 4 (cpu_online_mask enabled_state)))
    by apply perm_swap.
  split; [reflexivity|]. split; [reflexivity|]. split; [exact Hp|].
  destruct (disable_success 4 clean_disable enabled_state eq_refl eq_refl Hp
              (fun cpu _ => eq_refl))
    as (s' & H1 & H2 & H3 & H4 & H5 & H6 & _).
  exists s'. split; [exact H1|]. split; [exact H2|]. split; [exact H3|].
  split; [|split; [exact H5|exact H6]].
  apply (H4 3); [vm_compute; split; congruence|reflexivity|reflexivity].
Defined.

(** C2, where the driver falls short of it.  Enable, the CreateCell that
    takes CPU 3 offline and puts it in [offlined_cpus], and a Disable that
    succeeds and brings CPU 3 back online: [offlined_cpus] still holds
    CPU 3.  The hypervisor is enabled and disabled once more, no cell being
    created in between, and this Disable calls cpu_up for CPU 3 again, a CPU
    that was online and that nothing had taken offline. *)
Theorem offlined_cpus_left_stale :
  exists s1 s2 s3 s4 s5,
    jailhouse_enable 4 4 sample_signature declared_size sample_enable
      boot_state = Some (s1, 0) /\
    jailhouse_cell_create 31 52 32 sample_create s1 = Some (s2, 0) /\
    cpu_online 3 s2 = false /\
    cpu_isset 3 (offlined_cpus s2) = true /\
    jailhouse_disable 4 clean_disable s2 = Some (s3, 0) /\
    enabled s3 = false /\
    cpu_online 3 s3 = true /\
    cpu_isset 3 (offlined_cpus s3) = true /\
    offlined_cpus s3 <> 0 /\
    jailhouse_enable 4 4 sample_signature declared_size sample_enable s3
    = Some (s4, 0) /\
    cpu_down_calls (trace s4) = cpu_down_calls (trace s3) /\
    cpu_online 3 s4 = true /\
    jailhouse_disable 4 sample_disable s4 = Some (s5, 0) /\
    cpu_up_calls (trace s5) = [(3, 0); (3, 0)].
Proof.
  do 5 eexists.
  split; [vm_compute; reflexivity|].
  split; [vm_compute; reflexivity|].
  split; [reflexivity|]. split; [reflexivity|].
  split; [vm_compute; reflexivity|].
  split; [reflexivity|]. split; [reflexivity|]. split; [reflexivity|].
  split; [vm_compute; discriminate|].
  split; [vm_compute; reflexivity|].
  split; [reflexivity|]. split; [reflexivity|].
  split; [vm_compute; reflexivity|].
  reflexivity.
Qed.

(** C3, where the driver falls short of it: with four CPUs and a per-CPU
    size of 2^62 the three sizes add up to more than the 4 MiB of the
    region, yet the product wraps to 0, the layout check lets the image
    through and Enable goes on to map the region and succeeds. *)
Theorem layout_check_wraps :
  align_up (bss_end wrapping_header) PAGE_SIZE
  + 4 * percpu_size wrapping_header + declared_size sample_system
  >= size (hypervisor_memory sample_system) /\
  percpu_area_size 4 wrapping_header = 0 /\
  layout_overflow 4 declared_size sample_system wrapping_header = false /\
  exists s',
    jailhouse_enable 4 4 sample_signature declared_size wrapping_enable
      boot_state = Some (s', 0) /\
    enabled s' = true /\
    is_mapped 3221225472 s' = true.
Proof.
  split; [vm_compute; discriminate|].
  split; [reflexivity|]. split; [reflexivity|].
  eexists. split; [vm_compute; reflexivity|].
  split; reflexivity.
Qed.

(** The layout check on its boundary: a sum equal to the size of the region
    is refused and a sum one byte short is let through. *)
Lemma layout_check_boundary :
  layout_overflow 4 declared_size
    (mkSystem (mkMemory 1073741824 0 (1048576 + 16384 + 4096) 0) 4096)
    sample_header = true /\
  layout_overflow 4 declared_size
    (mkSystem (mkMemory 1073741824 0 (1048576 + 16384 + 4096 + 1) 0) 4096)
    sample_header = false.
Proof. split; reflexivity. Qed.

(** C4 at work: CPUs 1 and 2 refuse to leave the hypervisor. *)
Lemma disable_barrier_failure_witness :
  dw_lock failing_disable = 0 /\
  enabled enabled_state = true /\
  Permutation (dw_schedule failing_disable)
    (for_each_cpu_mask 4 (cpu_online_mask enabled_state)) /\
  exists s',
    jailhouse_disable 4 failing_disable enabled_state = Some (s', - EBUSY) /\
    iomappings s' = iomappings enabled_state /\
    enabled s' = true.
Proof.
  assert (Hp : Permutation (dw_schedule failing_disable)
                 (for_each_cpu_mask 4 (cpu_online_mask enabled_state)))
    by apply perm_swap.
  split; [reflexivity|]. split; [reflexivity|]. split; [exact Hp|].
  assert (Hfail : exists cpu,
             In cpu (for_each_cpu_mask 4 (cpu_online_mask enabled_state)) /\
             dw_hc_disable failing_disable cpu <> 0).
  { exists 1. split; [right; left; reflexivity|discriminate]. }
  destruct (disable_barrier_failure 4 failing_disable enabled_state
              eq_refl eq_refl Hp Hfail)
    as (s' & err & H1 & _ & H3 & H4 & _ & H6 & _).
  exists s'. split; [|split; [exact H4|exact H6]].
  rewrite H1, H3. reflexivity.
Defined.

(** C5 at work: the copy of the configuration faults after the region has
    been mapped and the image copied into it. *)
Lemma enable_failure_unwinds_witness :
  lock boot_state = false /\
  enabled boot_state = false /\
  fw_size (ew_firmware faulting_enable)
  <= size (hypervisor_memory sample_system) /\
  exists s',
    jailhouse_enable 4 4 sample_signature declared_size faulting_enable
      boot_state = Some (s', - EFAULT) /\
    iomappings s' = [] /\
    firmware_refs s' = 0 /\
    module_refcount s' = 0 /\
    enabled s' = false.
Proof.
  split; [reflexivity|]. split; [reflexivity|].
  split; [vm_compute; discriminate|].
  destruct (enable_failure_unwinds 4 4 sample_signature declared_size
              faulting_enable boot_state eq_refl eq_refl) as [Hret Hun].
  assert (Hp : Permutation (ew_schedule faulting_enable)
                 (for_each_cpu_mask 4 (cpu_online_mask boot_state)))
    by apply Permutation_refl.
  destruct Hret as ([s' err] & Hcall); [|exact Hp|].
  { intros config_header [= <-]. vm_compute. discriminate. }
  assert (Herr : err = - EFAULT).
  { assert (Hval : jailhouse_enable 4 4 sample_signature declared_size
                     faulting_enable boot_state
                   = Some (mkState false false 3221225472 0 0 0 0 0 [] 0 15 [],
                           - EFAULT)) by (vm_compute; reflexivity).
    rewrite Hval in Hcall. injection Hcall as _ <-. reflexivity. }
  subst err. exists s'. split; [exact Hcall|].
  destruct (Hun s' (- EFAULT) Hcall ltac:(discriminate))
    as (H1 & H2 & H3 & _ & H5 & _).
  split; [exact H1|]. split; [exact H2|]. split; [exact H3|exact H5].
Defined.

(** C6 at work on a machine whose hypervisor is disabled. *)
Lemma state_gates_witness :
  lock boot_state = false /\
  jailhouse_enable 4 4 sample_signature declared_size busy_enable boot_state
  = Some (boot_state, - EBUSY) /\
  jailhouse_disable 4 sample_disable boot_state
  = Some (boot_state, - EINVAL) /\
  exists att,
    jailhouse_cell_create 31 52 32 sample_create boot_state =
    Some (offline_update (cw_cpu_down sample_create) att boot_state, - EINVAL)
    /\ - EINVAL <> 0 /\
    enabled (offline_update (cw_cpu_down sample_create) att boot_state)
    = false.
Proof.
  destruct (state_gates 4 4 sample_signature 31%nat declared_size 52 32
              busy_enable sample_disable sample_create boot_state eq_refl)
    as (He & Hd & Hc & Hc').
  split; [reflexivity|].
  split; [apply He; [discriminate|reflexivity|right; reflexivity]|].
  split; [apply Hd; reflexivity|].
  assert (Hloop : exists s1,
            offline_cpus 52 (cw_cpu_down sample_create)
              (mkNewCell 4194304 8288 1) (terminate_name 31 minimal_config)
              (kmalloc boot_state) = Some (s1, 0))
    by (eexists; vm_compute; reflexivity).
  destruct Hloop as (s1 & Hloop).
  destruct (Hc' eq_refl (mkNewCell 4194304 8288 1) sample_image minimal_config
              s1 eq_refl eq_refl eq_refl eq_refl eq_refl
              ltac:(vm_compute; discriminate) Hloop eq_refl eq_refl
              ltac:(discriminate) eq_refl eq_refl) as (att & Hret).
  exists att. split; [exact Hret|].
  destruct (Hc eq_refl _ _ Hret) as (H1 & H2 & _).
  split; [exact H1|exact H2].
Defined.

(** C6 as the specification words it does not hold: with the hypervisor
    disabled, CreateCell is refused with -EINVAL only after it has taken
    CPU 3 offline and put it in [offlined_cpus]. *)
Lemma create_cell_changes_state_when_disabled :
  enabled boot_state = false /\
  exists s',
    jailhouse_cell_create 31 52 32 sample_create boot_state
    = Some (s', - EINVAL) /\
    s' <> boot_state /\
    cpu_online 3 boot_state = true /\
    cpu_online 3 s' = false /\
    cpu_isset 3 (offlined_cpus boot_state) = false /\
    cpu_isset 3 (offlined_cpus s') = true /\
    trace s' = [CpuDown 3 0].
Proof.
  split; [reflexivity|].
  eexists. split; [vm_compute; reflexivity|].
  split; [discriminate|]. repeat split; reflexivity.
Qed.

(** C7, where the driver falls short of it: an image of 8 KiB placed 4 KiB
    below 2^64 does not fit a region of 1 MiB, yet the sum of offset and size
    wraps to 4 KiB, the check accepts the cell and CreateCell goes on to map
    the region, load the image and create the cell. *)
Theorem memory_check_wraps :
  target_address wrapping_image + image_size wrapping_image
  > size (ram minimal_config) /\
  cell_memory_invalid (terminate_name 31 minimal_config) wrapping_image
  = false /\
  exists s',
    jailhouse_cell_create 31 52 32 wrapping_create enabled_state
    = Some (s', 0) /\
    In (HcCellCreate (terminate_name 31 minimal_config)) (trace s').
Proof.
  split; [reflexivity|]. split; [reflexivity|].
  eexists. split; [vm_compute; reflexivity|].
  left. reflexivity.
Qed.

(** The memory check on its boundary: 1 MiB with an image that fits is
    accepted; one byte less, no region at all, or an image one byte too long
    is refused. *)
Lemma memory_check_boundary :
  cell_memory_invalid minimal_config (mkImage 0 8192 0) = false /\
  cell_memory_invalid minimal_config (mkImage 0 8192 (1048576 - 8192)) = false /\
  cell_memory_invalid minimal_config (mkImage 0 8193 (1048576 - 8192)) = true /\
  cell_memory_invalid
    (mkConfig (desc minimal_config) (cpu_mask minimal_config)
       (mkMemory 1005584384 0 1048575 7)) (mkImage 0 8192 0) = true /\
  cell_memory_invalid
    (mkConfig (mkDesc (name (desc minimal_config)) 8 0 0 8192 0)
       (cpu_mask minimal_config) (ram minimal_config)) (mkImage 0 8192 0)
  = true.
Proof. repeat split; reflexivity. Qed.



(** C9 at work. *)
Lemma create_interrupted_keeps_mapping_witness :
  cw_lock interrupted_create <> 0 /\
  exists s',
    jailhouse_cell_create 31 52 32 interrupted_create enabled_state
    = Some (s', - EINTR) /\
    is_mapped 3225419776 s' = true /\
    length (iomappings s') = 2%nat.
Proof.
  split; [discriminate|].
  assert (Hloop : exists s1,
            offline_cpus 52 (cw_cpu_down interrupted_create)
              (mkNewCell 4194304 8288 1) (terminate_name 31 minimal_config)
              (kmalloc enabled_state) = Some (s1, 0))
    by (eexists; vm_compute; reflexivity).
  destruct Hloop as (s1 & Hloop).
  destruct (create_interrupted_keeps_mapping 31 52 32 interrupted_create
              enabled_state s1 (mkNewCell 4194304 8288 1) sample_image
              minimal_config eq_refl eq_refl eq_refl eq_refl eq_refl
              ltac:(vm_compute; discriminate) Hloop eq_refl eq_refl
              ltac:(discriminate) eq_refl ltac:(discriminate))
    as (s' & H1 & H2 & H3 & _).
  exists s'. split; [exact H1|]. split; [exact H3|].
  rewrite H2. reflexivity.
Defined.


(** * The further properties on the sample data *)

Lemma enable_errors_witness :
  exists s',
    jailhouse_enable 4 4 sample_signature declared_size faulting_enable
      boot_state = Some (s', - EFAULT) /\
    resources_kept boot_state s'.
Proof.
  eexists. split; [vm_compute; reflexivity|].
  refine (proj1 (enable_errors 4 4 sample_signature declared_size
                   faulting_enable boot_state _ (- EFAULT) _ _));
    [vm_compute; reflexivity|discriminate].
Defined.

Lemma enable_twice_witness :
  exists s1,
    jailhouse_enable 4 4 sample_signature declared_size sample_enable
      boot_state = Some (s1, 0) /\
    jailhouse_enable 4 4 sample_signature declared_size sample_enable s1
    = Some (s1, - EBUSY).
Proof.
  eexists. split; [vm_compute; reflexivity|].
  apply (enable_twice 4 4 sample_signature declared_size sample_enable
           sample_enable boot_state);
    [vm_compute; reflexivity|discriminate|reflexivity].
Defined.

Lemma enable_signature_mismatch_witness :
  firstn 8 sample_signature <> repeat 0 8 /\
  jailhouse_enable 4 4 sample_signature declared_size unsigned_enable
    boot_state = Some (boot_state, - EINVAL).
Proof.
  split; [discriminate|].
  apply enable_signature_mismatch; try reflexivity; discriminate.
Defined.

Lemma enable_layout_rejection_witness :
  align_up 1048576 PAGE_SIZE + 4 * 4096 + 4096
  >= size (hypervisor_memory cramped_system) /\
  jailhouse_enable 4 4 sample_signature declared_size cramped_enable
    boot_state = Some (boot_state, - EINVAL).
Proof.
  split; [vm_compute; discriminate|].
  apply (enable_layout_rejection 4 4 sample_signature declared_size
           cramped_enable boot_state cramped_system);
    try reflexivity; vm_compute; discriminate.
Defined.

Lemma disable_errors_witness :
  exists s',
    jailhouse_disable 4 failing_disable enabled_state = Some (s', - EBUSY) /\
    resources_kept enabled_state s' /\
    hypervisor_mem s' = hypervisor_mem enabled_state.
Proof.
  eexists. split; [vm_compute; reflexivity|].
  assert (Hret : jailhouse_disable 4 failing_disable enabled_state =
                 Some (mkState false true 3221225472 8 3 (- EBUSY) 1 0
                         [mkMapping 3221225472 1073741824 4194304] 0 7 [],
                       - EBUSY)) by (vm_compute; reflexivity).
  destruct (disable_errors 4 failing_disable enabled_state _ (- EBUSY)
              Hret ltac:(discriminate)) as (H1 & H2 & _).
  split; [exact H1|exact H2].
Defined.

Lemma disable_twice_witness :
  exists s1,
    jailhouse_disable 4 clean_disable enabled_state = Some (s1, 0) /\
    jailhouse_disable 4 clean_disable s1 = Some (s1, - EINVAL).
Proof.
  eexists. split; [vm_compute; reflexivity|].
  apply (disable_twice 4 clean_disable clean_disable enabled_state);
    [vm_compute; reflexivity|reflexivity].
Defined.

Lemma enable_disable_round_trip_witness :
  exists s1 s2,
    jailhouse_enable 4 4 sample_signature declared_size sample_enable
      boot_state = Some (s1, 0) /\
    jailhouse_disable 4 sample_disable s1 = Some (s2, 0) /\
    iomappings s2 = iomappings boot_state /\
    module_refcount s2 = module_refcount boot_state /\
    enabled s2 = false /\
    trace s2 = [PrintkOpening; PrintkClosed].
Proof.
  do 2 eexists. split; [vm_compute; reflexivity|].
  split; [vm_compute; reflexivity|].
  match goal with
  | |- iomappings ?t2 = _ /\ _ =>
      assert (Hrt : forall s1,
                jailhouse_enable 4 4 sample_signature declared_size
                  sample_enable boot_state = Some (s1, 0) ->
                jailhouse_disable 4 sample_disable s1 = Some (t2, 0) ->
                iomappings t2 = iomappings boot_state /\
                module_refcount t2 = module_refcount boot_state /\
                enabled t2 = false /\
                trace t2 = [PrintkOpening; PrintkClosed])
  end.
  { intros s1 He Hd.
    destruct (enable_disable_round_trip 4 4 sample_signature declared_size
                sample_enable sample_disable boot_state s1 _ He Hd)
      as (H1 & H2 & _ & _ & H5 & _ & _ & H8).
    split; [exact H1|]. split; [exact H2|]. split; [exact H5|exact H8]. }
  eapply Hrt; vm_compute; reflexivity.
Defined.

Lemma create_errors_witness :
  exists s',
    jailhouse_cell_create 31 52 32 failing_create boot_state
    = Some (s', - EBUSY) /\
    exists config cpu,
      cw_copy_config failing_create = Some config /\
      In cpu (mask_cpus config) /\
      - EBUSY = cw_cpu_down failing_create cpu.
Proof.
  eexists. split; [vm_compute; reflexivity|].
  assert (Hret : exists t,
            jailhouse_cell_create 31 52 32 failing_create boot_state
            = Some (t, - EBUSY)) by (eexists; vm_compute; reflexivity).
  destruct Hret as (t & Hret).
  destruct (create_errors 31 52 32 failing_create boot_state t (- EBUSY)
              Hret ltac:(discriminate))
    as [H|[H|[H|[H|[H|[H|H]]]]]]; [| | | | | |exact H];
    try (exfalso; revert H; vm_compute; discriminate).
  exists three_cpu_config, 3. split; [reflexivity|].
  split; [vm_compute; right; right; left; reflexivity|vm_compute; reflexivity].
Defined.

Lemma create_gives_back_witness :
  exists s',
    jailhouse_cell_create 31 52 32 interrupted_create enabled_state
    = Some (s', - EINTR) /\
    kmalloc_live s' = kmalloc_live enabled_state /\
    (length (iomappings s') <= S (length (iomappings enabled_state)))%nat.
Proof.
  eexists. split; [vm_compute; reflexivity|].
  match goal with
  | |- kmalloc_live ?t = _ /\ _ =>
      assert (Hret : jailhouse_cell_create 31 52 32 interrupted_create
                       enabled_state = Some (t, - EINTR))
        by (vm_compute; reflexivity);
      destruct (create_gives_back 31 52 32 interrupted_create enabled_state
                  t (- EINTR) Hret) as (H1 & _ & H3)
  end.
  split; [exact H1|exact H3].
Defined.

Lemma create_memory_rejection_witness :
  size (ram small_config) < 1024 * 1024 /\
  exists s',
    jailhouse_cell_create 31 52 32 small_create enabled_state
    = Some (s', - EINVAL) /\
    iomappings s' = iomappings enabled_state.
Proof.
  assert (Hsmall : size (ram small_config) < 1024 * 1024) by reflexivity.
  split; [exact Hsmall|].
  assert (Hloop : exists s1,
            offline_cpus 52 (cw_cpu_down small_create)
              (mkNewCell 4194304 8288 1) (terminate_name 31 small_config)
              (kmalloc enabled_state) = Some (s1, 0))
    by (eexists; vm_compute; reflexivity).
  destruct Hloop as (s1 & Hloop).
  destruct (create_memory_rejection 31 52 32 small_create enabled_state s1
              (mkNewCell 4194304 8288 1) sample_image small_config
              eq_refl eq_refl eq_refl eq_refl eq_refl
              ltac:(vm_compute; discriminate) Hloop (fun _ => eq_refl)
              ltac:(vm_compute; discriminate) ltac:(vm_compute; discriminate)
              eq_refl (or_intror (or_introl Hsmall)))
    as (s' & H1 & H2 & _).
  exists s'. split; [exact H1|exact H2].
Defined.

Lemma run_keeps_balance_witness :
  exists s',
    run 4 4 sample_signature 31 declared_size 52 32
      [JAILHOUSE_ENABLE sample_enable; JAILHOUSE_CELL_CREATE sample_create;
       JAILHOUSE_CELL_CREATE interrupted_create; JAILHOUSE_CELL_DESTROY;
       JAILHOUSE_DISABLE failing_disable; JAILHOUSE_DISABLE clean_disable;
       JAILHOUSE_ENABLE faulting_enable]
      boot_state = Some s' /\
    lock s' = false /\
    firmware_refs s' = 0 /\
    kmalloc_live s' = 0 /\
    module_refcount s' = 0 /\
    enabled s' = false.
Proof.
  eexists. split; [vm_compute; reflexivity|].
  match goal with
  | |- lock ?t = _ /\ _ =>
      assert (Hrun : run 4 4 sample_signature 31 declared_size 52 32
                [JAILHOUSE_ENABLE sample_enable;
                 JAILHOUSE_CELL_CREATE sample_create;
                 JAILHOUSE_CELL_CREATE interrupted_create;
                 JAILHOUSE_CELL_DESTROY;
                 JAILHOUSE_DISABLE failing_disable;
                 JAILHOUSE_DISABLE clean_disable;
                 JAILHOUSE_ENABLE faulting_enable]
                boot_state = Some t) by (vm_compute; reflexivity);
      destruct (run_keeps_balance 4 4 sample_signature 31 declared_size 52 32
                  _ boot_state t Hrun eq_refl)
        as (H1 & H2 & H3 & H4 & _)
  end.
  split; [exact H1|]. split; [exact H2|]. split; [exact H3|].
  split; [exact H4|reflexivity].
Defined.

Lemma run_never_clears_offlined_witness :
  exists s',
    run 4 4 sample_signature 31 declared_size 52 32
      [JAILHOUSE_DISABLE clean_disable; JAILHOUSE_ENABLE sample_enable]
      enabled_state = Some s' /\
    cpu_online 3 s' = true /\
    cpu_isset 3 (offlined_cpus s') = true.
Proof.
  eexists. split; [vm_compute; reflexivity|].
  split; [reflexivity|].
  refine (run_never_clears_offlined 4 4 sample_signature 31 declared_size
            52 32
            [JAILHOUSE_DISABLE clean_disable; JAILHOUSE_ENABLE sample_enable]
            enabled_state _ 3 _ eq_refl).
  vm_compute; reflexivity.
Defined.

Lemma cell_name_truncated_witness :
  (31 < length (name (desc unterminated_config)))%nat /\
  c_string (name (desc unterminated_config)) = repeat 65 32 /\
  exists s',
    jailhouse_cell_create 31 52 32 unterminated_create enabled_state
    = Some (s', 0) /\
    trace s' =
      [HcCellCreate (terminate_name 31 unterminated_config);
       PrintkCreated (repeat 65 31)].
Proof.
  assert (H : (31 < length (name (desc unterminated_config)))%nat)
    by (vm_compute; apply le_n).
  split; [exact H|]. split; [reflexivity|].
  assert (Hret : exists t,
            jailhouse_cell_create 31 52 32 unterminated_create enabled_state
            = Some (t, 0)) by (eexists; vm_compute; reflexivity).
  destruct Hret as (t & Hret). exists t. split; [exact Hret|].
  destruct (cell_name_truncated 31 52 32 unterminated_create enabled_state
              t 0 unterminated_config eq_refl H Hret)
    as (_ & _ & _ & _ & Hhc & _ & Hok).
  destruct (Hok eq_refl) as (att & Htr).
  assert (Hatt : att = []).
  { assert (Hval : jailhouse_cell_create 31 52 32 unterminated_create
                     enabled_state
                   = Some (mkState false true 3221225472 8 4 0 1 0
                             [mkMapping 3221225472 1073741824 4194304] 0 7
                             [HcCellCreate (terminate_name 31
                                              unterminated_config);
                              PrintkCreated (repeat 65 31)], 0))
      by (vm_compute; reflexivity).
    rewrite Hval in Hret. injection Hret as <-.
    destruct att as [|a att]; [reflexivity|]. discriminate Htr. }
  rewrite Htr, Hatt. reflexivity.
Defined.

Lemma PAGE_ALIGN_rounds_up_witness :
  PAGE_ALIGN 4097 mod PAGE_SIZE = 0 /\
  4097 <= PAGE_ALIGN 4097 < 4097 + PAGE_SIZE.
Proof.
  destruct (PAGE_ALIGN_rounds_up 4097 ltac:(vm_compute; discriminate)
              eq_refl) as (H1 & H2 & _).
  split; [exact H1|exact H2].
Defined.

Lemma PAGE_ALIGN_wraps_witness :
  PAGE_ALIGN (2 ^ 64 - 1) = 0.
Proof.
  apply PAGE_ALIGN_wraps. split; reflexivity.
Defined.

Lemma init_exit_round_trip_witness :
  snd (jailhouse_init (- 131941395333120) 0 (mkRegistry 0 false false)) = 0 /\
  root_device_registered
    (jailhouse_exit
       (fst (jailhouse_init (- 131941395333120) 0 (mkRegistry 0 false false))))
  = false /\
  misc_registered
    (jailhouse_exit
       (fst (jailhouse_init (- 131941395333120) 0 (mkRegistry 0 false false))))
  = false.
Proof.
  split; [reflexivity|].
  destruct (init_exit_round_trip (- 131941395333120) 0
              (mkRegistry 0 false false) eq_refl) as (_ & _ & H3 & H4).
  split; [exact H3|exact H4].
Defined.

Lemma ioctl_failure_witness :
  exists s',
    jailhouse_ioctl 4 4 sample_signature 31 declared_size 52 32
      (JAILHOUSE_CELL_CREATE failing_create) boot_state
    = Some (s', - EBUSY) /\
    enabled s' = false /\
    module_refcount s' = module_refcount boot_state.
Proof.
  eexists. split; [vm_compute; reflexivity|].
  match goal with
  | |- enabled ?t = _ /\ _ =>
      assert (Hret : jailhouse_ioctl 4 4 sample_signature 31 declared_size
                52 32 (JAILHOUSE_CELL_CREATE failing_create) boot_state
              = Some (t, - EBUSY)) by (vm_compute; reflexivity);
      destruct (ioctl_failure 4 4 sample_signature 31 declared_size 52 32
                  (JAILHOUSE_CELL_CREATE failing_create) boot_state)
        as (Hfail & _ & _);
      destruct (Hfail t (- EBUSY) Hret ltac:(discriminate)) as (H1 & H2 & _)
  end.
  split; [exact H1|exact H2].
Defined.

Lemma disable_cpu_up_calls_witness :
  exists s',
    jailhouse_disable 4 clean_disable enabled_state = Some (s', 0) /\
    cpu_up_calls (trace s') = [(3, 0)].
Proof.
  eexists. split; [vm_compute; reflexivity|].
  match goal with
  | |- cpu_up_calls (trace ?t) = _ =>
      assert (Hret : jailhouse_disable 4 clean_disable enabled_state
                     = Some (t, 0)) by (vm_compute; reflexivity);
      destruct (disable_cpu_up_calls 4 clean_disable enabled_state t 0 Hret)
        as [H _]
  end.
  exact (proj1 (H eq_refl)).
Defined.

Lemma minimal_cell_on_driver_witness :
  (exists s' err,
     jailhouse_cell_create 31 52 32 sample_create enabled_state
     = Some (s', err) /\
     cpu_down_calls (trace s') = []) /\
  (exists s' err,
     jailhouse_cell_create 31 52 32 sample_create boot_state
     = Some (s', err) /\
     cpu_down_calls (trace s') = [(3, 0)]) /\
  cell_memory_invalid (terminate_name 31 minimal_config) sample_image = false.
Proof.
  destruct (minimal_cell_on_driver 31 52 32 sample_create enabled_state
              (mkNewCell 4194304 8288 1) sample_image
              eq_refl eq_refl eq_refl eq_refl eq_refl
              ltac:(vm_compute; discriminate) ltac:(vm_compute; discriminate)
              ltac:(vm_compute; discriminate)) as [H1 H2].
  destruct (minimal_cell_on_driver 31 52 32 sample_create boot_state
              (mkNewCell 4194304 8288 1) sample_image
              eq_refl eq_refl eq_refl eq_refl eq_refl
              ltac:(vm_compute; discriminate) ltac:(vm_compute; discriminate)
              ltac:(vm_compute; discriminate)) as [H3 _].
  split; [exact H1|]. split; [exact H3|].
  apply H2; vm_compute; discriminate.
Defined.
